(** * upload_to_harpin: a shallow embedding of the CSV upload script

    The script [upload_to_harpin.py] is a linear pipeline of HTTP calls:
    authenticate, validate the file and the source, check the number of
    uploads in flight, create an upload, transfer the file, and poll the two
    server-side phases.  This development embeds its functions as Rocq
    functions and proves properties of them.

    Conventions of the embedding.
    - The network is a _script_: the list of outcomes that successive HTTP
      requests will meet, in order (a response, or a transport failure).
      Every function consumes the script from the left.  When the script is
      used up the request never completes ([Pending]).
    - A Python function is a computation [proc A]: it takes the script and
      gives an outcome (a returned value, [sys.exit(code)], a raised
      exception, or [Pending]), the rest of the script and the trace of
      observable events (log lines, sleeps, requests).
    - Response bodies are parsed JSON documents ([json]); [JNum] stands for
      the JSON integers. *)

From Stdlib Require Import ZArith List String Ascii Bool Lia.
From stdpp Require Import base option list strings gmap.
Import ListNotations.

Local Open Scope string_scope.
Local Open Scope list_scope.
Local Open Scope Z_scope.

(** ** Configuration and constants *)

Definition API_BASE_URL : string := "https://api.harpin.ai".
Definition MAX_CONCURRENT_UPLOADS : Z := 3.
Definition MAX_FILE_SIZE_GB : Z := 5.
Definition MAX_FILE_SIZE_BYTES : Z := MAX_FILE_SIZE_GB * 1024 * 1024 * 1024.
Definition RETRY_ATTEMPTS : Z := 3.
Definition RETRY_DELAY_SECONDS : Z := 10.
Definition POLL_INTERVAL_SECONDS : Z := 5.

Definition EXIT_SUCCESS : Z := 0.
Definition EXIT_USER_ERROR : Z := 1.
Definition EXIT_SYSTEM_ERROR : Z := 2.

(** ** Numbers: Python [int] and the binary64 values [format_file_size] meets *)

Module PyNum.

(** A binary64 value [mant * 2^expo].  Only the floats that arise from
    converting an integer and dividing it by [1024.0] are needed; all of
    them have this form. *)
Record dyadic := Dyadic { mant : Z; expo : Z }.

(** The variable [size_bytes] holds an [int] on entry and a [float] after
    the first division. *)
Inductive num :=
| NInt (n : Z)
| NFloat (x : dyadic).

Definition FLOAT_MANT_BITS : Z := 53.
Definition FLOAT_MAX_EXP : Z := 1024.

(** [float(n)] for [0 <= n]: exact below [2^53], otherwise rounded to 53
    significant bits, ties to even. *)
Definition round_nat_to_float (n : Z) : dyadic :=
  if n <? 2 ^ FLOAT_MANT_BITS then Dyadic n 0
  else
    let e := Z.log2 n - (FLOAT_MANT_BITS - 1) in
    let q := n / 2 ^ e in
    let r := n mod 2 ^ e in
    let half := 2 ^ (e - 1) in
    let m := if r <? half then q
             else if half <? r then q + 1
             else if Z.even q then q else q + 1 in
    Dyadic m e.

(** Conversion of an [int] to [float]; [None] is Python's [OverflowError]
    ("int too large to convert to float"). *)
Definition float_of_int (n : Z) : option dyadic :=
  let d := round_nat_to_float (Z.abs n) in
  if 2 ^ FLOAT_MAX_EXP <=? mant d * 2 ^ expo d then None
  else Some (Dyadic (Z.sgn n * mant d) (expo d)).

(** [x < 1024.0].  Python compares an [int] with a [float] exactly. *)
Definition dyadic_ltb_int (x : dyadic) (k : Z) : bool :=
  if 0 <=? expo x then mant x * 2 ^ expo x <? k
  else mant x <? k * 2 ^ (- expo x).

Definition lt_1024 (x : num) : bool :=
  match x with
  | NInt n => n <? 1024
  | NFloat d => dyadic_ltb_int d 1024
  end.

(** [x / 1024.0]: an [int] is converted first; dividing a binary64 by a
    power of two lowers the exponent and is exact (the values divided here
    are at least 1024, far from the subnormal range). *)
Definition truediv_1024 (x : num) : option dyadic :=
  match x with
  | NInt n =>
      match float_of_int n with
      | Some d => Some (Dyadic (mant d) (expo d - 10))
      | None => None
      end
  | NFloat d => Some (Dyadic (mant d) (expo d - 10))
  end.

(** Division rounding to the nearest integer, ties to even, for [0 < b]. *)
Definition div_half_even (a b : Z) : Z :=
  let q := a / b in
  let r := a mod b in
  if 2 * r <? b then q
  else if b <? 2 * r then q + 1
  else if Z.even q then q else q + 1.

(** The number of hundredths printed by the format [.2f]: the value times
    100, correctly rounded. *)
Definition hundredths (d : dyadic) : Z :=
  let a := Z.abs (mant d) * 100 in
  Z.sgn (mant d) *
  (if 0 <=? expo d then a * 2 ^ expo d
   else div_half_even a (2 ^ (- expo d))).

Definition digit (d : Z) : string :=
  String (ascii_of_nat (Z.to_nat (48 + d))) EmptyString.

Fixpoint decimal_digits (fuel : nat) (n : Z) (acc : string) : string :=
  match fuel with
  | O => acc
  | S fuel' =>
      let acc' := digit (n mod 10) +:+ acc in
      if n <? 10 then acc' else decimal_digits fuel' (n / 10) acc'
  end.

(** Decimal numeral of [0 <= n]. *)
Definition decimal (n : Z) : string :=
  decimal_digits (S (Z.to_nat (Z.log2 n))) n EmptyString.

(** [f"{x:.2f}"] from the number of hundredths. *)
Definition render_fixed2 (h : Z) : string :=
  let a := Z.abs h in
  (if h <? 0 then "-" else EmptyString) +:+ decimal (a / 100) +:+ "." +:+
  digit (a mod 100 / 10) +:+ digit (a mod 10).

(** [f"{x:.2f}"] for the value of [size_bytes]. *)
Definition format_2f (x : num) : option string :=
  match x with
  | NInt n =>
      match float_of_int n with
      | Some d => Some (render_fixed2 (hundredths d))
      | None => None
      end
  | NFloat d => Some (render_fixed2 (hundredths d))
  end.

End PyNum.
Import PyNum.

(** ** Helper functions *)

(** The body of the [for unit in ['B', 'KB', 'MB', 'GB']] loop of
    [format_file_size] together with the final [return]: the scaled value
    and the unit chosen.  [None] is an [OverflowError]. *)
Fixpoint format_file_size_loop (units : list string) (size_bytes : num)
  : option (num * string) :=
  match units with
  | [] => Some (size_bytes, "TB")
  | unit :: units' =>
      if lt_1024 size_bytes then Some (size_bytes, unit)
      else
        match truediv_1024 size_bytes with
        | Some d => format_file_size_loop units' (NFloat d)
        | None => None
        end
  end.

Definition format_file_size_parts (size_bytes : Z) : option (num * string) :=
  format_file_size_loop ["B"; "KB"; "MB"; "GB"] (NInt size_bytes).

(** [format_file_size]: [f"{size_bytes:.2f} {unit}"]. *)
Definition format_file_size (size_bytes : Z) : option string :=
  match format_file_size_parts size_bytes with
  | Some (x, unit) =>
      match format_2f x with
      | Some s => Some (s +:+ " " +:+ unit)
      | None => None
      end
  | None => None
  end.


(** ** Python values *)

(** A Python [str] read from the environment: its code points. *)
Abbreviation pystr := (list N).

Module PyStr.

(** [str.isspace] for one code point: the characters Python's [str.strip]
    removes when called without argument. *)
Definition isspace (c : N) : bool :=
  ((9 <=? c) && (c <=? 13) || (28 <=? c) && (c <=? 32) ||
   (c =? 133) || (c =? 160) || (c =? 5760) ||
   (8192 <=? c) && (c <=? 8202) || (c =? 8232) || (c =? 8233) ||
   (c =? 8239) || (c =? 8287) || (c =? 12288))%N.

Fixpoint lstrip (s : pystr) : pystr :=
  match s with
  | [] => []
  | c :: s' => if isspace c then lstrip s' else s
  end.

Definition rstrip (s : pystr) : pystr := rev (lstrip (rev s)).

(** [s.strip()] *)
Definition strip (s : pystr) : pystr := rstrip (lstrip s).

(** The code points of an ASCII literal. *)
Fixpoint of_string (s : string) : pystr :=
  match s with
  | EmptyString => []
  | String a s' => N_of_ascii a :: of_string s'
  end.

End PyStr.

(** The value of [response.json()]: a parsed JSON document.  [JNull] is also
    Python's [None]. *)
#[warnings="-register-all"]
Inductive json :=
| JNull
| JBool (b : bool)
| JNum (n : Z)
| JStr (s : string)
| JList (items : list json)
| JObj (fields : list (string * json)).

Module Py.

(** A [dict] as the list of its items; a key is looked up from the left. *)
Fixpoint lookup (key : string) (fields : list (string * json)) : option json :=
  match fields with
  | [] => None
  | (k, v) :: fields' => if String.eqb k key then Some v else lookup key fields'
  end.

(** [d.get(key, default)] on a [dict]. *)
Definition dict_get (fields : list (string * json)) (key : string)
    (default : json) : json :=
  match lookup key fields with
  | Some v => v
  | None => default
  end.

(** Python's [==] on these values: [bool] is a subtype of [int], lists are
    compared item by item, dicts as mappings. *)
Fixpoint eq (a b : json) {struct a} : bool :=
  match a, b with
  | JNull, JNull => true
  | JBool x, JBool y => Bool.eqb x y
  | JBool x, JNum n => (if x then 1 else 0) =? n
  | JNum n, JBool y => n =? (if y then 1 else 0)
  | JNum n, JNum m => n =? m
  | JStr s, JStr t => String.eqb s t
  | JList xs, JList ys =>
      (fix items (xs ys : list json) {struct xs} : bool :=
         match xs, ys with
         | [], [] => true
         | x :: xs', y :: ys' => eq x y && items xs' ys'
         | _, _ => false
         end) xs ys
  | JObj d, JObj d' =>
      (length d =? length d')%nat &&
      (fix fields (d : list (string * json)) {struct d} : bool :=
         match d with
         | [] => true
         | (k, v) :: rest =>
             match lookup k d' with
             | Some w => eq v w
             | None => false
             end && fields rest
         end) d
  | _, _ => false
  end.

(** [x in [s1, s2, ...]] for a list of string literals. *)
Definition in_strings (x : json) (l : list string) : bool :=
  existsb (fun s => eq x (JStr s)) l.

(** Truth value of an object in a condition. *)
Definition truthy (x : json) : bool :=
  match x with
  | JNull => false
  | JBool b => b
  | JNum n => negb (n =? 0)
  | JStr s => negb (String.eqb s EmptyString)
  | JList l => match l with [] => false | _ => true end
  | JObj d => match d with [] => false | _ => true end
  end.

(** [type(x).__name__] *)
Definition type_name (x : json) : string :=
  match x with
  | JNull => "NoneType"
  | JBool _ => "bool"
  | JNum _ => "int"
  | JStr _ => "str"
  | JList _ => "list"
  | JObj _ => "dict"
  end.

Definition isinstance_dict (x : json) : bool :=
  match x with JObj _ => true | _ => false end.

Fixpoint chars (s : string) : list json :=
  match s with
  | EmptyString => []
  | String a s' => JStr (String a EmptyString) :: chars s'
  end.

(** The items a [for] loop visits; [None] when the value is not iterable
    ([TypeError]).  A dict yields its keys, a string its characters. *)
Definition iter (x : json) : option (list json) :=
  match x with
  | JList l => Some l
  | JObj d => Some (map (fun kv => JStr (fst kv)) d)
  | JStr s => Some (chars s)
  | _ => None
  end.

(** [range(lo, hi)] *)
Definition range (lo hi : Z) : list Z :=
  map (fun i => lo + Z.of_nat i) (seq 0 (Z.to_nat (hi - lo))).

End Py.

(** ** Exceptions, events and the network script *)

(** The error numbers [os.stat] fails with: the four that [pathlib] reads
    as "no such path", and the others (a name too long, a directory that
    may not be searched, ...). *)
Inductive errno :=
| ENOENT | ENOTDIR | EBADF | ELOOP
| EACCES | ENAMETOOLONG
| Errno (code : Z).

Inductive exn :=
| RequestException (detail : string)   (* requests.exceptions.RequestException *)
| AttributeError                       (* [.get] on a value that is no dict *)
| TypeError                            (* iterating a value that is not iterable *)
| OverflowError                        (* int too large to convert to float *)
| OSError (e : errno).                 (* a failed system call *)

Inductive level := INFO | SUCCESS | ERROR | PROGRESS.

(** The pieces of an f-string: literal text and interpolated values. *)
Inductive frag :=
| Lit (s : string)
| Str (s : string)          (* an interpolated [str] *)
| Int (n : Z)               (* an interpolated [int] *)
| Val (v : json)            (* [str(v)] of a value taken from a response *)
| Dumps (v : json)          (* [json.dumps(v, indent=2)] *)
| ExcStr (e : exn)          (* [str(e)] of an exception *)
| Elapsed                   (* a wall-clock duration, [:.1f] *)
| Text (v : json).          (* [response.text] of an answer with the body [v] *)

Inductive method := GET | POST | PUT.

Inductive payload :=
| NoBody
| TokenBody (clientId refreshToken : pystr)
| JsonBody (v : json)
| FileBody (path : string) (content_length : Z).

Record request := Request {
  req_method : method;
  req_url : list frag;           (* the URL, as the f-string that builds it *)
  req_bearer : option json;       (* the Authorization header *)
  req_payload : payload;
  req_timeout : Z
}.

Inductive event :=
| Log (lv : level) (msg : list frag)   (* log_info, log_success, log_error, log_progress *)
| Print (msg : list frag)              (* a bare print *)
| Sleep (seconds : Z)                  (* time.sleep *)
| Http (r : request)                   (* a request sent *)
| Traceback (e : exn).                 (* traceback.print_exc *)

Record response := Response { status_code : Z; body : json }.

(** What a request meets: a transport-level failure or a response. *)
Inductive net_outcome :=
| NetError (detail : string)
| NetResponse (r : response).

Definition script : Type := list net_outcome.

(** ** Computations *)

Inductive outcome (A : Type) :=
| Return (a : A)
| Exit (code : Z)        (* sys.exit(code) *)
| Raise (e : exn)
| Pending.               (* waiting for a response that does not come *)

Arguments Return {A} a.
Arguments Exit {A} code.
Arguments Raise {A} e.
Arguments Pending {A}.

Definition proc (A : Type) : Type :=
  script -> outcome A * script * list event.

Module Proc.

Definition ret {A} (a : A) : proc A := fun w => (Return a, w, []).

Definition bind {A B} (m : proc A) (k : A -> proc B) : proc B :=
  fun w =>
    match m w with
    | (Return a, w1, t1) =>
        match k a w1 with
        | (o, w2, t2) => (o, w2, t1 ++ t2)
        end
    | (Exit c, w1, t1) => (Exit c, w1, t1)
    | (Raise e, w1, t1) => (Raise e, w1, t1)
    | (Pending, w1, t1) => (Pending, w1, t1)
    end.

Definition sys_exit {A} (code : Z) : proc A := fun w => (Exit code, w, []).

Definition raise {A} (e : exn) : proc A := fun w => (Raise e, w, []).

Definition emit (e : event) : proc unit := fun w => (Return tt, w, [e]).

(** [try: m  except requests.exceptions.RequestException as e: handler e] *)
Definition try_except_RequestException {A} (m : proc A)
    (handler : string -> proc A) : proc A :=
  fun w =>
    match m w with
    | (Raise (RequestException detail), w1, t1) =>
        match handler detail w1 with
        | (o, w2, t2) => (o, w2, t1 ++ t2)
        end
    | r => r
    end.

(** [try: m  except Exception as e: handler e].  [SystemExit] is no
    [Exception] and passes. *)
Definition try_except_Exception {A} (m : proc A)
    (handler : exn -> proc A) : proc A :=
  fun w =>
    match m w with
    | (Raise e, w1, t1) =>
        match handler e w1 with
        | (o, w2, t2) => (o, w2, t1 ++ t2)
        end
    | r => r
    end.

(** A request: the next entry of the script answers it. *)
Definition send (r : request) : proc response :=
  fun w =>
    match w with
    | [] => (Pending, [], [Http r])
    | NetError detail :: w' => (Raise (RequestException detail), w', [Http r])
    | NetResponse resp :: w' => (Return resp, w', [Http r])
    end.

End Proc.
Import Proc.

Notation "'let!' x ':=' m 'in' k" := (bind m (fun x => k))
  (at level 10, x name, m at level 100, k at level 200, only parsing).
Notation "m >>> k" := (bind m (fun _ => k))
  (at level 90, right associativity, only parsing).

Definition log_info (msg : list frag) : proc unit := emit (Log INFO msg).
Definition log_success (msg : list frag) : proc unit := emit (Log SUCCESS msg).
Definition log_error (msg : list frag) : proc unit := emit (Log ERROR msg).
Definition log_progress (msg : list frag) : proc unit := emit (Log PROGRESS msg).
Definition print (msg : list frag) : proc unit := emit (Print msg).
Definition time_sleep (seconds : Z) : proc unit := emit (Sleep seconds).

(** [x.get(key, default)]: an [AttributeError] unless [x] is a dict. *)
Definition py_get (x : json) (key : string) (default : json) : proc json :=
  match x with
  | JObj d => ret (Py.dict_get d key default)
  | _ => raise AttributeError
  end.

(** [for x in l: f x] *)
Fixpoint for_each {A} (l : list A) (f : A -> proc unit) : proc unit :=
  match l with
  | [] => ret tt
  | x :: l' => f x >>> for_each l' f
  end.

(** The headers of an authenticated call. *)
Definition bearer (access_token : json) : option json := Some access_token.

(** [retry_on_network_error]: the loop [for attempt in range(1,
    RETRY_ATTEMPTS + 1)] of [wrapper], then [raise last_exception]. *)
Fixpoint retry_loop {A} (func : proc A) (attempts : list Z)
    (last_exception : option exn) : proc A :=
  match attempts with
  | [] =>
      match last_exception with
      | Some e => raise e
      | None => raise TypeError
      end
  | attempt :: attempts' =>
      try_except_RequestException func
        (fun e =>
           (if attempt <? RETRY_ATTEMPTS then
              log_progress [Lit "Network error (attempt "; Int attempt; Lit "/";
                            Int RETRY_ATTEMPTS; Lit "): "; Str e] >>>
              log_progress [Lit "Retrying in "; Int RETRY_DELAY_SECONDS;
                            Lit " seconds..."] >>>
              time_sleep RETRY_DELAY_SECONDS
            else
              log_error [Lit "Network error after "; Int RETRY_ATTEMPTS;
                         Lit " attempts: "; Str e]) >>>
           retry_loop func attempts' (Some (RequestException e)))
  end.

Definition retry_on_network_error {A} (func : proc A) : proc A :=
  retry_loop func (Py.range 1 (RETRY_ATTEMPTS + 1)) None.

(** ** The environment of the process *)

(** [os.environ] *)
Abbreviation environ := (gmap string pystr).

(** What the file system knows of a path.  [st_size] is an [off_t]: a
    signed 64-bit integer, never negative. *)
Record file_entry := FileEntry {
  is_file : bool;        (* a regular file *)
  readable : bool;       (* os.access(path, os.R_OK) *)
  st_size : Z;
  st_size_range : (0 <=? st_size) && (st_size <? 2 ^ 63) = true
}.

(** What [os.stat] answers for a path: the entry, or the error number of
    the [OSError] it raises. *)
Inductive stat_result :=
| Stat (path : file_entry)
| StatError (e : errno).

(** The file system: what [os.stat] answers for each path.  For a path
    that is not in the map it raises [FileNotFoundError] ([ENOENT]). *)
Abbreviation filesystem := (gmap string stat_result).

Module PyPath.

Fixpoint split_slash (s : string) (cur : string) : list string :=
  match s with
  | EmptyString => [cur]
  | String c s' =>
      if Ascii.eqb c "/" then cur :: split_slash s' EmptyString
      else split_slash s' (cur +:+ String c EmptyString)
  end.

(** [Path(p).name]: the final component of the path. *)
Definition name (p : string) : string :=
  List.last
    (List.filter (fun c => negb (String.eqb c EmptyString || String.eqb c "."))
       (split_slash p EmptyString))
    EmptyString.

(** [pathlib._ignore_error]: the failures of [os.stat] that [Path.exists]
    and [Path.is_file] read as "no such path" instead of raising. *)
Definition ignore_error (e : errno) : bool :=
  match e with
  | ENOENT | ENOTDIR | EBADF | ELOOP => true
  | _ => false
  end.

(** [Path.stat()] *)
Definition stat (fs : filesystem) (p : string) : proc file_entry :=
  match fs !! p with
  | Some (Stat path) => ret path
  | Some (StatError e) => raise (OSError e)
  | None => raise (OSError ENOENT)
  end.

(** [Path.exists()]: [self.stat()], with the errors of [_ignore_error]
    answered [False] and the others raised. *)
Definition exists_ (fs : filesystem) (p : string) : proc bool :=
  match fs !! p with
  | Some (Stat _) => ret true
  | Some (StatError e) => if ignore_error e then ret false else raise (OSError e)
  | None => ret false
  end.

(** [Path.is_file()]: [S_ISREG(self.stat().st_mode)], with the same
    treatment of the errors. *)
Definition is_file (fs : filesystem) (p : string) : proc bool :=
  match fs !! p with
  | Some (Stat path) => ret (is_file path)
  | Some (StatError e) => if ignore_error e then ret false else raise (OSError e)
  | None => ret false
  end.

End PyPath.

(** [os.access(path, os.R_OK)]: [False] when the call fails. *)
Definition os_access_R_OK (fs : filesystem) (p : string) : bool :=
  match fs !! p with
  | Some (Stat path) => readable path
  | _ => false
  end.

Definition NL : string := String "010" EmptyString.

(** ["=" * 60] *)
Definition RULE : string :=
  "============================================================".

(** ** Authentication *)

(** Where the script prints the details of a refused call it tries
    [response.json()] and falls back on [response.text]; bodies are JSON
    documents here, so the first always applies. *)

Definition get_access_token (env : environ) : proc json :=
  let client_id := PyStr.strip (default [] (env !! "HARPIN_CLIENT_ID")) in
  let refresh_token := PyStr.strip (default [] (env !! "HARPIN_REFRESH_TOKEN")) in
  let missing_vars :=
    (match client_id with [] => ["HARPIN_CLIENT_ID"] | _ => [] end) ++
    (match refresh_token with [] => ["HARPIN_REFRESH_TOKEN"] | _ => [] end) in
  match missing_vars with
  | _ :: _ =>
      log_error [Lit "Missing required environment variables:"] >>>
      for_each missing_vars (fun var => log_error [Lit "  - "; Str var]) >>>
      log_error [Lit NL;
                 Lit "Please set these environment variables before running the script."] >>>
      sys_exit EXIT_USER_ERROR
  | [] =>
      log_progress [Lit "Authenticating with harpin AI..."] >>>
      try_except_RequestException
        (let! response :=
           send (Request POST [Lit API_BASE_URL; Lit "/token"] None
                   (TokenBody client_id refresh_token) 30) in
         if status_code response =? 200 then
           let data := body response in
           let! access_token := py_get data "accessToken" JNull in
           if Py.truthy access_token then
             log_success [Lit "Authentication successful"] >>>
             ret access_token
           else
             log_error [Lit "Authentication response missing access token"] >>>
             sys_exit EXIT_USER_ERROR
         else
           log_error [Lit "Authentication failed with status ";
                      Int (status_code response)] >>>
           log_error [Lit "Error details: "; Dumps (body response)] >>>
           sys_exit EXIT_USER_ERROR)
        (fun e =>
           log_error [Lit "Authentication request failed: "; Str e] >>>
           sys_exit EXIT_USER_ERROR)
  end.

(** ** Validation functions *)

(** [format_file_size] inside an f-string. *)
Definition formatted_size (size_bytes : Z) : proc string :=
  match format_file_size size_bytes with
  | Some s => ret s
  | None => raise OverflowError
  end.

Definition validate_file (fs : filesystem) (file_path : string)
  : proc (string * Z) :=
  log_progress [Lit "Validating file..."] >>>
  (* Check if file exists *)
  let! found := PyPath.exists_ fs file_path in
  if negb found then
    log_error [Lit "File not found: "; Str file_path] >>>
    sys_exit EXIT_USER_ERROR
  else
    (* Check if it's a file (not a directory) *)
    let! regular := PyPath.is_file fs file_path in
    if negb regular then
      log_error [Lit "Path is not a file: "; Str file_path] >>>
      sys_exit EXIT_USER_ERROR
    (* Check if file is readable *)
    else if negb (os_access_R_OK fs file_path) then
      log_error [Lit "File is not readable: "; Str file_path] >>>
      sys_exit EXIT_USER_ERROR
    else
      (* Check file size *)
      let! st := PyPath.stat fs file_path in
      let file_size := st_size st in
      if file_size >? MAX_FILE_SIZE_BYTES then
        let! s := formatted_size file_size in
        log_error [Lit "File size ("; Str s;
                   Lit ") exceeds maximum allowed size (";
                   Int MAX_FILE_SIZE_GB; Lit " GB)"] >>>
        sys_exit EXIT_USER_ERROR
      else
        let! s := formatted_size file_size in
        log_success [Lit "File validated: "; Str (PyPath.name file_path);
                     Lit " ("; Str s; Lit ")"] >>>
        ret (file_path, file_size).

(** [for s in x]: the items, or a [TypeError]. *)
Definition py_iter (x : json) : proc (list json) :=
  match Py.iter x with
  | Some l => ret l
  | None => raise TypeError
  end.

(** [[s for s in sources if s.get('sourceSystem') == 'flatFile']] *)
Fixpoint flat_file_filter (sources : list json) : proc (list json) :=
  match sources with
  | [] => ret []
  | s :: sources' =>
      let! source_system := py_get s "sourceSystem" JNull in
      let! rest := flat_file_filter sources' in
      ret (if Py.eq source_system (JStr "flatFile") then s :: rest else rest)
  end.

(** The [elif response.status_code == 404] branch of [validate_source] up to
    its [sys.exit]: the listing of the available sources. *)
Definition list_available_sources (access_token : json) : proc unit :=
  try_except_RequestException
    (let! sources_response :=
       send (Request GET [Lit API_BASE_URL; Lit "/sources"]
               (bearer access_token) NoBody 30) in
     if status_code sources_response =? 200 then
       let sources_data := body sources_response in
       let! sources := py_get sources_data "content" (JList []) in
       let! items := py_iter sources in
       let! flat_file_sources := flat_file_filter items in
       match flat_file_sources with
       | _ :: _ =>
           log_info [Lit NL; Lit "Available flatFile sources:"] >>>
           for_each flat_file_sources (fun source =>
             let! source_id_val := py_get source "id" (JStr "N/A") in
             let! source_name := py_get source "name" (JStr "N/A") in
             log_info [Lit "ID: "; Val source_id_val; Lit ", Name: ";
                       Val source_name])
       | [] => log_info [Lit "No flatFile sources available"]
       end
     else
       log_error [Lit "Failed to retrieve available sources"])
    (fun e =>
       log_error [Lit "Failed to retrieve available sources: "; Str e]).

Definition validate_source (source_id : string) (access_token : json)
  : proc bool :=
  log_progress [Lit "Validating source ID: "; Str source_id; Lit "..."] >>>
  try_except_RequestException
    (let! response :=
       send (Request GET [Lit API_BASE_URL; Lit "/sources/"; Str source_id]
               (bearer access_token) NoBody 30) in
     if status_code response =? 200 then
       let source_data := body response in
       let! source_system := py_get source_data "sourceSystem" (JStr "unknown") in
       if negb (Py.eq source_system (JStr "flatFile")) then
         log_error [Lit "Invalid source type: sourceSystem is of type '";
                    Val source_system; Lit "', must be of type 'flatFile'"] >>>
         sys_exit EXIT_USER_ERROR
       else
         log_success [Lit "Source ID validated: "; Str source_id] >>>
         ret true
     else if status_code response =? 404 then
       log_error [Lit "Invalid source ID: "; Str source_id] >>>
       log_info [Lit "Fetching available sources..."] >>>
       list_available_sources access_token >>>
       sys_exit EXIT_USER_ERROR
     else
       log_error [Lit "Failed to validate source ID (status ";
                  Int (status_code response); Lit ")"] >>>
       sys_exit EXIT_USER_ERROR)
    (fun e =>
       log_error [Lit "Failed to validate source ID: "; Str e] >>>
       sys_exit EXIT_USER_ERROR).

Definition in_progress_statuses : list string :=
  ["created"; "analysisInProgress"; "analysisCompleted"; "importRequested";
   "importInProgress"].

(** The loop [for u in uploads] of [check_concurrent_uploads]; gives the
    list [in_progress]. *)
Fixpoint collect_in_progress (uploads : list json) (in_progress : list json)
  : proc (list json) :=
  match uploads with
  | [] => ret in_progress
  | u :: uploads' =>
      if negb (Py.isinstance_dict u) then
        log_info [Lit "Warning: Skipping non-dictionary upload item: ";
                  Str (Py.type_name u)] >>>
        collect_in_progress uploads' in_progress
      else
        let! status := py_get u "status" JNull in
        if Py.in_strings status in_progress_statuses then
          collect_in_progress uploads' (in_progress ++ [u])
        else
          collect_in_progress uploads' in_progress
  end.

Definition check_concurrent_uploads (source_id : string) (access_token : json)
  : proc unit :=
  log_progress [Lit "Checking concurrent uploads..."] >>>
  try_except_RequestException
    (let! response :=
       send (Request GET [Lit API_BASE_URL; Lit "/sources/"; Str source_id;
                          Lit "/uploads"]
               (bearer access_token) NoBody 30) in
     if status_code response =? 200 then
       let uploads := body response in
       let! uploads :=
         match uploads with
         | JObj d => ret (Py.dict_get d "content" (JList []))
         | JList _ => ret uploads
         | _ =>
             log_error [Lit "Unexpected response format from uploads API: expected list or dict, got ";
                        Str (Py.type_name uploads)] >>>
             sys_exit EXIT_SYSTEM_ERROR
         end in
       let! items := py_iter uploads in
       let! in_progress := collect_in_progress items [] in
       let in_progress_count := Z.of_nat (length in_progress) in
       if in_progress_count >=? MAX_CONCURRENT_UPLOADS then
         log_error [Lit "Maximum concurrent uploads ("; Int MAX_CONCURRENT_UPLOADS;
                    Lit ") reached"] >>>
         log_error [Lit "Currently "; Int in_progress_count;
                    Lit " upload(s) in progress"] >>>
         log_info [Lit "Please wait for existing uploads to complete before starting a new one"] >>>
         sys_exit EXIT_USER_ERROR
       else
         log_success [Lit "Concurrent uploads check passed ("; Int in_progress_count;
                      Lit "/"; Int MAX_CONCURRENT_UPLOADS; Lit ")"]
     else
       log_error [Lit "Failed to check concurrent uploads (status ";
                  Int (status_code response); Lit ")"] >>>
       sys_exit EXIT_SYSTEM_ERROR)
    (fun e =>
       log_error [Lit "Failed to check concurrent uploads: "; Str e] >>>
       sys_exit EXIT_SYSTEM_ERROR).

(** ** Upload workflow *)

(** The functions below are decorated with [@retry_on_network_error]; the
    undecorated function is named as Python does, [f.__wrapped__]. *)

Definition create_upload__wrapped (source_id file_name : string)
    (access_token : json) : proc (json * json) :=
  log_progress [Lit "Creating upload..."] >>>
  let! response :=
    send (Request POST [Lit API_BASE_URL; Lit "/sources/"; Str source_id;
                        Lit "/uploads"]
            (bearer access_token)
            (JsonBody (JObj [("fileName", JStr file_name)])) 30) in
  if (status_code response =? 200) || (status_code response =? 201) then
    let data := body response in
    let! upload_id := py_get data "id" JNull in
    let! presigned_url := py_get data "url" JNull in
    if negb (Py.truthy upload_id) || negb (Py.truthy presigned_url) then
      log_error [Lit "Create upload response missing required fields"] >>>
      sys_exit EXIT_SYSTEM_ERROR
    else
      log_success [Lit "Upload created: "; Val upload_id] >>>
      ret (upload_id, presigned_url)
  else
    log_error [Lit "Failed to create upload (status ";
               Int (status_code response); Lit ")"] >>>
    log_error [Lit "Error details: "; Dumps (body response)] >>>
    sys_exit EXIT_SYSTEM_ERROR.

Definition create_upload (source_id file_name : string) (access_token : json)
  : proc (json * json) :=
  retry_on_network_error (create_upload__wrapped source_id file_name access_token).

(** The progress bar has no effect on the transfer and is left out. *)
Definition upload_to_s3__wrapped (presigned_url : json) (file_path : string)
    (file_size : Z) : proc unit :=
  log_progress [Lit "Uploading "; Str (PyPath.name file_path); Lit " to S3..."] >>>
  let! response :=
    send (Request PUT [Val presigned_url] None
            (FileBody file_path file_size) 300) in
  if status_code response =? 200 then
    log_success [Lit "File uploaded to S3 successfully"]
  else
    log_error [Lit "S3 upload failed (status "; Int (status_code response);
               Lit ")"] >>>
    log_error [Lit "Response: "; Text (body response)] >>>
    sys_exit EXIT_SYSTEM_ERROR.

Definition upload_to_s3 (presigned_url : json) (file_path : string)
    (file_size : Z) : proc unit :=
  retry_on_network_error (upload_to_s3__wrapped presigned_url file_path file_size).

(** The [while True] loop of [poll_status].  Every turn sends one request,
    so a script of [n] entries allows at most [n] full turns; [fuel] counts
    the turns left and [poll_status__wrapped] starts it above that. *)
Fixpoint poll_loop (fuel : nat) (source_id : string) (upload_id : json)
    (access_token : json) (target_status phase_name : string)
    (last_status : json) : proc json :=
  match fuel with
  | O => fun w => (Pending, w, [])
  | S fuel' =>
      let! response :=
        send (Request GET [Lit API_BASE_URL; Lit "/sources/"; Str source_id;
                           Lit "/uploads/"; Val upload_id]
                (bearer access_token) NoBody 30) in
      if status_code response =? 200 then
        let data := body response in
        let! current_status := py_get data "status" JNull in
        (* Log status changes *)
        let changed := negb (Py.eq current_status last_status) in
        (if changed then log_info [Lit "Status: "; Val current_status]
         else ret tt) >>>
        let last_status := if changed then current_status else last_status in
        (* Check for failure *)
        if Py.eq current_status (JStr "failed") then
          let! error_message := py_get data "errorMessage" (JStr "Unknown error") in
          log_error [Str phase_name; Lit " failed: "; Val error_message] >>>
          sys_exit EXIT_SYSTEM_ERROR
        (* Check if target status reached *)
        else if Py.eq current_status (JStr target_status) then
          log_success [Str phase_name; Lit " completed in "; Elapsed;
                       Lit " seconds"] >>>
          ret data
        else
          (* Wait before next poll *)
          time_sleep POLL_INTERVAL_SECONDS >>>
          poll_loop fuel' source_id upload_id access_token target_status
            phase_name last_status
      else
        log_error [Lit "Failed to poll status (status ";
                   Int (status_code response); Lit ")"] >>>
        sys_exit EXIT_SYSTEM_ERROR
  end.

Definition poll_status__wrapped (source_id : string) (upload_id : json)
    (access_token : json) (target_status phase_name : string) : proc json :=
  fun w =>
    (log_progress [Lit "Waiting for "; Str phase_name; Lit "..."] >>>
     poll_loop (S (length w)) source_id upload_id access_token target_status
       phase_name JNull) w.

Definition poll_status (source_id : string) (upload_id : json)
    (access_token : json) (target_status phase_name : string) : proc json :=
  retry_on_network_error
    (poll_status__wrapped source_id upload_id access_token target_status
       phase_name).

Definition request_import__wrapped (source_id : string) (upload_id : json)
    (access_token : json) : proc unit :=
  log_progress [Lit "Requesting import..."] >>>
  let! response :=
    send (Request PUT [Lit API_BASE_URL; Lit "/sources/"; Str source_id;
                       Lit "/uploads/"; Val upload_id; Lit "/status"]
            (bearer access_token)
            (JsonBody (JObj [("status", JStr "importRequested")])) 30) in
  if (status_code response =? 200) || (status_code response =? 202) ||
     (status_code response =? 204) then
    log_success [Lit "Import requested"]
  else
    log_error [Lit "Failed to request import (status ";
               Int (status_code response); Lit ")"] >>>
    log_error [Lit "Error details: "; Dumps (body response)] >>>
    sys_exit EXIT_SYSTEM_ERROR.

Definition request_import (source_id : string) (upload_id : json)
    (access_token : json) : proc unit :=
  retry_on_network_error (request_import__wrapped source_id upload_id access_token).

(** ** Main function *)

(** [main], after the arguments are parsed.  The handler for
    [KeyboardInterrupt] answers a signal from outside and has no counterpart
    here. *)
Definition main (source_id file_path_str : string) (env : environ)
    (fs : filesystem) : proc unit :=
  print [Lit RULE] >>>
  print [Lit "harpin AI CSV Upload Script"] >>>
  print [Lit RULE] >>>
  try_except_Exception
    ((* Step 1: Authenticate *)
     let! access_token := get_access_token env in
     (* Step 2: Validate file *)
     let! validated := validate_file fs file_path_str in
     let file_path := fst validated in
     let file_size := snd validated in
     (* Step 3: Validate source *)
     validate_source source_id access_token >>>
     (* Step 4: Check concurrent uploads *)
     check_concurrent_uploads source_id access_token >>>
     (* Step 5: Create upload *)
     let! created := create_upload source_id (PyPath.name file_path) access_token in
     let upload_id := fst created in
     let presigned_url := snd created in
     (* Step 6: Upload to S3 *)
     upload_to_s3 presigned_url file_path file_size >>>
     (* Step 7: Poll for analysis completion *)
     let! analysis_data :=
       poll_status source_id upload_id access_token "analysisCompleted" "analysis" in
     (* Step 8: Request import *)
     request_import source_id upload_id access_token >>>
     (* Step 9: Poll for import completion *)
     let! final_data :=
       poll_status source_id upload_id access_token "importCompleted" "import" in
     let! total_records := py_get final_data "totalRecords" (JNum 0) in
     let! imported_records := py_get final_data "importedRecords" (JNum 0) in
     print [Lit NL; Lit RULE] >>>
     print [Lit "UPLOAD SUMMARY"] >>>
     print [Lit RULE] >>>
     log_success [Lit "File: "; Str (PyPath.name file_path)] >>>
     log_success [Lit "Total Records: "; Val total_records] >>>
     log_success [Lit "Imported Records: "; Val imported_records] >>>
     log_success [Lit "Duration: "; Elapsed; Lit " seconds"] >>>
     print [Lit RULE] >>>
     sys_exit EXIT_SUCCESS)
    (fun e =>
       log_error [Lit "Unexpected error: "; ExcStr e] >>>
       emit (Traceback e) >>>
       sys_exit EXIT_SYSTEM_ERROR).

(** The exit status of the process, once it has ended. *)
Definition exit_status {A} (r : outcome A * script * list event) : option Z :=
  match r with
  | (Exit code, _, _) => Some code
  | _ => None
  end.

(** ** The progress wrapper around the file handle *)

Module ProgressFile.

(** A file opened with mode ['rb']: its bytes and the read position. *)
Record file_obj := FileObj { content : list Byte.byte; position : nat }.

(** The progress bar: the expected total and the counter [n] that [update]
    advances. *)
Record progress_bar := Bar { total : Z; n : Z }.

(** What [read] gives: the bytes read, or the [ValueError] of a size below
    -1. *)
Inductive read_result :=
| Data (data : list Byte.byte)
| ValueError.

(** [file_obj.read(size)]: with [-1] everything up to the end of the file,
    otherwise [size] bytes at most; the position moves past what was read. *)
Definition file_read (size : Z) (f : file_obj) : read_result * file_obj :=
  let rest := skipn (position f) (content f) in
  if size =? -1 then
    (Data rest, FileObj (content f) (position f + length rest))
  else if size <? 0 then (ValueError, f)
  else
    let data := firstn (Z.to_nat size) rest in
    (Data data, FileObj (content f) (position f + length data)).

(** [progress_bar.update(k)] *)
Definition update (k : Z) (b : progress_bar) : progress_bar :=
  Bar (total b) (n b + k).

Record ProgressFileWrapper := Wrapper {
  wrapped_file : file_obj;
  wrapped_bar : progress_bar
}.

(** [ProgressFileWrapper.read(size)] *)
Definition read (size : Z) (self : ProgressFileWrapper)
  : read_result * ProgressFileWrapper :=
  match file_read size (wrapped_file self) with
  | (Data data, f) =>
      match data with
      | [] => (Data data, Wrapper f (wrapped_bar self))
      | _ :: _ =>
          (Data data,
           Wrapper f (update (Z.of_nat (length data)) (wrapped_bar self)))
      end
  | (ValueError, f) => (ValueError, Wrapper f (wrapped_bar self))
  end.

(** What [upload_to_s3] builds: the file just opened and a bar whose total
    is the size of the file. *)
Definition opened (bytes : list Byte.byte) : ProgressFileWrapper :=
  Wrapper (FileObj bytes 0) (Bar (Z.of_nat (length bytes)) 0).

(** Successive calls of [read] with the given sizes, up to the first
    [ValueError]: the chunks read and the wrapper afterwards. *)
Fixpoint reads (sizes : list Z) (self : ProgressFileWrapper)
  : list (list Byte.byte) * ProgressFileWrapper :=
  match sizes with
  | [] => ([], self)
  | size :: sizes' =>
      match read size self with
      | (Data data, self') =>
          let r := reads sizes' self' in (data :: fst r, snd r)
      | (ValueError, self') => ([], self')
      end
  end.

End ProgressFile.

(** ** Notions used to state the properties *)

(** The unit labels, by magnitude. *)
Definition UNIT_LABELS : list string := ["B"; "KB"; "MB"; "GB"; "TB"].

Definition unit_label (i : nat) : string := nth i UNIT_LABELS "TB".

(** How often a size is divided by 1024 until the quotient is below 1024,
    [k] times at most. *)
Fixpoint divisions_by_1024 (k : nat) (n : Z) : nat :=
  match k with
  | O => O
  | S k' => if n <? 1024 then O else S (divisions_by_1024 k' (n / 1024))
  end.

(** The value of [size_bytes] after [i] divisions by [1024.0]. *)
Definition scaled (n : Z) (i : nat) : option num :=
  match i with
  | O => Some (NInt n)
  | S _ =>
      match float_of_int n with
      | Some d => Some (NFloat (Dyadic (mant d) (expo d - 10 * Z.of_nat i)))
      | None => None
      end
  end.

(** The requests a trace records. *)
Fixpoint requests_sent (tr : list event) : list request :=
  match tr with
  | [] => []
  | Http r :: tr' => r :: requests_sent tr'
  | _ :: tr' => requests_sent tr'
  end.

(** The seconds a trace spends in [time.sleep]. *)
Fixpoint slept (tr : list event) : Z :=
  match tr with
  | [] => 0
  | Sleep s :: tr' => s + slept tr'
  | _ :: tr' => slept tr'
  end.

(** A credential variable that is absent, empty or made of whitespace only. *)
Definition blank (v : option pystr) : bool :=
  forallb PyStr.isspace (default [] v).

Definition CREDENTIAL_VARS : list string :=
  ["HARPIN_CLIENT_ID"; "HARPIN_REFRESH_TOKEN"].

Definition missing_credentials (env : environ) : list string :=
  List.filter (fun name => blank (env !! name)) CREDENTIAL_VARS.

(** An outcome the retry wrapper reacts to: a transport-level exception. *)
Definition transport_failure {A} (o : outcome A) : bool :=
  match o with
  | Raise (RequestException _) => true
  | _ => false
  end.

(** What the wrapper does between attempt [attempt] and the next one. *)
Definition backoff (attempt : Z) (e : string) : list event :=
  [Log PROGRESS [Lit "Network error (attempt "; Int attempt; Lit "/"; Int 3;
                 Lit "): "; Str e];
   Log PROGRESS [Lit "Retrying in "; Int 10; Lit " seconds..."];
   Sleep 10].

(** What the wrapper logs when the last attempt has failed. *)
Definition gave_up (e : string) : list event :=
  [Log ERROR [Lit "Network error after "; Int 3; Lit " attempts: "; Str e]].

(** The status a poll payload carries: [data.get('status')]. *)
Definition status_of (data : list (string * json)) : json :=
  Py.dict_get data "status" JNull.

(** The JSON values that are no containers. *)
Definition scalar (v : json) : bool :=
  match v with
  | JList _ | JObj _ => false
  | _ => true
  end.

(** Python's [==] on scalars, through a normal form. *)
Inductive atom := ANone | ANum (n : Z) | AStr (s : string) | AOther.

Definition canon (v : json) : atom :=
  match v with
  | JNull => ANone
  | JBool b => ANum (if b then 1 else 0)
  | JNum n => ANum n
  | JStr s => AStr s
  | _ => AOther
  end.

(** The request of one poll. *)
Definition poll_request (source_id : string) (upload_id access_token : json)
  : request :=
  Request GET [Lit API_BASE_URL; Lit "/sources/"; Str source_id;
               Lit "/uploads/"; Val upload_id]
    (Some access_token) NoBody 30.

(** The line that reports a status, present when the status is not the one
    of the poll before ([prev]). *)
Definition status_line (prev current : json) : list event :=
  if Py.eq current prev then [] else [Log INFO [Lit "Status: "; Val current]].

(** The events of a run of polls none of which ends the wait; [prev] is the
    status seen by the poll before ([None] at the start). *)
Fixpoint waiting_trace (req : request) (prev : json)
    (polls : list (list (string * json))) : list event :=
  match polls with
  | [] => []
  | d :: polls' =>
      Http req :: status_line prev (status_of d) ++ [Sleep 5] ++
      waiting_trace req (status_of d) polls'
  end.

(** The script in which every poll is answered 200 with the given payload. *)
Definition poll_script (polls : list (list (string * json))) : script :=
  map (fun d => NetResponse (Response 200 (JObj d))) polls.

(** The statuses of a sequence that differ from the one before them;
    [prev] is what came before the first. *)
Fixpoint changes (prev : json) (statuses : list json) : list json :=
  match statuses with
  | [] => []
  | s :: statuses' =>
      (if Py.eq s prev then [] else [s]) ++ changes s statuses'
  end.

(** The statuses reported in a trace by lines ["Status: ..."]. *)
Fixpoint logged_statuses (tr : list event) : list json :=
  match tr with
  | [] => []
  | Log INFO [Lit l; Val s] :: tr' =>
      if String.eqb l "Status: " then s :: logged_statuses tr'
      else logged_statuses tr'
  | _ :: tr' => logged_statuses tr'
  end.

(** A poll that does not end the wait: its status is neither the target nor
    [failed]. *)
Definition quiet (target_status : string) (d : list (string * json)) : Prop :=
  scalar (status_of d) = true /\
  status_of d <> JStr target_status /\ status_of d <> JStr "failed".

(** The request of the token exchange. *)
Definition token_request (env : environ) : request :=
  Request POST [Lit API_BASE_URL; Lit "/token"] None
    (TokenBody (PyStr.strip (default [] (env !! "HARPIN_CLIENT_ID")))
               (PyStr.strip (default [] (env !! "HARPIN_REFRESH_TOKEN"))))
    30.

(** The statuses of an upload that is still in flight. *)
Definition IN_PROGRESS : list string :=
  ["created"; "analysisInProgress"; "analysisCompleted"; "importRequested";
   "importInProgress"].

(** An entry of the upload list that counts: a mapping whose status is one
    of [IN_PROGRESS]. *)
Definition counts_as_in_progress (u : json) : bool :=
  match u with
  | JObj d =>
      match Py.lookup "status" d with
      | Some (JStr s) => existsb (fun t => String.eqb s t) IN_PROGRESS
      | _ => false
      end
  | _ => false
  end.

Definition in_progress_count (uploads : list json) : Z :=
  Z.of_nat (length (List.filter counts_as_in_progress uploads)).

(** The warnings for the entries that are no mappings. *)
Definition skip_warnings (uploads : list json) : list event :=
  flat_map
    (fun u =>
       if Py.isinstance_dict u then []
       else [Log INFO [Lit "Warning: Skipping non-dictionary upload item: ";
                       Str (Py.type_name u)]])
    uploads.

(** The request that lists the uploads of a source. *)
Definition uploads_request (source_id : string) (access_token : json)
  : request :=
  Request GET [Lit API_BASE_URL; Lit "/sources/"; Str source_id; Lit "/uploads"]
    (Some access_token) NoBody 30.

(** The request that fetches a source, and the one that lists the sources. *)
Definition source_request (source_id : string) (access_token : json)
  : request :=
  Request GET [Lit API_BASE_URL; Lit "/sources/"; Str source_id]
    (Some access_token) NoBody 30.

Definition sources_request (access_token : json) : request :=
  Request GET [Lit API_BASE_URL; Lit "/sources"] (Some access_token) NoBody 30.

(** A source whose [sourceSystem] is [flatFile]. *)
Definition is_flat_file (s : json) : bool :=
  match s with
  | JObj d =>
      match Py.lookup "sourceSystem" d with
      | Some (JStr t) => String.eqb t "flatFile"
      | _ => false
      end
  | _ => false
  end.

(** The line that shows one source. *)
Definition source_line (s : json) : event :=
  match s with
  | JObj d =>
      Log INFO [Lit "ID: "; Val (Py.dict_get d "id" (JStr "N/A"));
                Lit ", Name: "; Val (Py.dict_get d "name" (JStr "N/A"))]
  | _ => Log INFO []
  end.

(** What is displayed of a list of sources: the flatFile ones only. *)
Definition listing_lines (sources : list json) : list event :=
  match List.filter is_flat_file sources with
  | [] => [Log INFO [Lit "No flatFile sources available"]]
  | shown => Log INFO [Lit NL; Lit "Available flatFile sources:"] ::
             map source_line shown
  end.

(** What [validate_source] does on a 404 before the listing is answered. *)
Definition not_found_trace (source_id : string) (access_token : json)
  : list event :=
  [Log PROGRESS [Lit "Validating source ID: "; Str source_id; Lit "..."];
   Http (source_request source_id access_token);
   Log ERROR [Lit "Invalid source ID: "; Str source_id];
   Log INFO [Lit "Fetching available sources..."];
   Http (sources_request access_token)].

(** ** Notions for the properties of whole computations *)

(** The exit codes a computation can end the process with lie in [S]. *)
Definition exits_in {A} (S : Z -> Prop) (m : proc A) : Prop :=
  forall w c w' tr, m w = (Exit c, w', tr) -> S c.

(** The exceptions a computation can raise satisfy [P]. *)
Definition raises_in {A} (P : exn -> Prop) (m : proc A) : Prop :=
  forall w e w' tr, m w = (Raise e, w', tr) -> P e.

(** The values a computation can return satisfy [Q]. *)
Definition returns_in {A} (Q : A -> Prop) (m : proc A) : Prop :=
  forall w a w' tr, m w = (Return a, w', tr) -> Q a.

(** What holds of the value a computation returns and of the trace it
    leaves when it returns. *)
Definition returns_with {A} (Q : A -> list event -> Prop) (m : proc A) : Prop :=
  forall w a w' tr, m w = (Return a, w', tr) -> Q a tr.

(** The line that reports the end of a phase. *)
Definition phase_completed (phase_name : string) : event :=
  Log SUCCESS [Str phase_name; Lit " completed in "; Elapsed; Lit " seconds"].

(** What [poll_status] has seen when it returns [data] with the trace [tr]:
    a payload at the target status, and the phase reported complete. *)
Definition reached_target (target_status phase_name : string) (data : json)
    (tr : list event) : Prop :=
  exists d, data = JObj d /\ status_of d = JStr target_status /\
            status_of d <> JStr "failed" /\
            In (phase_completed phase_name) tr.

(** A run that ends the process with [code] after one request and without
    a pause, leaving [rest] of the script unread. *)
Definition refused_at_once {A} (code : Z) (rest : script)
    (run : outcome A * script * list event) : Prop :=
  fst (fst run) = Exit code /\ snd (fst run) = rest /\
  length (requests_sent (snd run)) = 1%nat /\ slept (snd run) = 0.

(** What one call of the undecorated [poll_status] leaves in the trace when
    the polls [polls] end neither the wait nor the call and one more request
    is sent after them. *)
Definition waiting_attempt (req : request) (phase_name : string)
    (polls : list (list (string * json))) : list event :=
  Log PROGRESS [Lit "Waiting for "; Str phase_name; Lit "..."] ::
  waiting_trace req JNull polls ++ [Http req].

(** The checks of [validate_file], taken together. *)
Definition file_accepted (fs : filesystem) (file_path : string) : bool :=
  match fs !! file_path with
  | Some (Stat path) =>
      is_file path && readable path && (st_size path <=? MAX_FILE_SIZE_BYTES)
  | _ => false
  end.

(** What lets [main] pass its first three steps: both credentials set, a
    token in the answer [token_d] to the token request, a file that passes
    the local checks, and a flat-file source in the answer [source_d] to
    the source request. *)
Definition preflight_passes (env : environ) (fs : filesystem)
    (file_path : string) (token_d source_d : list (string * json)) : Prop :=
  blank (env !! "HARPIN_CLIENT_ID") = false /\
  blank (env !! "HARPIN_REFRESH_TOKEN") = false /\
  Py.truthy (Py.dict_get token_d "accessToken" JNull) = true /\
  file_accepted fs file_path = true /\
  Py.dict_get source_d "sourceSystem" (JStr "unknown") = JStr "flatFile".

(** The error of a lookup that [Path.exists] does not answer but raises. *)
Definition stat_raises (fs : filesystem) (file_path : string) : option errno :=
  match fs !! file_path with
  | Some (StatError e) => if PyPath.ignore_error e then None else Some e
  | _ => None
  end.

(** A computation reads the script from the left: what it leaves is what
    follows the answers it has read. *)
Definition reads_from_left {A} (m : proc A) : Prop :=
  forall w o w' tr, m w = (o, w', tr) -> exists pre, w = pre ++ w'.

(** What holds of the script a computation was started on, the value it
    returns, the script it leaves and its trace, when it returns. *)
Definition returns_from {A}
    (Q : script -> A -> script -> list event -> Prop) (m : proc A) : Prop :=
  forall w a w' tr, m w = (Return a, w', tr) -> Q w a w' tr.

(** What [poll_status] has done when, started on the script [w], it returns
    [data] and leaves [w']: [data] is the payload of the answer that stands
    in [w] just before [w'], a 200 at the target status, and the phase has
    been reported complete. *)
Definition returned_last_poll (target_status phase_name : string)
    (w : script) (data : json) (w' : script) (tr : list event) : Prop :=
  exists pre d,
    w = pre ++ NetResponse (Response 200 (JObj d)) :: w' /\
    data = JObj d /\ status_of d = JStr target_status /\
    status_of d <> JStr "failed" /\ In (phase_completed phase_name) tr.

(** The summary that [main] prints before it ends with exit code 0. *)
Definition upload_summary (file_name : string)
    (final_data : list (string * json)) : list event :=
  [Print [Lit NL; Lit RULE];
   Print [Lit "UPLOAD SUMMARY"];
   Print [Lit RULE];
   Log SUCCESS [Lit "File: "; Str file_name];
   Log SUCCESS [Lit "Total Records: ";
                Val (Py.dict_get final_data "totalRecords" (JNum 0))];
   Log SUCCESS [Lit "Imported Records: ";
                Val (Py.dict_get final_data "importedRecords" (JNum 0))];
   Log SUCCESS [Lit "Duration: "; Elapsed; Lit " seconds"];
   Print [Lit RULE]].

(** ** Sample data for the concrete runs *)

Module Sample.

Definition big_file : file_entry := FileEntry true true (6 * 1024 ^ 3) eq_refl.
Definition data_file : file_entry := FileEntry true true (10 * 1024 * 1024) eq_refl.

Definition fs : filesystem :=
  <["big.csv" := Stat big_file]> {["data.csv" := Stat data_file]}.

Definition env : environ :=
  <["HARPIN_CLIENT_ID" := PyStr.of_string "client"]>
    {["HARPIN_REFRESH_TOKEN" := PyStr.of_string "refresh"]}.

(** The refresh token is a blank and a tab. *)
Definition env_blank_token : environ :=
  <["HARPIN_CLIENT_ID" := PyStr.of_string "client"]>
    {["HARPIN_REFRESH_TOKEN" := [32; 9]%N]}.

Definition token : json := JStr "token".

Definition ok (status : Z) (fields : list (string * json)) : net_outcome :=
  NetResponse (Response status (JObj fields)).

(** Three uploads in flight, one finished, one stray entry. *)
Definition busy_uploads : list json :=
  [JObj [("status", JStr "importInProgress")];
   JStr "stray";
   JObj [("status", JStr "analysisCompleted")];
   JObj [("status", JStr "importCompleted")];
   JObj [("status", JStr "created")]].

(** Two uploads in flight. *)
Definition light_uploads : list json :=
  [JObj [("status", JStr "importInProgress")];
   JObj [("status", JStr "failed")];
   JObj [("id", JStr "U7")];
   JObj [("status", JStr "importRequested")]].

(** The answer of a successful token exchange. *)
Definition token_ok : net_outcome := ok 200 [("accessToken", token)].

(** A page of sources: two of them take flat files. *)
Definition sources_page : list (string * json) :=
  [("content",
    JList [JObj [("id", JStr "S1"); ("name", JStr "orders");
                 ("sourceSystem", JStr "flatFile")];
           JObj [("id", JStr "S7"); ("name", JStr "crm");
                 ("sourceSystem", JStr "salesforce")];
           JObj [("id", JStr "S9"); ("sourceSystem", JStr "flatFile")]])].

End Sample.

(** The scenarios of the end-to-end runs. *)
Module Scenario.
Import Sample.

(** Source S1 takes flat files, nothing is in flight, the upload U1 is
    analysed and imported with 100 records. *)
Definition success : script :=
  [token_ok;
   ok 200 [("id", JStr "S1"); ("sourceSystem", JStr "flatFile")];
   NetResponse (Response 200 (JList []));
   ok 201 [("id", JStr "U1"); ("url", JStr "https://storage.example/U1")];
   NetResponse (Response 200 JNull);
   ok 200 [("status", JStr "analysisInProgress")];
   ok 200 [("status", JStr "analysisCompleted")];
   NetResponse (Response 202 JNull);
   ok 200 [("status", JStr "importInProgress")];
   ok 200 [("status", JStr "importCompleted"); ("totalRecords", JNum 100);
           ("importedRecords", JNum 100)]].

(** Source S3 has three imports in flight. *)
Definition busy : script :=
  [token_ok;
   ok 200 [("id", JStr "S3"); ("sourceSystem", JStr "flatFile")];
   NetResponse
     (Response 200
        (JList [JObj [("status", JStr "importInProgress")];
                JObj [("status", JStr "importInProgress")];
                JObj [("status", JStr "importInProgress")]]));
   ok 201 [("id", JStr "U2"); ("url", JStr "https://storage.example/U2")]].

End Scenario.
Example format_file_size_0 : format_file_size 0 = Some "0.00 B".
Proof. reflexivity. Qed.
Example format_file_size_1536 : format_file_size 1536 = Some "1.50 KB".
Proof. reflexivity. Qed.
Example format_file_size_10MB :
  format_file_size (10 * 1024 * 1024) = Some "10.00 MB".
Proof. reflexivity. Qed.
Example format_file_size_5GiB_1 :
  format_file_size (MAX_FILE_SIZE_BYTES + 1) = Some "5.00 GB".
Proof. vm_compute. reflexivity. Qed.
Example format_file_size_big :
  format_file_size (2 ^ 60 + 1) = Some "1048576.00 TB".
Proof. vm_compute. reflexivity. Qed.
Example format_file_size_overflow : format_file_size (2 ^ 1024) = None.
Proof. vm_compute. reflexivity. Qed.

(** * Properties *)

(** ** The size formatter *)

Section FormatFileSize.

Lemma round_nat_to_float_exact (n : Z) :
  n < 2 ^ 53 -> round_nat_to_float n = Dyadic n 0.
Proof.
  intros Hn. unfold round_nat_to_float, FLOAT_MANT_BITS.
  destruct (Z.ltb_spec n (2 ^ 53)); [reflexivity | lia].
Qed.

Lemma round_nat_to_float_large (n : Z) :
  2 ^ 53 <= n ->
  1 <= expo (round_nat_to_float n) /\
  2 ^ 52 <= mant (round_nat_to_float n) /\
  mant (round_nat_to_float n) * 2 ^ expo (round_nat_to_float n) <= 2 * n.
Proof.
  intros Hn. unfold round_nat_to_float, FLOAT_MANT_BITS.
  destruct (Z.ltb_spec n (2 ^ 53)) as [Hlt | _]; [lia |].
  assert (Hpos : 0 < n) by lia.
  pose proof (Z.log2_spec n Hpos) as [Hlo Hhi].
  assert (Hlog : 53 <= Z.log2 n).
  { change 53 with (Z.log2 (2 ^ 53)). apply Z.log2_le_mono. exact Hn. }
  set (e := Z.log2 n - (53 - 1)).
  assert (He : 1 <= e) by (unfold e; lia).
  assert (Hsplit : 2 ^ Z.log2 n = 2 ^ 52 * 2 ^ e).
  { rewrite <- Z.pow_add_r by lia. f_equal. unfold e. lia. }
  assert (H2e : 0 < 2 ^ e) by (apply Z.pow_pos_nonneg; lia).
  assert (Hq : 2 ^ 52 <= n / 2 ^ e).
  { apply Z.div_le_lower_bound; [exact H2e | lia]. }
  assert (Hqe : n / 2 ^ e * 2 ^ e <= n).
  { rewrite Z.mul_comm. apply Z.mul_div_le. exact H2e. }
  assert (H2en : 2 ^ e <= n).
  { assert (0 < 2 ^ 52) by (apply Z.pow_pos_nonneg; lia). nia. }
  cbn [mant expo].
  split; [exact He |].
  destruct (n mod 2 ^ e <? 2 ^ (e - 1));
    [| destruct (2 ^ (e - 1) <? n mod 2 ^ e);
       [| destruct (Z.even (n / 2 ^ e))]];
    split; nia.
Qed.

Lemma float_of_int_exact (n : Z) :
  0 <= n < 2 ^ 53 -> float_of_int n = Some (Dyadic n 0).
Proof.
  intros [H0 Hn]. unfold float_of_int, FLOAT_MAX_EXP.
  rewrite Z.abs_eq by exact H0.
  rewrite round_nat_to_float_exact by exact Hn. cbn [mant expo].
  assert (Hbig : 2 ^ 53 < 2 ^ 1024) by (apply Z.pow_lt_mono_r; lia).
  destruct (Z.leb_spec (2 ^ 1024) (n * 2 ^ 0)) as [Hov | _].
  - rewrite Z.pow_0_r in Hov. lia.
  - do 2 f_equal. destruct n; cbn; lia.
Qed.

Lemma float_of_int_large (n : Z) :
  2 ^ 53 <= n < 2 ^ 1023 ->
  exists m e, float_of_int n = Some (Dyadic m e) /\ 1 <= e /\ 2 ^ 52 <= m.
Proof.
  intros [Hlo Hhi]. unfold float_of_int, FLOAT_MAX_EXP.
  assert (H53 : 0 < 2 ^ 53) by (apply Z.pow_pos_nonneg; lia).
  rewrite Z.abs_eq by lia.
  destruct (round_nat_to_float_large n Hlo) as (He & Hm & Hub).
  assert (Hdbl : 2 ^ 1024 = 2 * 2 ^ 1023).
  { change 1024 with (Z.succ 1023). apply Z.pow_succ_r. lia. }
  destruct (Z.leb_spec (2 ^ 1024)
              (mant (round_nat_to_float n) * 2 ^ expo (round_nat_to_float n)))
    as [Hov | _]; [lia |].
  exists (mant (round_nat_to_float n)), (expo (round_nat_to_float n)).
  split; [| split; assumption].
  do 2 f_equal. rewrite Z.sgn_pos by lia. lia.
Qed.

(** The unit chosen, range by range. *)

Lemma format_file_size_parts_B (n : Z) :
  n < 1024 -> format_file_size_parts n = Some (NInt n, "B").
Proof.
  intros Hn. unfold format_file_size_parts. cbn [format_file_size_loop lt_1024].
  destruct (Z.ltb_spec n 1024); [reflexivity | lia].
Qed.

Lemma format_file_size_parts_exact (n : Z) :
  1024 <= n < 2 ^ 53 ->
  format_file_size_parts n =
    if n <? 1024 * 1024 then Some (NFloat (Dyadic n (-10)), "KB")
    else if n <? 1024 * 1024 * 1024 then Some (NFloat (Dyadic n (-20)), "MB")
    else if n <? 1024 * 1024 * 1024 * 1024 then Some (NFloat (Dyadic n (-30)), "GB")
    else Some (NFloat (Dyadic n (-40)), "TB").
Proof.
  intros [Hlo Hhi]. unfold format_file_size_parts.
  cbn [format_file_size_loop lt_1024 truediv_1024].
  rewrite float_of_int_exact by lia.
  destruct (Z.ltb_spec n 1024) as [Hlt | _]; [lia |].
  cbn [mant expo].
  change (0 - 10 - 10 - 10 - 10) with (-40).
  change (0 - 10 - 10 - 10) with (-30).
  change (0 - 10 - 10) with (-20).
  change (0 - 10) with (-10).
  unfold dyadic_ltb_int. cbn [mant expo].
  change (0 <=? -10) with false. change (0 <=? -20) with false.
  change (0 <=? -30) with false. cbn iota.
  change (1024 * 2 ^ (- (-10))) with (1024 * 1024).
  change (1024 * 2 ^ (- (-20))) with (1024 * 1024 * 1024).
  change (1024 * 2 ^ (- (-30))) with (1024 * 1024 * 1024 * 1024).
  reflexivity.
Qed.

Lemma dyadic_ltb_int_large (m e : Z) :
  2 ^ 52 <= m -> -39 <= e -> dyadic_ltb_int (Dyadic m e) 1024 = false.
Proof.
  intros Hm He. unfold dyadic_ltb_int. cbn [mant expo].
  assert (H52 : 2 ^ 52 = 4503599627370496) by reflexivity.
  destruct (Z.leb_spec 0 e) as [Hnn | Hneg].
  - apply Z.ltb_ge.
    assert (1 <= 2 ^ e) by (pose proof (Z.pow_pos_nonneg 2 e); lia).
    nia.
  - apply Z.ltb_ge.
    assert (2 ^ (- e) <= 2 ^ 39) by (apply Z.pow_le_mono_r; lia).
    assert (H39 : 2 ^ 39 = 549755813888) by reflexivity.
    lia.
Qed.

Lemma format_file_size_parts_large (n : Z) :
  2 ^ 53 <= n < 2 ^ 1023 ->
  exists m e, float_of_int n = Some (Dyadic m e) /\
    format_file_size_parts n = Some (NFloat (Dyadic m (e - 40)), "TB").
Proof.
  intros Hn. destruct (float_of_int_large n Hn) as (m & e & Hf & He & Hm).
  exists m, e. split; [exact Hf |].
  assert (H53 : 2 ^ 53 = 9007199254740992) by reflexivity.
  unfold format_file_size_parts.
  cbn [format_file_size_loop lt_1024 truediv_1024].
  destruct (Z.ltb_spec n 1024) as [Hlt | _]; [lia |].
  rewrite Hf. cbn [mant expo].
  rewrite !dyadic_ltb_int_large by lia.
  replace (e - 10 - 10 - 10 - 10) with (e - 40) by lia. reflexivity.
Qed.

Lemma divisions_by_1024_ranges (n : Z) :
  0 <= n ->
  divisions_by_1024 4 n =
    if n <? 1024 then 0%nat
    else if n <? 1024 * 1024 then 1%nat
    else if n <? 1024 * 1024 * 1024 then 2%nat
    else if n <? 1024 * 1024 * 1024 * 1024 then 3%nat
    else 4%nat.
Proof.
  intros Hn. cbn [divisions_by_1024].
  repeat match goal with
         | |- context [?a <? ?b] => destruct (Z.ltb_spec a b)
         end;
    try reflexivity; exfalso; Z.div_mod_to_equations; lia.
Qed.

Lemma format_2f_total (n : Z) (x : num) (i : nat) :
  0 <= n < 2 ^ 1023 -> scaled n i = Some x -> exists s, format_2f x = Some s.
Proof.
  intros Hn Hx. destruct x as [k | d]; cbn [format_2f]; [| eauto].
  destruct i; cbn [scaled] in Hx.
  - injection Hx as <-.
    destruct (Z_lt_le_dec n (2 ^ 53)) as [Hs | Hl].
    + rewrite float_of_int_exact by lia. eauto.
    + destruct (float_of_int_large n ltac:(lia)) as (m & e & -> & _). eauto.
  - destruct (float_of_int n); discriminate.
Qed.

(** One size: the unit is the label of [divisions_by_1024 4 n], the value is
    the size after that many divisions. *)
Lemma format_file_size_spec (n : Z) :
  0 <= n < 2 ^ 1023 ->
  exists (x : num) (s : string),
    scaled n (divisions_by_1024 4 n) = Some x /\
    format_2f x = Some s /\
    format_file_size_parts n = Some (x, unit_label (divisions_by_1024 4 n)) /\
    format_file_size n = Some (s +:+ " " +:+ unit_label (divisions_by_1024 4 n)).
Proof.
  intros Hn.
  assert (Hparts : exists x,
             scaled n (divisions_by_1024 4 n) = Some x /\
             format_file_size_parts n =
               Some (x, unit_label (divisions_by_1024 4 n))).
  { rewrite divisions_by_1024_ranges by lia.
    destruct (Z_lt_le_dec n 1024) as [HB | HB].
    - rewrite format_file_size_parts_B by exact HB.
      destruct (Z.ltb_spec n 1024); [| lia]. eexists; split; reflexivity.
    - destruct (Z.ltb_spec n 1024) as [? | _]; [lia |].
      destruct (Z_lt_le_dec n (2 ^ 53)) as [Hs | Hl].
      + rewrite format_file_size_parts_exact by lia.
        pose proof (float_of_int_exact n ltac:(lia)) as Hf.
        destruct (n <? 1024 * 1024);
          [| destruct (n <? 1024 * 1024 * 1024);
             [| destruct (n <? 1024 * 1024 * 1024 * 1024)]];
          cbn [scaled]; rewrite Hf; cbn [mant expo];
          eexists; split; reflexivity.
      + destruct (format_file_size_parts_large n ltac:(lia))
          as (m & e & Hf & ->).
        assert (H53 : 2 ^ 53 = 9007199254740992) by reflexivity.
        destruct (Z.ltb_spec n (1024 * 1024)); [lia |].
        destruct (Z.ltb_spec n (1024 * 1024 * 1024)); [lia |].
        destruct (Z.ltb_spec n (1024 * 1024 * 1024 * 1024)); [lia |].
        cbn [scaled]. rewrite Hf. cbn [mant expo].
        eexists; split; reflexivity. }
  destruct Hparts as (x & Hx & Hp).
  destruct (format_2f_total n x _ Hn Hx) as (s & Hs).
  exists x, s. repeat split; try assumption.
  unfold format_file_size. rewrite Hp, Hs. reflexivity.
Qed.

Lemma divisions_by_1024_mono (n m : Z) :
  0 <= n -> n <= m ->
  (divisions_by_1024 4 n <= divisions_by_1024 4 m)%nat.
Proof.
  intros Hn Hnm. rewrite !divisions_by_1024_ranges by lia.
  repeat match goal with
         | |- context [?a <? ?b] => destruct (Z.ltb_spec a b)
         end; lia.
Qed.

Lemma divisions_by_1024_bounds (n : Z) :
  0 <= n ->
  let i := divisions_by_1024 4 n in
  (i <= 4)%nat /\
  ((0 < i)%nat -> 1024 ^ Z.of_nat i <= n) /\
  ((i < 4)%nat -> n < 1024 ^ (Z.of_nat i + 1)).
Proof.
  intros Hn. cbv zeta. rewrite divisions_by_1024_ranges by lia.
  repeat match goal with
         | |- context [?a <? ?b] => destruct (Z.ltb_spec a b)
         end; cbn; lia.
Qed.

Lemma unit_label_in (i : nat) : In (unit_label i) UNIT_LABELS.
Proof.
  unfold unit_label, UNIT_LABELS.
  do 5 (destruct i as [| i]; [cbn; tauto |]). cbn.
  destruct i; cbn; tauto.
Qed.

(** C9. For every byte size [0 <= n] (below [2^1023], where the conversion
    to a float cannot overflow; every size a file can have is), the
    formatter returns a text [s ++ " " ++ unit] whose unit is one of B, KB,
    MB, GB, TB: the label reached by dividing by 1024 until the value is
    below 1024, four times at most, and [s] prints the size after these
    divisions.  The label does not decrease when the size grows. *)
Theorem format_file_size_unit_monotone (n m : Z) :
  0 <= n -> n <= m -> m < 2 ^ 1023 ->
  let i := divisions_by_1024 4 n in
  let j := divisions_by_1024 4 m in
  (exists (x : num) (s : string),
      scaled n i = Some x /\ format_2f x = Some s /\
      format_file_size_parts n = Some (x, unit_label i) /\
      format_file_size n = Some (s +:+ " " +:+ unit_label i)) /\
  (exists (y : num) (t : string),
      scaled m j = Some y /\ format_2f y = Some t /\
      format_file_size_parts m = Some (y, unit_label j) /\
      format_file_size m = Some (t +:+ " " +:+ unit_label j)) /\
  In (unit_label i) UNIT_LABELS /\
  ((0 < i)%nat -> 1024 ^ Z.of_nat i <= n) /\
  ((i < 4)%nat -> n < 1024 ^ (Z.of_nat i + 1)) /\
  (i <= j <= 4)%nat.
Proof.
  intros Hn Hnm Hm. cbv zeta.
  split; [apply format_file_size_spec; lia |].
  split; [apply format_file_size_spec; lia |].
  split; [apply unit_label_in |].
  destruct (divisions_by_1024_bounds n Hn) as (_ & Hlo & Hhi).
  destruct (divisions_by_1024_bounds m ltac:(lia)) as (Hj & _ & _).
  repeat split; try assumption.
  apply divisions_by_1024_mono; assumption.
Qed.

Lemma format_file_size_unit_monotone_witness :
  format_file_size 1536 = Some ("1.50" +:+ " " +:+ unit_label 1) /\
  format_file_size (2 ^ 33) = Some ("8.00" +:+ " " +:+ unit_label 3) /\
  (divisions_by_1024 4 1536 <= divisions_by_1024 4 (2 ^ 33) <= 4)%nat.
Proof.
  pose proof (format_file_size_unit_monotone 1536 (2 ^ 33)
                ltac:(lia) ltac:(lia) ltac:(reflexivity)) as H.
  cbv zeta in H. destruct H as (_ & _ & _ & _ & _ & Hmono).
  repeat split; try reflexivity; apply Hmono.
Defined.

End FormatFileSize.

(** ** Running computations *)

Ltac proc_unfold :=
  unfold log_info, log_success, log_error, log_progress, print, time_sleep,
    py_get, py_iter, formatted_size, bearer in *.

Ltac proc_step :=
  cbn [bind ret sys_exit raise emit send try_except_RequestException
       try_except_Exception for_each app].

Ltac proc_run := proc_unfold; proc_step.

(** Run a computation as far as its script and its arguments allow;
    [proc_eval0] leaves the tests on numbers alone. *)
Ltac proc_eval0 :=
  cbv beta iota delta
    [bind ret sys_exit raise emit send try_except_RequestException
     try_except_Exception Py.iter];
  cbn [status_code body].

Ltac proc_eval :=
  cbv beta iota delta
    [bind ret sys_exit raise emit send try_except_RequestException
     try_except_Exception status_code body Z.eqb Pos.eqb Py.iter].

Lemma bind_ret_l {A B} (a : A) (k : A -> proc B) (w : script) :
  bind (ret a) k w = k a w.
Proof. unfold bind, ret. destruct (k a w) as [[o w'] t]. reflexivity. Qed.

Lemma bind_emit {B} (e : event) (k : unit -> proc B) (w : script) :
  bind (emit e) k w =
    (fst (fst (k tt w)), snd (fst (k tt w)), e :: snd (k tt w)).
Proof. unfold bind, emit. destruct (k tt w) as [[o w'] t]. reflexivity. Qed.

(** ** The local file validator *)

Section ValidateFile.

Lemma st_size_bounds (path : file_entry) : 0 <= st_size path < 2 ^ 63.
Proof.
  pose proof (st_size_range path) as H.
  apply andb_true_iff in H as [H1 H2].
  apply Z.leb_le in H1. apply Z.ltb_lt in H2. lia.
Qed.

Lemma format_file_size_of_file (path : file_entry) :
  exists s, format_file_size (st_size path) = Some s.
Proof.
  pose proof (st_size_bounds path) as [H0 H63].
  assert (Hlt : 2 ^ 63 < 2 ^ 1023) by (apply Z.pow_lt_mono_r; lia).
  destruct (format_file_size_spec (st_size path) ltac:(lia))
    as (x & s & _ & _ & _ & Hs).
  eauto.
Qed.

(** [validate_file] on a path that [os.stat] finds: the three checks on
    the entry, in their order. *)
Lemma validate_file_found (fs : filesystem) (file_path : string)
    (path : file_entry) (s : string) (w : script) :
  fs !! file_path = Some (Stat path) ->
  format_file_size (st_size path) = Some s ->
  validate_file fs file_path w =
    if negb (is_file path) then
      (Exit 1, w, [Log PROGRESS [Lit "Validating file..."];
                   Log ERROR [Lit "Path is not a file: "; Str file_path]])
    else if negb (readable path) then
      (Exit 1, w, [Log PROGRESS [Lit "Validating file..."];
                   Log ERROR [Lit "File is not readable: "; Str file_path]])
    else if st_size path >? MAX_FILE_SIZE_BYTES then
      (Exit 1, w, [Log PROGRESS [Lit "Validating file..."];
                   Log ERROR [Lit "File size ("; Str s;
                              Lit ") exceeds maximum allowed size (";
                              Int MAX_FILE_SIZE_GB; Lit " GB)"]])
    else
      (Return (file_path, st_size path), w,
       [Log PROGRESS [Lit "Validating file..."];
        Log SUCCESS [Lit "File validated: "; Str (PyPath.name file_path);
                     Lit " ("; Str s; Lit ")"]]).
Proof.
  intros Hpath Hs.
  unfold validate_file, PyPath.exists_, PyPath.is_file, os_access_R_OK,
    PyPath.stat, formatted_size.
  rewrite Hpath.
  destruct (is_file path); [| reflexivity].
  destruct (readable path); [| reflexivity].
  proc_unfold. proc_eval0. cbn [negb]. rewrite Hs.
  destruct (st_size path >? MAX_FILE_SIZE_BYTES); reflexivity.
Qed.

(** [validate_file] on a path that [os.stat] does not find, or fails on. *)
Lemma validate_file_not_found (fs : filesystem) (file_path : string)
    (w : script) :
  match fs !! file_path with
  | Some (Stat _) => True
  | Some (StatError e) =>
      validate_file fs file_path w =
        if PyPath.ignore_error e then
          (Exit 1, w, [Log PROGRESS [Lit "Validating file..."];
                       Log ERROR [Lit "File not found: "; Str file_path]])
        else (Raise (OSError e), w, [Log PROGRESS [Lit "Validating file..."]])
  | None =>
      validate_file fs file_path w =
        (Exit 1, w, [Log PROGRESS [Lit "Validating file..."];
                     Log ERROR [Lit "File not found: "; Str file_path]])
  end.
Proof.
  unfold validate_file, PyPath.exists_.
  destruct (fs !! file_path) as [[path | e] |]; [exact I | | reflexivity].
  destruct (PyPath.ignore_error e); reflexivity.
Qed.

(** C6. For every file larger than 5 GiB, [validate_file] ends the process
    with exit code 1, whatever else holds of the file and of the network;
    for every file of at most 5 GiB the size check passes: a readable
    regular file is accepted and returned with its size. *)
Theorem validate_file_size_ceiling (fs : filesystem) (file_path : string)
    (path : file_entry) (w : script) :
  fs !! file_path = Some (Stat path) ->
  (st_size path > 5 * 1024 ^ 3 ->
   exists tr, validate_file fs file_path w = (Exit 1, w, tr) /\
              requests_sent tr = []) /\
  (st_size path <= 5 * 1024 ^ 3 ->
   is_file path = true -> readable path = true ->
   exists tr, validate_file fs file_path w =
                (Return (file_path, st_size path), w, tr)).
Proof.
  intros Hpath.
  destruct (format_file_size_of_file path) as (s & Hs).
  rewrite (validate_file_found fs file_path path s w Hpath Hs).
  split.
  - intros Hbig.
    destruct (is_file path); [| eexists; split; reflexivity].
    destruct (readable path); [| eexists; split; reflexivity].
    cbn [negb]. rewrite Z.gtb_ltb.
    destruct (Z.ltb_spec MAX_FILE_SIZE_BYTES (st_size path)) as [_ | Hle];
      [| exfalso; change MAX_FILE_SIZE_BYTES with (5 * 1024 ^ 3) in Hle; lia].
    eexists; split; reflexivity.
  - intros Hsmall -> ->.
    cbn [negb]. rewrite Z.gtb_ltb.
    destruct (Z.ltb_spec MAX_FILE_SIZE_BYTES (st_size path)) as [Hlt | _];
      [exfalso; change MAX_FILE_SIZE_BYTES with (5 * 1024 ^ 3) in Hlt; lia |].
    eexists; reflexivity.
Qed.

Lemma validate_file_size_ceiling_witness :
  (exists tr, validate_file Sample.fs "big.csv" [] = (Exit 1, [], tr) /\
              requests_sent tr = []) /\
  (exists tr, validate_file Sample.fs "data.csv" [] =
                (Return ("data.csv", 10 * 1024 * 1024), [], tr)).
Proof.
  split.
  - apply (validate_file_size_ceiling Sample.fs "big.csv" Sample.big_file []);
      [reflexivity | cbn; lia].
  - apply (validate_file_size_ceiling Sample.fs "data.csv" Sample.data_file []);
      [reflexivity | cbn; lia | reflexivity | reflexivity].
Defined.

End ValidateFile.

(** ** The credential resolver *)

Section Credentials.

Lemma lstrip_head (s : pystr) (c : N) (t : pystr) :
  PyStr.lstrip s = c :: t -> PyStr.isspace c = false.
Proof.
  induction s as [| a s IH]; cbn [PyStr.lstrip]; [discriminate |].
  destruct (PyStr.isspace a) eqn:Ha; [exact IH |].
  intros [= <- _]. exact Ha.
Qed.

Lemma lstrip_nil_iff (s : pystr) :
  PyStr.lstrip s = [] <-> forallb PyStr.isspace s = true.
Proof.
  induction s as [| a s IH]; cbn [PyStr.lstrip forallb]; [tauto |].
  destruct (PyStr.isspace a); cbn [andb]; [exact IH |].
  split; discriminate.
Qed.

Lemma forallb_rev {A} (f : A -> bool) (l : list A) :
  forallb f (rev l) = forallb f l.
Proof.
  induction l as [| a l IH]; [reflexivity |].
  cbn [rev forallb]. rewrite forallb_app, IH. cbn [forallb].
  rewrite andb_true_r. apply andb_comm.
Qed.

Lemma strip_nil_iff (s : pystr) :
  PyStr.strip s = [] <-> forallb PyStr.isspace s = true.
Proof.
  unfold PyStr.strip, PyStr.rstrip. split.
  - intros H. apply (f_equal (@rev N)) in H.
    rewrite rev_involutive in H. cbn [rev] in H.
    apply lstrip_nil_iff in H. rewrite forallb_rev in H.
    apply lstrip_nil_iff.
    destruct (PyStr.lstrip s) as [| c t] eqn:Hs; [reflexivity |].
    apply lstrip_head in Hs. cbn [forallb] in H. rewrite Hs in H. discriminate.
  - intros H. apply lstrip_nil_iff in H. rewrite H. reflexivity.
Qed.

Lemma strip_blank (v : option pystr) :
  PyStr.strip (default [] v) = [] <-> blank v = true.
Proof. apply strip_nil_iff. Qed.

Lemma strip_not_blank (v : option pystr) :
  blank v = false ->
  exists c t, PyStr.strip (default [] v) = c :: t.
Proof.
  intros Hb. destruct (PyStr.strip (default [] v)) as [| c t] eqn:Hs; [| eauto].
  apply strip_blank in Hs. congruence.
Qed.

(** C7. When at least one of the two credential variables is absent, empty
    or whitespace-only, [get_access_token] ends the process with exit code
    1; the error lines list exactly the missing variables, no request is
    sent and the network script is left untouched. *)
Theorem get_access_token_missing_credentials (env : environ) (w : script) :
  blank (env !! "HARPIN_CLIENT_ID") = true \/
  blank (env !! "HARPIN_REFRESH_TOKEN") = true ->
  let tr :=
    Log ERROR [Lit "Missing required environment variables:"] ::
    map (fun var => Log ERROR [Lit "  - "; Str var]) (missing_credentials env) ++
    [Log ERROR [Lit NL;
                Lit "Please set these environment variables before running the script."]] in
  get_access_token env w = (Exit 1, w, tr) /\
  requests_sent tr = [] /\
  missing_credentials env <> [].
Proof.
  intros Hmissing. cbv zeta.
  unfold get_access_token, missing_credentials, CREDENTIAL_VARS.
  cbn [List.filter].
  destruct (blank (env !! "HARPIN_CLIENT_ID")) eqn:Hid;
    destruct (blank (env !! "HARPIN_REFRESH_TOKEN")) eqn:Htok.
  - apply strip_blank in Hid, Htok. rewrite Hid, Htok.
    repeat split; discriminate.
  - apply strip_blank in Hid. apply strip_not_blank in Htok as (c & t & Htok).
    rewrite Hid, Htok. repeat split; discriminate.
  - apply strip_blank in Htok. apply strip_not_blank in Hid as (c & t & Hid).
    rewrite Hid, Htok. repeat split; discriminate.
  - destruct Hmissing; discriminate.
Qed.

Lemma get_access_token_missing_credentials_witness :
  get_access_token Sample.env_blank_token [Sample.ok 200 [("accessToken", Sample.token)]] =
    (Exit 1, [Sample.ok 200 [("accessToken", Sample.token)]],
     [Log ERROR [Lit "Missing required environment variables:"];
      Log ERROR [Lit "  - "; Str "HARPIN_REFRESH_TOKEN"];
      Log ERROR [Lit NL;
                 Lit "Please set these environment variables before running the script."]]).
Proof.
  apply (get_access_token_missing_credentials Sample.env_blank_token).
  right. reflexivity.
Defined.

End Credentials.

(** ** The retry wrapper *)

Section Retry.

Context {A : Type}.
Variable func : proc A.

Lemma retry_attempts_list : Py.range 1 (RETRY_ATTEMPTS + 1) = [1; 2; 3].
Proof. reflexivity. Qed.

Lemma try_except_pass (h : string -> proc A) (w w1 : script) (o : outcome A)
    (t1 : list event) :
  func w = (o, w1, t1) -> transport_failure o = false ->
  try_except_RequestException func h w = (o, w1, t1).
Proof.
  intros Hf Ho. unfold try_except_RequestException. rewrite Hf.
  destruct o as [a | c | [d | | | |] |]; try reflexivity. discriminate.
Qed.

Lemma try_except_caught (h : string -> proc A) (w w1 : script) (e : string)
    (t1 : list event) :
  func w = (Raise (RequestException e), w1, t1) ->
  try_except_RequestException func h w =
    (fst (fst (h e w1)), snd (fst (h e w1)), t1 ++ snd (h e w1)).
Proof.
  intros Hf. unfold try_except_RequestException. rewrite Hf.
  destruct (h e w1) as [[o w2] t2]. reflexivity.
Qed.

(** One turn of the loop of [wrapper] whose attempt succeeds, exits or
    raises something else: the wrapper hands the outcome on. *)
Lemma retry_loop_pass (attempt : Z) (rest : list Z) (last : option exn)
    (w w1 : script) (o : outcome A) (t1 : list event) :
  func w = (o, w1, t1) -> transport_failure o = false ->
  retry_loop func (attempt :: rest) last w = (o, w1, t1).
Proof. intros Hf Ho. cbn [retry_loop]. eapply try_except_pass; eassumption. Qed.

(** A failed attempt before the last: log, sleep, go on. *)
Lemma retry_loop_again (attempt : Z) (rest : list Z) (last : option exn)
    (w w1 : script) (e : string) (t1 : list event) :
  attempt < RETRY_ATTEMPTS ->
  func w = (Raise (RequestException e), w1, t1) ->
  retry_loop func (attempt :: rest) last w =
    let r := retry_loop func rest (Some (RequestException e)) w1 in
    (fst (fst r), snd (fst r), t1 ++ backoff attempt e ++ snd r).
Proof.
  intros Hlt Hf. cbn [retry_loop].
  erewrite try_except_caught by exact Hf.
  destruct (Z.ltb_spec attempt RETRY_ATTEMPTS) as [_ | Hge]; [| lia].
  proc_run.
  destruct (retry_loop func rest (Some (RequestException e)) w1) as [[o w2] t2].
  reflexivity.
Qed.

(** The last attempt failed: log and re-raise. *)
Lemma retry_loop_last (attempt : Z) (last : option exn)
    (w w1 : script) (e : string) (t1 : list event) :
  RETRY_ATTEMPTS <= attempt ->
  func w = (Raise (RequestException e), w1, t1) ->
  retry_loop func [attempt] last w =
    (Raise (RequestException e), w1, t1 ++ gave_up e).
Proof.
  intros Hge Hf. cbn [retry_loop].
  erewrite try_except_caught by exact Hf.
  destruct (Z.ltb_spec attempt RETRY_ATTEMPTS) as [Hlt | _]; [lia |].
  reflexivity.
Qed.

Lemma retry_on_network_error_pass (w w1 : script) (o : outcome A)
    (t1 : list event) :
  func w = (o, w1, t1) -> transport_failure o = false ->
  retry_on_network_error func w = (o, w1, t1).
Proof.
  intros Hf Ho. unfold retry_on_network_error. rewrite retry_attempts_list.
  eapply retry_loop_pass; eassumption.
Qed.

(** One transport failure, then an attempt that decides. *)
Lemma retry_on_network_error_second (w w1 w2 : script) (e1 : string)
    (o : outcome A) (t1 t2 : list event) :
  func w = (Raise (RequestException e1), w1, t1) ->
  func w1 = (o, w2, t2) -> transport_failure o = false ->
  retry_on_network_error func w = (o, w2, t1 ++ backoff 1 e1 ++ t2).
Proof.
  intros Hf1 Hf2 Ho. unfold retry_on_network_error. rewrite retry_attempts_list.
  rewrite (retry_loop_again 1 _ _ _ _ _ _ ltac:(unfold RETRY_ATTEMPTS; lia) Hf1).
  cbv zeta.
  rewrite (retry_loop_pass 2 _ _ _ _ _ _ Hf2 Ho). reflexivity.
Qed.

Lemma slept_app (t u : list event) : slept (t ++ u) = slept t + slept u.
Proof.
  induction t as [| [] t IH]; cbn [app slept]; rewrite ?IH; lia.
Qed.

Lemma requests_sent_app (t u : list event) :
  requests_sent (t ++ u) = requests_sent t ++ requests_sent u.
Proof.
  induction t as [| [] t IH]; cbn [app requests_sent]; rewrite ?IH; reflexivity.
Qed.

(** C3. The wrapper calls the operation at most three times: it stops at
    the first attempt that does not raise a transport exception and hands
    its outcome on, and between two consecutive attempts it logs and sleeps
    10 seconds.  Two transport exceptions followed by a success give the
    success value after two sleeps of 10 seconds; three transport
    exceptions in a row raise the exception of the third attempt, as the
    operation raised it, and the operation is not called again. *)
Theorem retry_on_network_error_three_attempts (w : script) :
  (* at most three attempts: an operation that sends at most [k] requests
     per call sends at most [3 * k] when wrapped *)
  (forall k : nat,
      (forall w', (length (requests_sent (snd (func w'))) <= k)%nat) ->
      (length (requests_sent (snd (retry_on_network_error func w))) <= 3 * k)%nat) /\
  (* the first attempt decides *)
  (forall o w1 t1,
      func w = (o, w1, t1) -> transport_failure o = false ->
      retry_on_network_error func w = (o, w1, t1)) /\
  (* one failure, then the second attempt decides *)
  (forall e1 w1 t1 o w2 t2,
      func w = (Raise (RequestException e1), w1, t1) ->
      func w1 = (o, w2, t2) -> transport_failure o = false ->
      retry_on_network_error func w = (o, w2, t1 ++ backoff 1 e1 ++ t2)) /\
  (* two failures, then the third attempt decides *)
  (forall e1 w1 t1 e2 w2 t2 o w3 t3,
      func w = (Raise (RequestException e1), w1, t1) ->
      func w1 = (Raise (RequestException e2), w2, t2) ->
      func w2 = (o, w3, t3) -> transport_failure o = false ->
      let tr := t1 ++ backoff 1 e1 ++ t2 ++ backoff 2 e2 ++ t3 in
      retry_on_network_error func w = (o, w3, tr) /\
      slept tr = slept t1 + slept t2 + slept t3 + 2 * 10) /\
  (* three failures: the exception of the third attempt is raised *)
  (forall e1 w1 t1 e2 w2 t2 e3 w3 t3,
      func w = (Raise (RequestException e1), w1, t1) ->
      func w1 = (Raise (RequestException e2), w2, t2) ->
      func w2 = (Raise (RequestException e3), w3, t3) ->
      retry_on_network_error func w =
        (Raise (RequestException e3), w3,
         t1 ++ backoff 1 e1 ++ t2 ++ backoff 2 e2 ++ t3 ++ gave_up e3)).
Proof.
  unfold retry_on_network_error. rewrite retry_attempts_list.
  assert (H1 : 1 < RETRY_ATTEMPTS) by (unfold RETRY_ATTEMPTS; lia).
  assert (H2 : 2 < RETRY_ATTEMPTS) by (unfold RETRY_ATTEMPTS; lia).
  assert (H3 : RETRY_ATTEMPTS <= 3) by (unfold RETRY_ATTEMPTS; lia).
  split; [| split; [| split; [| split]]].
  - intros k Hk.
    pose proof (Hk w) as Hk1.
    destruct (func w) as [[o1 w1] t1] eqn:Hf1. cbn [snd] in Hk1.
    destruct (transport_failure o1) eqn:Ho1;
      [| rewrite (retry_loop_pass 1 _ _ _ _ _ _ Hf1 Ho1); cbn [snd]; lia].
    destruct o1 as [? | ? | [e1 | | | |] |]; try discriminate.
    rewrite (retry_loop_again 1 _ _ _ _ _ _ H1 Hf1). cbv zeta. cbn [snd].
    pose proof (Hk w1) as Hk2.
    destruct (func w1) as [[o2 w2] t2] eqn:Hf2. cbn [snd] in Hk2.
    destruct (transport_failure o2) eqn:Ho2;
      [| rewrite (retry_loop_pass 2 _ _ _ _ _ _ Hf2 Ho2); cbn [snd];
         rewrite !requests_sent_app, !length_app; cbn [backoff requests_sent length]; lia].
    destruct o2 as [? | ? | [e2 | | | |] |]; try discriminate.
    rewrite (retry_loop_again 2 _ _ _ _ _ _ H2 Hf2). cbv zeta. cbn [snd].
    pose proof (Hk w2) as Hk3.
    destruct (func w2) as [[o3 w3] t3] eqn:Hf3. cbn [snd] in Hk3.
    destruct (transport_failure o3) eqn:Ho3;
      [| rewrite (retry_loop_pass 3 _ _ _ _ _ _ Hf3 Ho3); cbn [snd];
         rewrite !requests_sent_app, !length_app; cbn [backoff requests_sent length]; lia].
    destruct o3 as [? | ? | [e3 | | | |] |]; try discriminate.
    rewrite (retry_loop_last 3 _ _ _ _ _ H3 Hf3). cbn [snd].
    rewrite !requests_sent_app, !length_app.
    cbn [backoff gave_up requests_sent length]. lia.
  - intros o w1 t1 Hf Ho. eapply retry_loop_pass; eassumption.
  - intros e1 w1 t1 o w2 t2 Hf1 Hf2 Ho.
    rewrite (retry_loop_again 1 _ _ _ _ _ _ H1 Hf1). cbv zeta.
    rewrite (retry_loop_pass 2 _ _ _ _ _ _ Hf2 Ho). reflexivity.
  - intros e1 w1 t1 e2 w2 t2 o w3 t3 Hf1 Hf2 Hf3 Ho. cbv zeta. split.
    + rewrite (retry_loop_again 1 _ _ _ _ _ _ H1 Hf1). cbv zeta.
      rewrite (retry_loop_again 2 _ _ _ _ _ _ H2 Hf2). cbv zeta.
      rewrite (retry_loop_pass 3 _ _ _ _ _ _ Hf3 Ho). reflexivity.
    + rewrite !slept_app. cbn [backoff slept]. lia.
  - intros e1 w1 t1 e2 w2 t2 e3 w3 t3 Hf1 Hf2 Hf3.
    rewrite (retry_loop_again 1 _ _ _ _ _ _ H1 Hf1). cbv zeta.
    rewrite (retry_loop_again 2 _ _ _ _ _ _ H2 Hf2). cbv zeta.
    rewrite (retry_loop_last 3 _ _ _ _ _ H3 Hf3). reflexivity.
Qed.

End Retry.

Lemma retry_on_network_error_three_attempts_witness :
  let w := [NetError "timed out"; NetError "connection reset";
            Sample.ok 202 []] in
  exists tr,
    request_import "S1" (JStr "U1") Sample.token w = (Return tt, [], tr) /\
    slept tr = 20 /\ length (requests_sent tr) = 3%nat.
Proof.
  cbv zeta.
  pose proof (retry_on_network_error_three_attempts
                (request_import__wrapped "S1" (JStr "U1") Sample.token)
                [NetError "timed out"; NetError "connection reset";
                 Sample.ok 202 []])
    as (_ & _ & _ & H3 & _).
  edestruct H3 as [Hrun Hslept]; [reflexivity | reflexivity | reflexivity | reflexivity |].
  eexists. split; [exact Hrun |]. split; reflexivity.
Defined.

(** ** Polling *)

Section PollStatus.

Lemma py_eq_canon (a b : json) :
  scalar a = true -> scalar b = true ->
  (Py.eq a b = true <-> canon a = canon b).
Proof.
  destruct a as [| x | n | s | |], b as [| y | m | t | |];
    cbn [scalar Py.eq canon]; try discriminate; intros _ _;
    try (split; [discriminate | discriminate]); try tauto.
  - destruct x, y; cbn; split; congruence.
  - destruct x; rewrite Z.eqb_eq; split; congruence.
  - destruct y; rewrite Z.eqb_eq; split; congruence.
  - rewrite Z.eqb_eq; split; congruence.
  - rewrite String.eqb_eq; split; congruence.
Qed.

Lemma py_eq_scalar_congr (x a b : json) :
  scalar x = true -> scalar a = true -> scalar b = true ->
  canon a = canon b -> Py.eq x a = Py.eq x b.
Proof.
  intros Hx Ha Hb Hab. apply Bool.eq_iff_eq_true.
  rewrite !py_eq_canon by assumption. rewrite Hab. tauto.
Qed.

Lemma py_eq_str (v : json) (s : string) :
  Py.eq v (JStr s) = true <-> v = JStr s.
Proof.
  destruct v; cbn [Py.eq]; try (split; discriminate).
  rewrite String.eqb_eq. split; congruence.
Qed.

Lemma py_eq_str_false (v : json) (s : string) :
  v <> JStr s -> Py.eq v (JStr s) = false.
Proof.
  intros Hne. destruct (Py.eq v (JStr s)) eqn:He; [| reflexivity].
  apply py_eq_str in He. contradiction.
Qed.

Lemma last_cons {A} (l : list A) :
  forall a d : A, List.last (a :: l) d = List.last l a.
Proof.
  induction l as [| b l IH]; intros a d; [reflexivity |].
  change (List.last (a :: b :: l) d) with (List.last (b :: l) d).
  rewrite (IH b d), (IH b a). reflexivity.
Qed.

Variables (source_id : string) (upload_id access_token : json).
Variables (target_status phase_name : string).

Local Abbreviation req := (poll_request source_id upload_id access_token).

(** The loop never runs out of turns before the script runs out of
    answers: above the length of the script the number of turns allowed
    does not matter, so [Pending] only means that an answer is awaited. *)
Lemma poll_loop_fuel_irrelevant (w : script) :
  forall (fuel1 fuel2 : nat) (last : json),
    (length w < fuel1)%nat -> (length w < fuel2)%nat ->
    poll_loop fuel1 source_id upload_id access_token target_status phase_name
      last w =
    poll_loop fuel2 source_id upload_id access_token target_status phase_name
      last w.
Proof.
  induction w as [| [e | [c b]] w IH]; intros [| f1] [| f2] last H1 H2;
    try (cbn [length] in *; lia); try reflexivity.
  cbn [length] in H1, H2.
  cbn [poll_loop]. proc_unfold. proc_eval0.
  destruct (c =? 200); [| reflexivity].
  destruct b as [| | | | | d]; try reflexivity.
  proc_eval0.
  destruct (Py.eq (Py.dict_get d "status" JNull) last); cbn [negb];
    destruct (Py.eq (Py.dict_get d "status" JNull) (JStr "failed"));
    try reflexivity;
    destruct (Py.eq (Py.dict_get d "status" JNull) (JStr target_status));
    try reflexivity;
    rewrite (IH f1 f2) by lia; reflexivity.
Qed.

Lemma poll_loop_quiet (fuel : nat) (last : json) (d : list (string * json))
    (w : script) :
  quiet target_status d ->
  poll_loop (S fuel) source_id upload_id access_token target_status phase_name
    last (NetResponse (Response 200 (JObj d)) :: w) =
  let r := poll_loop fuel source_id upload_id access_token target_status
             phase_name
             (if Py.eq (status_of d) last then last else status_of d) w in
  (fst (fst r), snd (fst r),
   Http req :: status_line last (status_of d) ++ [Sleep 5] ++ snd r).
Proof.
  intros (_ & Htarget & Hfailed). cbv zeta.
  cbn [poll_loop]. proc_run. cbn [status_code body Z.eqb Pos.eqb].
  change (Py.dict_get d "status" JNull) with (status_of d).
  rewrite bind_ret_l. cbv beta.
  rewrite (py_eq_str_false _ _ Hfailed), (py_eq_str_false _ _ Htarget).
  unfold status_line.
  destruct (Py.eq (status_of d) last); cbn [negb];
    rewrite ?bind_emit, ?bind_ret_l; cbv beta; rewrite ?bind_emit;
    cbn [fst snd app]; reflexivity.
Qed.

Lemma poll_loop_waits (polls : list (list (string * json))) :
  forall (fuel : nat) (last prev : json) (w : script),
    (length polls <= fuel)%nat -> Forall (quiet target_status) polls ->
    scalar last = true -> scalar prev = true -> canon last = canon prev ->
    exists last',
      scalar last' = true /\
      canon last' = canon (List.last (map status_of polls) prev) /\
      poll_loop fuel source_id upload_id access_token target_status phase_name
        last (poll_script polls ++ w) =
      let r := poll_loop (fuel - length polls) source_id upload_id access_token
                 target_status phase_name last' w in
      (fst (fst r), snd (fst r), waiting_trace req prev polls ++ snd r).
Proof.
  induction polls as [| d polls IH]; intros fuel last prev w Hfuel Hq Hl Hp Hc.
  - exists last. cbn [length poll_script map app waiting_trace List.last].
    rewrite Nat.sub_0_r. repeat split; try assumption.
    destruct (poll_loop fuel _ _ _ _ _ last w) as [[o w'] t]. reflexivity.
  - destruct fuel as [| fuel]; [cbn in Hfuel; lia |].
    inversion Hq as [| ? ? Hd Hq']; subst.
    pose proof Hd as (Hs & _ & _).
    set (last1 := if Py.eq (status_of d) last then last else status_of d).
    assert (Hl1 : scalar last1 = true)
      by (unfold last1; destruct (Py.eq (status_of d) last); assumption).
    assert (Hc1 : canon last1 = canon (status_of d)).
    { unfold last1. destruct (Py.eq (status_of d) last) eqn:He; [| reflexivity].
      apply py_eq_canon in He; [congruence | assumption | assumption]. }
    destruct (IH fuel last1 (status_of d) w ltac:(cbn in Hfuel; lia) Hq' Hl1 Hs Hc1)
      as (last' & Hl' & Hc' & Hrun).
    exists last'. split; [exact Hl' |]. split.
    + rewrite Hc'. cbn [map]. rewrite last_cons. reflexivity.
    + cbn [poll_script map app]. rewrite (poll_loop_quiet fuel last d _ Hd).
      fold last1. fold (poll_script polls). cbv zeta. rewrite Hrun. cbv zeta.
      cbn [fst snd length Nat.sub waiting_trace].
      unfold status_line.
      rewrite (py_eq_scalar_congr (status_of d) last prev Hs Hl Hp Hc).
      cbn [app]. rewrite <- !app_assoc. reflexivity.
Qed.

Lemma poll_loop_target (fuel : nat) (last : json) (d : list (string * json))
    (w : script) :
  target_status <> "failed" -> status_of d = JStr target_status ->
  poll_loop (S fuel) source_id upload_id access_token target_status phase_name
    last (NetResponse (Response 200 (JObj d)) :: w) =
  (Return (JObj d), w,
   Http req :: status_line last (status_of d) ++
   [Log SUCCESS [Str phase_name; Lit " completed in "; Elapsed;
                 Lit " seconds"]]).
Proof.
  intros Hne Hst.
  cbn [poll_loop]. proc_run. cbn [status_code body Z.eqb Pos.eqb].
  change (Py.dict_get d "status" JNull) with (status_of d).
  rewrite bind_ret_l. cbv beta. rewrite Hst.
  assert (Hf : Py.eq (JStr target_status) (JStr "failed") = false).
  { apply py_eq_str_false. congruence. }
  assert (Ht : Py.eq (JStr target_status) (JStr target_status) = true)
    by (apply py_eq_str; reflexivity).
  rewrite Hf, Ht. unfold status_line.
  destruct (Py.eq (JStr target_status) last); reflexivity.
Qed.

Lemma poll_loop_failed (fuel : nat) (last : json) (d : list (string * json))
    (w : script) :
  status_of d = JStr "failed" ->
  poll_loop (S fuel) source_id upload_id access_token target_status phase_name
    last (NetResponse (Response 200 (JObj d)) :: w) =
  (Exit 2, w,
   Http req :: status_line last (status_of d) ++
   [Log ERROR [Str phase_name; Lit " failed: ";
               Val (Py.dict_get d "errorMessage" (JStr "Unknown error"))]]).
Proof.
  intros Hst.
  cbn [poll_loop]. proc_run. cbn [status_code body Z.eqb Pos.eqb].
  change (Py.dict_get d "status" JNull) with (status_of d).
  rewrite bind_ret_l. cbv beta. rewrite Hst.
  change (Py.eq (JStr "failed") (JStr "failed")) with true. cbv iota.
  unfold status_line.
  destruct (Py.eq (JStr "failed") last); reflexivity.
Qed.

Lemma logged_statuses_app (t u : list event) :
  logged_statuses (t ++ u) = logged_statuses t ++ logged_statuses u.
Proof.
  induction t as [| e t IH]; [reflexivity |].
  cbn [app logged_statuses].
  destruct e as [[| | |] [| [l | | | | | | |] [| [| | | s | | | |] [| ? ?]]] | | | |];
    try exact IH.
  destruct (String.eqb l "Status: "); [cbn [app]; f_equal |]; exact IH.
Qed.

Lemma logged_statuses_status_line (prev s : json) :
  logged_statuses (status_line prev s) = if Py.eq s prev then [] else [s].
Proof. unfold status_line. destruct (Py.eq s prev); reflexivity. Qed.

Lemma logged_statuses_waiting (polls : list (list (string * json))) :
  forall prev,
    logged_statuses (waiting_trace req prev polls) =
      changes prev (map status_of polls).
Proof.
  induction polls as [| d polls IH]; intros prev; [reflexivity |].
  cbn [waiting_trace map changes logged_statuses].
  rewrite !logged_statuses_app, logged_statuses_status_line, IH.
  reflexivity.
Qed.

Lemma changes_app (l1 l2 : list json) :
  forall prev,
    changes prev (l1 ++ l2) = changes prev l1 ++ changes (List.last l1 prev) l2.
Proof.
  induction l1 as [| s l1 IH]; intros prev; [reflexivity |].
  cbn [app changes]. rewrite IH, last_cons, <- app_assoc. reflexivity.
Qed.

Lemma poll_script_app (l1 l2 : list (list (string * json))) :
  poll_script (l1 ++ l2) = poll_script l1 ++ poll_script l2.
Proof. unfold poll_script. apply map_app. Qed.

Lemma quiet_last_scalar (polls : list (list (string * json))) :
  Forall (quiet target_status) polls ->
  forall prev, scalar prev = true ->
    scalar (List.last (map status_of polls) prev) = true.
Proof.
  induction 1 as [| d polls (Hs & _) _ IH]; intros prev Hp; [exact Hp |].
  cbn [map]. rewrite last_cons. apply IH. exact Hs.
Qed.

(** The undecorated function on a run of quiet polls followed by a poll
    with payload [d]: the loop reaches that poll, and reports its status
    when it differs from the status of the poll before. *)
Lemma poll_status__wrapped_waits (polls : list (list (string * json)))
    (d : list (string * json)) (rest : script) :
  Forall (quiet target_status) polls -> scalar (status_of d) = true ->
  exists (last : json) (fuel : nat),
    poll_status__wrapped source_id upload_id access_token target_status
      phase_name (poll_script (polls ++ [d]) ++ rest) =
    (let r := poll_loop (S fuel) source_id upload_id access_token
                target_status phase_name last
                (NetResponse (Response 200 (JObj d)) :: rest) in
     (fst (fst r), snd (fst r),
      Log PROGRESS [Lit "Waiting for "; Str phase_name; Lit "..."] ::
      waiting_trace req JNull polls ++ snd r)) /\
    status_line last (status_of d) =
      status_line (List.last (map status_of polls) JNull) (status_of d).
Proof.
  intros Hq Hd. unfold poll_status__wrapped.
  rewrite poll_script_app, <- app_assoc.
  destruct (poll_loop_waits polls
              (S (length (poll_script polls ++ poll_script [d] ++ rest)))
              JNull JNull (poll_script [d] ++ rest))
    as (last & Hl & Hc & Hrun); try reflexivity; try assumption.
  { rewrite length_app. unfold poll_script at 1. rewrite length_map. lia. }
  exists last, (S (length rest)). split.
  - proc_unfold. rewrite bind_emit. rewrite Hrun. cbv zeta. cbn [fst snd].
    replace (S (length (poll_script polls ++ poll_script [d] ++ rest))
             - length polls)%nat with (S (S (length rest))).
    2:{ rewrite !length_app. unfold poll_script. rewrite !length_map.
        cbn [length]. lia. }
    reflexivity.
  - unfold status_line.
    rewrite (py_eq_scalar_congr (status_of d) last
               (List.last (map status_of polls) JNull)); try assumption;
      [reflexivity |].
    apply quiet_last_scalar; [assumption | reflexivity].
Qed.

Lemma poll_status__wrapped_target (polls : list (list (string * json)))
    (d : list (string * json)) (rest : script) :
  target_status <> "failed" -> Forall (quiet target_status) polls ->
  status_of d = JStr target_status ->
  poll_status__wrapped source_id upload_id access_token target_status
    phase_name (poll_script (polls ++ [d]) ++ rest) =
  (Return (JObj d), rest,
   (Log PROGRESS [Lit "Waiting for "; Str phase_name; Lit "..."] ::
    waiting_trace req JNull polls ++
    Http req :: status_line (List.last (map status_of polls) JNull) (status_of d)) ++
   [Log SUCCESS [Str phase_name; Lit " completed in "; Elapsed;
                 Lit " seconds"]]).
Proof.
  intros Hne Hq Hst.
  destruct (poll_status__wrapped_waits polls d rest Hq)
    as (last & fuel & Hrun & Hline); [rewrite Hst; reflexivity |].
  rewrite Hrun. rewrite (poll_loop_target fuel last d rest Hne Hst).
  cbv zeta. cbn [fst snd]. rewrite Hline.
  cbn [app]. rewrite <- !app_assoc. reflexivity.
Qed.

Lemma poll_status__wrapped_failed (polls : list (list (string * json)))
    (d : list (string * json)) (rest : script) :
  Forall (quiet target_status) polls -> status_of d = JStr "failed" ->
  poll_status__wrapped source_id upload_id access_token target_status
    phase_name (poll_script (polls ++ [d]) ++ rest) =
  (Exit 2, rest,
   (Log PROGRESS [Lit "Waiting for "; Str phase_name; Lit "..."] ::
    waiting_trace req JNull polls ++
    Http req :: status_line (List.last (map status_of polls) JNull) (status_of d)) ++
   [Log ERROR [Str phase_name; Lit " failed: ";
               Val (Py.dict_get d "errorMessage" (JStr "Unknown error"))]]).
Proof.
  intros Hq Hst.
  destruct (poll_status__wrapped_waits polls d rest Hq)
    as (last & fuel & Hrun & Hline); [rewrite Hst; reflexivity |].
  rewrite Hrun. rewrite (poll_loop_failed fuel last d rest Hst).
  cbv zeta. cbn [fst snd]. rewrite Hline.
  cbn [app]. rewrite <- !app_assoc. reflexivity.
Qed.

(** C2. Whatever statuses the polls before it show (none of them the
    target, none [failed]), the first poll whose status is the target makes
    [poll_status] return the whole payload of that poll; if instead that
    poll shows [failed], the process ends with exit code 2 after logging the
    server's [errorMessage], and nothing is returned.  A line ["Status: s"]
    is logged exactly for the polls whose status differs from that of the
    poll before. *)
Theorem poll_status_first_target_or_failed
    (polls : list (list (string * json))) (d : list (string * json))
    (rest : script) :
  target_status <> "failed" ->
  Forall (quiet target_status) polls ->
  let w := poll_script (polls ++ [d]) ++ rest in
  let run := poll_status source_id upload_id access_token target_status
               phase_name w in
  let before :=
    Log PROGRESS [Lit "Waiting for "; Str phase_name; Lit "..."] ::
    waiting_trace req JNull polls ++
    Http req :: status_line (List.last (map status_of polls) JNull) (status_of d) in
  (status_of d = JStr target_status ->
   run = (Return (JObj d), rest,
          before ++ [Log SUCCESS [Str phase_name; Lit " completed in "; Elapsed;
                                  Lit " seconds"]])) /\
  (status_of d = JStr "failed" ->
   run = (Exit 2, rest,
          before ++ [Log ERROR [Str phase_name; Lit " failed: ";
                                Val (Py.dict_get d "errorMessage"
                                       (JStr "Unknown error"))]])) /\
  (status_of d = JStr target_status \/ status_of d = JStr "failed" ->
   logged_statuses (snd run) = changes JNull (map status_of (polls ++ [d]))).
Proof.
  intros Hne Hq. cbv zeta.
  pose proof (poll_status__wrapped_target polls d rest Hne Hq) as Htarget.
  pose proof (poll_status__wrapped_failed polls d rest Hq) as Hfailed.
  unfold poll_status.
  split; [| split].
  - intros Hst. eapply retry_on_network_error_pass; [| reflexivity].
    apply Htarget, Hst.
  - intros Hst. eapply retry_on_network_error_pass; [| reflexivity].
    apply Hfailed, Hst.
  - intros [Hst | Hst];
      [erewrite retry_on_network_error_pass; [| apply Htarget, Hst | reflexivity]
      | erewrite retry_on_network_error_pass; [| apply Hfailed, Hst | reflexivity]];
      cbn [snd app logged_statuses];
      rewrite !logged_statuses_app, logged_statuses_waiting;
      cbn [logged_statuses]; rewrite logged_statuses_status_line;
      rewrite map_app, changes_app; cbn [map changes];
      rewrite !app_nil_r; reflexivity.
Qed.

End PollStatus.

Lemma poll_status_first_target_or_failed_witness :
  (exists tr,
      poll_status "S1" (JStr "U1") Sample.token "analysisCompleted" "analysis"
        (poll_script [[("status", JStr "created")];
                      [("status", JStr "analysisInProgress")];
                      [("status", JStr "analysisInProgress")];
                      [("status", JStr "analysisCompleted");
                       ("totalRecords", JNum 100)]]) =
        (Return (JObj [("status", JStr "analysisCompleted");
                       ("totalRecords", JNum 100)]), [], tr) /\
      logged_statuses tr =
        [JStr "created"; JStr "analysisInProgress"; JStr "analysisCompleted"]) /\
  (exists tr,
      poll_status "S1" (JStr "U1") Sample.token "analysisCompleted" "analysis"
        (poll_script [[("status", JStr "created")];
                      [("status", JStr "failed");
                       ("errorMessage", JStr "bad header")]] ++
         [Sample.ok 200 [("status", JStr "analysisCompleted")]]) =
        (Exit 2, [Sample.ok 200 [("status", JStr "analysisCompleted")]], tr) /\
      List.last tr (Sleep 0) =
        Log ERROR [Str "analysis"; Lit " failed: "; Val (JStr "bad header")]).
Proof.
  split.
  - pose proof (poll_status_first_target_or_failed "S1" (JStr "U1") Sample.token
                  "analysisCompleted" "analysis"
                  [[("status", JStr "created")];
                   [("status", JStr "analysisInProgress")];
                   [("status", JStr "analysisInProgress")]]
                  [("status", JStr "analysisCompleted");
                   ("totalRecords", JNum 100)] [])
      as (Hrun & _ & _).
    + discriminate.
    + repeat constructor; discriminate.
    + eexists. split; [apply Hrun; reflexivity | reflexivity].
  - pose proof (poll_status_first_target_or_failed "S1" (JStr "U1") Sample.token
                  "analysisCompleted" "analysis"
                  [[("status", JStr "created")]]
                  [("status", JStr "failed");
                   ("errorMessage", JStr "bad header")]
                  [Sample.ok 200 [("status", JStr "analysisCompleted")]])
      as (_ & Hrun & _).
    + discriminate.
    + repeat constructor; discriminate.
    + eexists. split; [apply Hrun; reflexivity | reflexivity].
Defined.

(** ** The token exchange is not retried *)

Section TokenExchange.

Variables (source_id file_name file_path phase_name target_status : string).
Variables (access_token upload_id presigned_url : json) (file_size : Z).

Lemma get_access_token_transport_error (env : environ) (detail : string)
    (w : script) :
  blank (env !! "HARPIN_CLIENT_ID") = false ->
  blank (env !! "HARPIN_REFRESH_TOKEN") = false ->
  get_access_token env (NetError detail :: w) =
    (Exit 1, w,
     [Log PROGRESS [Lit "Authenticating with harpin AI..."];
      Http (token_request env);
      Log ERROR [Lit "Authentication request failed: "; Str detail]]).
Proof.
  intros Hid Htok. unfold get_access_token, token_request.
  destruct (strip_not_blank _ Hid) as (c & t & ->).
  destruct (strip_not_blank _ Htok) as (c' & t' & ->).
  reflexivity.
Qed.

Lemma create_upload_retried (detail : string) (w : script) :
  Py.truthy upload_id = true -> Py.truthy presigned_url = true ->
  exists tr,
    create_upload source_id file_name access_token
      (NetError detail ::
       Sample.ok 201 [("id", upload_id); ("url", presigned_url)] :: w) =
      (Return (upload_id, presigned_url), w, tr) /\
    length (requests_sent tr) = 2%nat /\ slept tr = 10.
Proof.
  intros Hid Hurl. eexists. split.
  - unfold create_upload. eapply retry_on_network_error_second.
    + reflexivity.
    + unfold create_upload__wrapped, Sample.ok. proc_unfold. cbn.
      rewrite Hid, Hurl. reflexivity.
    + reflexivity.
  - split; reflexivity.
Qed.

Lemma upload_to_s3_retried (detail : string) (b : json) (w : script) :
  exists tr,
    upload_to_s3 presigned_url file_path file_size
      (NetError detail :: NetResponse (Response 200 b) :: w) =
      (Return tt, w, tr) /\
    length (requests_sent tr) = 2%nat /\ slept tr = 10.
Proof.
  eexists. split.
  - unfold upload_to_s3. eapply retry_on_network_error_second; reflexivity.
  - split; reflexivity.
Qed.

Lemma request_import_retried (detail : string) (b : json) (w : script) :
  exists tr,
    request_import source_id upload_id access_token
      (NetError detail :: NetResponse (Response 202 b) :: w) =
      (Return tt, w, tr) /\
    length (requests_sent tr) = 2%nat /\ slept tr = 10.
Proof.
  eexists. split.
  - unfold request_import. eapply retry_on_network_error_second; reflexivity.
  - split; reflexivity.
Qed.

Lemma poll_status_retried (detail : string) (d : list (string * json))
    (w : script) :
  target_status <> "failed" -> status_of d = JStr target_status ->
  exists tr,
    poll_status source_id upload_id access_token target_status phase_name
      (NetError detail :: NetResponse (Response 200 (JObj d)) :: w) =
      (Return (JObj d), w, tr) /\
    length (requests_sent tr) = 2%nat /\ slept tr = 10.
Proof.
  intros Hne Hst. eexists. split.
  - unfold poll_status. eapply retry_on_network_error_second.
    + reflexivity.
    + exact (poll_status__wrapped_target source_id upload_id access_token
               target_status phase_name [] d w Hne (List.Forall_nil _) Hst).
    + reflexivity.
  - unfold status_line.
    destruct (Py.eq (status_of d) (List.last (map status_of []) JNull));
      split; reflexivity.
Qed.

(** C8. A transport-level exception during the token exchange ends the
    process at once (exit code 1): one request is sent, nothing is slept and
    the rest of the script, whatever it holds, is never asked for.  The four
    operations of the workflow behave otherwise: after the same exception
    each of them waits 10 seconds, sends its request again and succeeds on a
    good answer. *)
Theorem token_exchange_not_retried (env : environ) (detail : string)
    (d : list (string * json)) (b : json) (w : script) :
  blank (env !! "HARPIN_CLIENT_ID") = false ->
  blank (env !! "HARPIN_REFRESH_TOKEN") = false ->
  Py.truthy upload_id = true -> Py.truthy presigned_url = true ->
  target_status <> "failed" -> status_of d = JStr target_status ->
  let tr := [Log PROGRESS [Lit "Authenticating with harpin AI..."];
             Http (token_request env);
             Log ERROR [Lit "Authentication request failed: "; Str detail]] in
  (get_access_token env (NetError detail :: w) = (Exit 1, w, tr) /\
   length (requests_sent tr) = 1%nat /\ slept tr = 0) /\
  (exists tr,
      create_upload source_id file_name access_token
        (NetError detail ::
         Sample.ok 201 [("id", upload_id); ("url", presigned_url)] :: w) =
        (Return (upload_id, presigned_url), w, tr) /\
      length (requests_sent tr) = 2%nat /\ slept tr = 10) /\
  (exists tr,
      upload_to_s3 presigned_url file_path file_size
        (NetError detail :: NetResponse (Response 200 b) :: w) =
        (Return tt, w, tr) /\
      length (requests_sent tr) = 2%nat /\ slept tr = 10) /\
  (exists tr,
      poll_status source_id upload_id access_token target_status phase_name
        (NetError detail :: NetResponse (Response 200 (JObj d)) :: w) =
        (Return (JObj d), w, tr) /\
      length (requests_sent tr) = 2%nat /\ slept tr = 10) /\
  (exists tr,
      request_import source_id upload_id access_token
        (NetError detail :: NetResponse (Response 202 b) :: w) =
        (Return tt, w, tr) /\
      length (requests_sent tr) = 2%nat /\ slept tr = 10).
Proof.
  intros Hid Htok Huid Hurl Hne Hst. cbv zeta.
  split; [| split; [| split; [| split]]].
  - split; [apply get_access_token_transport_error; assumption |].
    split; reflexivity.
  - apply create_upload_retried; assumption.
  - apply upload_to_s3_retried.
  - apply poll_status_retried; assumption.
  - apply request_import_retried.
Qed.

End TokenExchange.

Lemma token_exchange_not_retried_witness :
  get_access_token Sample.env
    [NetError "connection refused";
     Sample.ok 200 [("accessToken", Sample.token)]] =
    (Exit 1, [Sample.ok 200 [("accessToken", Sample.token)]],
     [Log PROGRESS [Lit "Authenticating with harpin AI..."];
      Http (token_request Sample.env);
      Log ERROR [Lit "Authentication request failed: ";
                 Str "connection refused"]]).
Proof.
  apply (token_exchange_not_retried "S1" "data.csv" "data.csv" "analysis"
           "analysisCompleted" Sample.token (JStr "U1")
           (JStr "https://storage.example/put") (10 * 1024 * 1024)
           Sample.env "connection refused"
           [("status", JStr "analysisCompleted")] JNull
           [Sample.ok 200 [("accessToken", Sample.token)]]);
    first [reflexivity | discriminate].
Defined.

(** ** The concurrency gate *)

Section ConcurrencyGate.

Variables (source_id : string) (access_token : json).

Lemma in_strings_status (d : list (string * json)) :
  Py.in_strings (Py.dict_get d "status" JNull) in_progress_statuses =
    counts_as_in_progress (JObj d).
Proof.
  unfold Py.dict_get, counts_as_in_progress.
  destruct (Py.lookup "status" d) as [[| b | n | s | l | f] |]; reflexivity.
Qed.

Lemma collect_in_progress_spec (uploads : list json) :
  forall (in_progress : list json) (w : script),
    collect_in_progress uploads in_progress w =
      (Return (in_progress ++ List.filter counts_as_in_progress uploads), w,
       skip_warnings uploads).
Proof.
  induction uploads as [| u uploads IH]; intros acc w.
  - cbn. rewrite app_nil_r. reflexivity.
  - cbn [collect_in_progress skip_warnings flat_map List.filter].
    destruct u as [| b | n | s | l | d];
      try (cbn [Py.isinstance_dict negb counts_as_in_progress];
           proc_unfold; rewrite bind_emit, IH; reflexivity).
    cbn [Py.isinstance_dict negb]. proc_unfold. rewrite bind_ret_l.
    rewrite in_strings_status.
    destruct (counts_as_in_progress (JObj d)); rewrite IH; cbn [app];
      rewrite <- ?app_assoc; reflexivity.
Qed.

(** The gate once the list of uploads is at hand. *)
Lemma check_concurrent_uploads_list (b : json) (uploads : list json)
    (w : script) :
  b = JList uploads \/
  (exists d, b = JObj d /\ Py.dict_get d "content" (JList []) = JList uploads) ->
  check_concurrent_uploads source_id access_token
    (NetResponse (Response 200 b) :: w) =
  if in_progress_count uploads >=? 3 then
    (Exit 1, w,
     Log PROGRESS [Lit "Checking concurrent uploads..."] ::
     Http (uploads_request source_id access_token) ::
     skip_warnings uploads ++
     [Log ERROR [Lit "Maximum concurrent uploads ("; Int 3; Lit ") reached"];
      Log ERROR [Lit "Currently "; Int (in_progress_count uploads);
                 Lit " upload(s) in progress"];
      Log INFO [Lit "Please wait for existing uploads to complete before starting a new one"]])
  else
    (Return tt, w,
     Log PROGRESS [Lit "Checking concurrent uploads..."] ::
     Http (uploads_request source_id access_token) ::
     skip_warnings uploads ++
     [Log SUCCESS [Lit "Concurrent uploads check passed (";
                   Int (in_progress_count uploads); Lit "/"; Int 3; Lit ")"]]).
Proof.
  intros Hb.
  unfold check_concurrent_uploads. proc_unfold.
  destruct Hb as [-> | (d & -> & Hc)]; proc_eval; [| rewrite Hc; proc_eval];
    rewrite collect_in_progress_spec; proc_eval; cbn [app];
    fold (in_progress_count uploads);
    change MAX_CONCURRENT_UPLOADS with 3;
    destruct (in_progress_count uploads >=? 3); reflexivity.
Qed.

(** C4. The gate counts the entries of the upload list that are mappings
    with a status among created, analysisInProgress, analysisCompleted,
    importRequested and importInProgress.  With a count of 3 or more it ends
    the process with exit code 1; with a count of 2 or less it returns and
    the pipeline goes on.  The list may come bare or under the key
    [content]. *)
Theorem check_concurrent_uploads_ceiling (b : json) (uploads : list json)
    (w : script) :
  b = JList uploads \/
  (exists d, b = JObj d /\ Py.dict_get d "content" (JList []) = JList uploads) ->
  let run := check_concurrent_uploads source_id access_token
               (NetResponse (Response 200 b) :: w) in
  let before :=
    Log PROGRESS [Lit "Checking concurrent uploads..."] ::
    Http (uploads_request source_id access_token) :: skip_warnings uploads in
  (3 <= in_progress_count uploads ->
   run = (Exit 1, w,
          before ++
          [Log ERROR [Lit "Maximum concurrent uploads ("; Int 3; Lit ") reached"];
           Log ERROR [Lit "Currently "; Int (in_progress_count uploads);
                      Lit " upload(s) in progress"];
           Log INFO [Lit "Please wait for existing uploads to complete before starting a new one"]])) /\
  (in_progress_count uploads <= 2 ->
   run = (Return tt, w,
          before ++
          [Log SUCCESS [Lit "Concurrent uploads check passed (";
                        Int (in_progress_count uploads); Lit "/"; Int 3;
                        Lit ")"]])).
Proof.
  intros Hb. cbv zeta. rewrite (check_concurrent_uploads_list b uploads w Hb).
  rewrite Z.geb_leb.
  split; intros Hc;
    destruct (Z.leb_spec 3 (in_progress_count uploads)); try lia; reflexivity.
Qed.

(** C10. A 200 answer that is a mapping without the key [content] is read
    as an empty list of uploads: the count is 0 and the gate lets the
    pipeline go on; the process does not end there. *)
Theorem check_concurrent_uploads_no_content (d : list (string * json))
    (w : script) :
  Py.lookup "content" d = None ->
  check_concurrent_uploads source_id access_token
    (NetResponse (Response 200 (JObj d)) :: w) =
  (Return tt, w,
   [Log PROGRESS [Lit "Checking concurrent uploads..."];
    Http (uploads_request source_id access_token);
    Log SUCCESS [Lit "Concurrent uploads check passed ("; Int 0; Lit "/";
                 Int 3; Lit ")"]]).
Proof.
  intros Hd.
  rewrite (check_concurrent_uploads_list (JObj d) [] w); [reflexivity |].
  right. exists d. split; [reflexivity |].
  unfold Py.dict_get. rewrite Hd. reflexivity.
Qed.

End ConcurrencyGate.

Lemma check_concurrent_uploads_ceiling_witness :
  (exists tr,
      check_concurrent_uploads "S3" Sample.token
        [Sample.ok 200 [("content", JList Sample.busy_uploads)]] =
        (Exit 1, [], tr)) /\
  (exists tr,
      check_concurrent_uploads "S3" Sample.token
        [NetResponse (Response 200 (JList Sample.light_uploads))] =
        (Return tt, [], tr)).
Proof.
  split; eexists.
  - apply (check_concurrent_uploads_ceiling "S3" Sample.token
             (JObj [("content", JList Sample.busy_uploads)])
             Sample.busy_uploads []).
    + right. eexists. split; reflexivity.
    + apply Z.leb_le. reflexivity.
  - apply (check_concurrent_uploads_ceiling "S3" Sample.token
             (JList Sample.light_uploads) Sample.light_uploads []).
    + left. reflexivity.
    + apply Z.leb_le. reflexivity.
Defined.

Lemma check_concurrent_uploads_no_content_witness :
  check_concurrent_uploads "S1" Sample.token
    [Sample.ok 200 [("totalElements", JNum 0)];
     Sample.ok 201 [("id", JStr "U1")]] =
  (Return tt, [Sample.ok 201 [("id", JStr "U1")]],
   [Log PROGRESS [Lit "Checking concurrent uploads..."];
    Http (uploads_request "S1" Sample.token);
    Log SUCCESS [Lit "Concurrent uploads check passed ("; Int 0; Lit "/";
                 Int 3; Lit ")"]]).
Proof.
  apply (check_concurrent_uploads_no_content "S1" Sample.token
           [("totalElements", JNum 0)]).
  reflexivity.
Defined.

(** ** The remote source validator *)

Section ValidateSource.

Variables (source_id : string) (access_token : json).

Lemma flat_file_test (d : list (string * json)) :
  Py.eq (Py.dict_get d "sourceSystem" JNull) (JStr "flatFile") =
    is_flat_file (JObj d).
Proof.
  unfold Py.dict_get, is_flat_file.
  destruct (Py.lookup "sourceSystem" d) as [[| b | n | s | l | f] |];
    reflexivity.
Qed.

Lemma flat_file_filter_spec (sources : list json) :
  Forall (fun s => Py.isinstance_dict s = true) sources ->
  forall w, flat_file_filter sources w =
              (Return (List.filter is_flat_file sources), w, []).
Proof.
  induction 1 as [| s sources Hs _ IH]; intros w; [reflexivity |].
  destruct s as [| | | | | d]; try discriminate.
  cbn [flat_file_filter List.filter]. proc_unfold.
  rewrite bind_ret_l. unfold bind at 1. rewrite IH.
  rewrite flat_file_test. reflexivity.
Qed.

Lemma for_each_source_lines (shown : list json) :
  Forall (fun s => Py.isinstance_dict s = true) shown ->
  forall w,
    for_each shown
      (fun source =>
         let! source_id_val := py_get source "id" (JStr "N/A") in
         let! source_name := py_get source "name" (JStr "N/A") in
         log_info [Lit "ID: "; Val source_id_val; Lit ", Name: ";
                   Val source_name]) w =
      (Return tt, w, map source_line shown).
Proof.
  induction 1 as [| s shown Hs _ IH]; intros w; [reflexivity |].
  destruct s as [| | | | | d]; try discriminate.
  cbn [for_each map source_line]. proc_unfold.
  unfold bind at 1. rewrite !bind_ret_l. cbv beta. unfold emit at 1.
  rewrite IH. reflexivity.
Qed.

Lemma filter_dicts (sources : list json) :
  Forall (fun s => Py.isinstance_dict s = true) sources ->
  Forall (fun s => Py.isinstance_dict s = true)
    (List.filter is_flat_file sources).
Proof.
  induction 1 as [| s sources Hs _ IH]; cbn [List.filter]; [constructor |].
  destruct (is_flat_file s); [constructor |]; assumption.
Qed.

(** The listing after a 404, when it is answered by a well-formed page. *)
Lemma list_available_sources_page (d : list (string * json))
    (sources : list json) (w : script) :
  Py.dict_get d "content" (JList []) = JList sources ->
  Forall (fun s => Py.isinstance_dict s = true) sources ->
  list_available_sources access_token
    (NetResponse (Response 200 (JObj d)) :: w) =
  (Return tt, w, Http (sources_request access_token) :: listing_lines sources).
Proof.
  intros Hc Hs. unfold list_available_sources. proc_unfold. proc_eval.
  rewrite Hc. proc_eval.
  rewrite (flat_file_filter_spec sources Hs). cbv beta iota.
  unfold listing_lines.
  pose proof (filter_dicts sources Hs) as Hshown.
  destruct (List.filter is_flat_file sources) as [| s shown] eqn:Hf;
    [reflexivity |].
  rewrite (for_each_source_lines (s :: shown) Hshown). reflexivity.
Qed.

(** What the validator does with an answer to the fetch of the source
    whose status is neither 200 nor 404: one error line that names the
    status, then exit code 1, the code of a user error. *)
Theorem validate_source_other_status (r : response) (w : script) :
  status_code r <> 200 -> status_code r <> 404 ->
  validate_source source_id access_token (NetResponse r :: w) =
    (Exit 1, w,
     [Log PROGRESS [Lit "Validating source ID: "; Str source_id; Lit "..."];
      Http (source_request source_id access_token);
      Log ERROR [Lit "Failed to validate source ID (status ";
                 Int (status_code r); Lit ")"]]).
Proof.
  intros H200 H404. apply Z.eqb_neq in H200, H404.
  destruct r as [c rb]. cbn [status_code] in *.
  unfold validate_source. proc_unfold. proc_eval0.
  rewrite H200, H404. reflexivity.
Qed.

(** C5 (amended). On a 404 the validator sends the listing request.  When
    that request fails in transport, or is answered with a status other than
    200, or is answered 200 with a mapping whose [content] (if any) is a
    list of mappings, the process ends with exit code 1; in the last case
    the sources displayed are exactly those whose [sourceSystem] is
    [flatFile]. *)
Theorem validate_source_not_found (b : json) (listing : net_outcome)
    (w : script) :
  let run := validate_source source_id access_token
               (NetResponse (Response 404 b) :: listing :: w) in
  let before := not_found_trace source_id access_token in
  (forall e, listing = NetError e ->
     run = (Exit 1, w,
            before ++ [Log ERROR [Lit "Failed to retrieve available sources: ";
                                  Str e]])) /\
  (forall r, listing = NetResponse r -> status_code r <> 200 ->
     run = (Exit 1, w,
            before ++ [Log ERROR [Lit "Failed to retrieve available sources"]])) /\
  (forall d sources,
     listing = NetResponse (Response 200 (JObj d)) ->
     Py.dict_get d "content" (JList []) = JList sources ->
     Forall (fun s => Py.isinstance_dict s = true) sources ->
     run = (Exit 1, w, before ++ listing_lines sources)).
Proof.
  cbv zeta. split; [| split].
  - intros e ->. reflexivity.
  - intros r -> H200. unfold validate_source, list_available_sources.
    apply Z.eqb_neq in H200. destruct r as [c rb]. cbn [status_code] in H200.
    proc_unfold. proc_eval0. change (404 =? 200) with false.
    change (404 =? 404) with true. proc_eval0. rewrite H200. reflexivity.
  - intros d sources -> Hc Hs. unfold validate_source. proc_unfold.
    proc_eval. rewrite (list_available_sources_page d sources w Hc Hs).
    cbn [app]. rewrite app_nil_r. reflexivity.
Qed.

End ValidateSource.

Lemma validate_source_other_status_witness :
  validate_source "S1" Sample.token
    [NetResponse (Response 503 JNull); Sample.ok 200 Sample.sources_page] =
    (Exit 1, [Sample.ok 200 Sample.sources_page],
     [Log PROGRESS [Lit "Validating source ID: "; Str "S1"; Lit "..."];
      Http (source_request "S1" Sample.token);
      Log ERROR [Lit "Failed to validate source ID (status "; Int 503;
                 Lit ")"]]).
Proof.
  apply (validate_source_other_status "S1" Sample.token
           (Response 503 JNull)); discriminate.
Defined.

(** C1. The code departs from the claim.  A status 500 on the fetch of the
    source ends the process with exit code 1, the code of a user error, in
    the validator and end to end through [main]; the claim, and the help
    text of the script (exit code 2 for API errors), ask for exit code 2,
    which is what the sibling [check_concurrent_uploads] gives for the same
    answer. *)
Lemma status_500_exits_with_user_error :
  exit_status
    (validate_source "S1" Sample.token [NetResponse (Response 500 JNull)]) =
    Some EXIT_USER_ERROR /\
  exit_status
    (validate_source "S1" Sample.token [NetResponse (Response 500 JNull)]) <>
    Some EXIT_SYSTEM_ERROR /\
  exit_status
    (main "S1" "data.csv" Sample.env Sample.fs
       [Sample.token_ok; NetResponse (Response 500 JNull)]) = Some 1 /\
  exit_status
    (check_concurrent_uploads "S1" Sample.token
       [NetResponse (Response 500 JNull)]) = Some EXIT_SYSTEM_ERROR.
Proof.
  split; [reflexivity |]. split; [discriminate |]. split; reflexivity.
Qed.

Lemma validate_source_not_found_witness :
  validate_source "S2" Sample.token
    [NetResponse (Response 404 JNull); Sample.ok 200 Sample.sources_page] =
    (Exit 1, [],
     not_found_trace "S2" Sample.token ++
     [Log INFO [Lit NL; Lit "Available flatFile sources:"];
      Log INFO [Lit "ID: "; Val (JStr "S1"); Lit ", Name: "; Val (JStr "orders")];
      Log INFO [Lit "ID: "; Val (JStr "S9"); Lit ", Name: "; Val (JStr "N/A")]]).
Proof.
  pose proof (validate_source_not_found "S2" Sample.token JNull
                (Sample.ok 200 Sample.sources_page) [])
    as (_ & _ & Hpage).
  apply (Hpage Sample.sources_page
           [JObj [("id", JStr "S1"); ("name", JStr "orders");
                  ("sourceSystem", JStr "flatFile")];
            JObj [("id", JStr "S7"); ("name", JStr "crm");
                  ("sourceSystem", JStr "salesforce")];
            JObj [("id", JStr "S9"); ("sourceSystem", JStr "flatFile")]]);
    [reflexivity | reflexivity | repeat constructor].
Defined.

(** C5, as the specification states it, fails: a 404 followed by a listing
    answered 200 with a JSON array, or with a mapping whose [content] is
    null, raises an exception in the validator that is no
    [RequestException]; the top-level handler turns it into exit code 2. *)
Lemma malformed_listing_exits_with_system_error :
  fst (fst (validate_source "S2" Sample.token
              [NetResponse (Response 404 JNull);
               NetResponse (Response 200 (JList []))])) =
    Raise AttributeError /\
  fst (fst (validate_source "S2" Sample.token
              [NetResponse (Response 404 JNull);
               Sample.ok 200 [("content", JNull)]])) =
    Raise TypeError /\
  exit_status
    (main "S2" "data.csv" Sample.env Sample.fs
       [Sample.token_ok; NetResponse (Response 404 JNull);
        NetResponse (Response 200 (JList []))]) = Some 2 /\
  exit_status
    (main "S2" "data.csv" Sample.env Sample.fs
       [Sample.token_ok; NetResponse (Response 404 JNull);
        Sample.ok 200 [("content", JNull)]]) = Some 2 /\
  exit_status
    (main "S2" "data.csv" Sample.env Sample.fs
       [Sample.token_ok; NetResponse (Response 404 JNull);
        NetResponse (Response 200 (JList []))]) <> Some EXIT_USER_ERROR.
Proof. repeat split; try reflexivity. discriminate. Qed.

(** ** End-to-end runs *)

Example main_success :
  exit_status (main "S1" "data.csv" Sample.env Sample.fs Scenario.success) =
    Some 0.
Proof. reflexivity. Qed.

Example main_success_summary :
  let tr := snd (main "S1" "data.csv" Sample.env Sample.fs Scenario.success) in
  In (Log SUCCESS [Lit "Total Records: "; Val (JNum 100)]) tr /\
  In (Log SUCCESS [Lit "Imported Records: "; Val (JNum 100)]) tr /\
  slept tr = 10.
Proof. cbv zeta. vm_compute. intuition. Qed.

(** The gate refuses before any upload is created: three requests are sent
    (token, source, uploads) and the answer meant for the creation is left
    in the script. *)
Example main_busy :
  let run := main "S3" "data.csv" Sample.env Sample.fs Scenario.busy in
  exit_status run = Some 1 /\
  length (requests_sent (snd run)) = 3%nat /\
  length (snd (fst run)) = 1%nat.
Proof. cbv zeta. repeat split; reflexivity. Qed.

Example main_file_too_large :
  exit_status (main "S1" "big.csv" Sample.env Sample.fs Scenario.success) =
    Some 1.
Proof. reflexivity. Qed.

Example main_missing_file :
  exit_status (main "S1" "absent.csv" Sample.env Sample.fs Scenario.success) =
    Some 1.
Proof. reflexivity. Qed.

Example path_name_examples :
  PyPath.name "data/2026/orders.csv" = "orders.csv" /\
  PyPath.name "orders.csv" = "orders.csv" /\
  PyPath.name "./orders.csv" = "orders.csv".
Proof. repeat split; reflexivity. Qed.

Example strip_examples :
  PyStr.strip (PyStr.of_string "  id 7 ") = PyStr.of_string "id 7" /\
  PyStr.strip [9; 32; 160; 8195]%N = [].
Proof. split; reflexivity. Qed.

(** * Further properties *)

(** ** How exit codes, exceptions and returned values compose *)

Section Composition.

Context {A B : Type}.
Variable S : Z -> Prop.

Lemma exits_in_ret (a : A) : exits_in S (ret a).
Proof. intros w c w' tr H. discriminate. Qed.

Lemma exits_in_raise (e : exn) : exits_in S (@raise A e).
Proof. intros w c w' tr H. discriminate. Qed.

Lemma exits_in_emit (e : event) : exits_in S (emit e).
Proof. intros w c w' tr H. discriminate. Qed.

Lemma exits_in_send (r : request) : exits_in S (send r).
Proof. intros [| [d | resp] w] c w' tr H; discriminate. Qed.

Lemma exits_in_sys_exit (c : Z) : S c -> exits_in S (@sys_exit A c).
Proof. intros Hc w c' w' tr [= <- _ _]. exact Hc. Qed.

Lemma exits_in_bind (m : proc A) (k : A -> proc B) :
  exits_in S m -> (forall a, exits_in S (k a)) -> exits_in S (bind m k).
Proof.
  intros Hm Hk w c w' tr. unfold bind.
  destruct (m w) as [[[a | c1 | e |] w1] t1] eqn:Em; try discriminate.
  - destruct (k a w1) as [[o w2] t2] eqn:Ek. intros [= -> _ _].
    exact (Hk a w1 c w2 t2 Ek).
  - intros [= <- _ _]. exact (Hm w c1 w1 t1 Em).
Qed.

Lemma exits_in_try (m : proc A) (h : string -> proc A) :
  exits_in S m -> (forall e, exits_in S (h e)) ->
  exits_in S (try_except_RequestException m h).
Proof.
  intros Hm Hh w c w' tr. unfold try_except_RequestException.
  destruct (m w) as [[[a | c1 | [d | | | |] |] w1] t1] eqn:Em; try discriminate.
  - intros [= <- _ _]. exact (Hm w c1 w1 t1 Em).
  - destruct (h d w1) as [[o w2] t2] eqn:Eh. intros [= -> _ _].
    exact (Hh d w1 c w2 t2 Eh).
Qed.

Lemma exits_in_try_Exception (m : proc A) (h : exn -> proc A) :
  exits_in S m -> (forall e, exits_in S (h e)) ->
  exits_in S (try_except_Exception m h).
Proof.
  intros Hm Hh w c w' tr. unfold try_except_Exception.
  destruct (m w) as [[[a | c1 | e |] w1] t1] eqn:Em; try discriminate.
  - intros [= <- _ _]. exact (Hm w c1 w1 t1 Em).
  - destruct (h e w1) as [[o w2] t2] eqn:Eh. intros [= -> _ _].
    exact (Hh e w1 c w2 t2 Eh).
Qed.

Lemma exits_in_retry_loop (func : proc A) (attempts : list Z) :
  exits_in S func ->
  forall last, exits_in S (retry_loop func attempts last).
Proof.
  intros Hf. induction attempts as [| attempt attempts IH]; intros last.
  - cbn [retry_loop]. destruct last; apply exits_in_raise.
  - cbn [retry_loop]. apply exits_in_try; [exact Hf |]. intros e.
    intros w c w' tr. unfold bind at 1.
    destruct (attempt <? RETRY_ATTEMPTS);
      match goal with
      | |- context [match ?x w with _ => _ end] =>
          destruct (x w) as [[[[] | c1 | e1 |] w1] t1] eqn:Ex
      end; try discriminate;
      try (destruct (retry_loop func attempts (Some (RequestException e)) w1)
             as [[o w2] t2] eqn:Er; intros [= -> _ _];
           exact (IH _ w1 c w2 t2 Er));
      exfalso; revert Ex; proc_unfold; proc_eval0; discriminate.
Qed.

Lemma exits_in_retry (func : proc A) :
  exits_in S func -> exits_in S (retry_on_network_error func).
Proof. intros Hf. apply exits_in_retry_loop. exact Hf. Qed.

End Composition.

Lemma exits_in_for_each {A} (S : Z -> Prop) (l : list A) (f : A -> proc unit) :
  (forall x, exits_in S (f x)) -> exits_in S (for_each l f).
Proof.
  intros Hf. induction l as [| x l IH]; cbn [for_each].
  - apply exits_in_ret.
  - apply exits_in_bind; [apply Hf | intros _; exact IH].
Qed.

Lemma exits_in_weaken {A} (S S' : Z -> Prop) (m : proc A) :
  (forall c, S c -> S' c) -> exits_in S m -> exits_in S' m.
Proof. intros HS Hm w c w' tr H. apply HS. exact (Hm w c w' tr H). Qed.

(** Decompose a goal on exit codes along the structure of the computation. *)
Ltac exits_step :=
  match goal with
  | |- exits_in _ (bind _ _) => apply exits_in_bind; [| intros ?]
  | |- exits_in _ (try_except_RequestException _ _) =>
      apply exits_in_try; [| intros ?]
  | |- exits_in _ (try_except_Exception _ _) =>
      apply exits_in_try_Exception; [| intros ?]
  | |- exits_in _ (for_each _ _) => apply exits_in_for_each; intros ?
  | |- exits_in _ (retry_on_network_error _) => apply exits_in_retry
  | |- exits_in _ (ret _) => apply exits_in_ret
  | |- exits_in _ (raise _) => apply exits_in_raise
  | |- exits_in _ (emit _) => apply exits_in_emit
  | |- exits_in _ (send _) => apply exits_in_send
  | |- exits_in _ (sys_exit _) => apply exits_in_sys_exit
  | |- exits_in _ (if ?b then _ else _) => destruct b
  | |- exits_in _ (match ?x with _ => _ end) => destruct x
  end.

Ltac exits_auto := proc_unfold; repeat exits_step.

(** ** The exit codes of each step *)

Section ExitCodes.

Lemma get_access_token_exits (env : environ) :
  exits_in (fun c => c = 1) (get_access_token env).
Proof.
  unfold get_access_token.
  destruct (PyStr.strip (default [] (env !! "HARPIN_CLIENT_ID")));
    destruct (PyStr.strip (default [] (env !! "HARPIN_REFRESH_TOKEN")));
    cbn [app]; exits_auto; reflexivity.
Qed.

Lemma validate_file_exits (fs : filesystem) (file_path : string) :
  exits_in (fun c => c = 1) (validate_file fs file_path).
Proof.
  unfold validate_file, PyPath.exists_, PyPath.is_file, PyPath.stat.
  proc_unfold.
  apply exits_in_bind; [apply exits_in_emit | intros _].
  destruct (fs !! file_path) as [[path | e] |];
    [| destruct (PyPath.ignore_error e) |]; repeat exits_step; reflexivity.
Qed.

Lemma flat_file_filter_exits (S : Z -> Prop) (sources : list json) :
  exits_in S (flat_file_filter sources).
Proof.
  induction sources as [| s sources IH]; cbn [flat_file_filter].
  - apply exits_in_ret.
  - exits_auto. exact IH.
Qed.

Lemma list_available_sources_exits (S : Z -> Prop) (access_token : json) :
  exits_in S (list_available_sources access_token).
Proof.
  unfold list_available_sources. proc_unfold.
  apply exits_in_try; [| intros e; apply exits_in_emit].
  apply exits_in_bind; [apply exits_in_send | intros r].
  destruct (status_code r =? 200); [| apply exits_in_emit].
  apply exits_in_bind; [repeat exits_step | intros sources].
  apply exits_in_bind; [repeat exits_step | intros items].
  apply exits_in_bind; [apply flat_file_filter_exits | intros shown].
  destruct shown; repeat exits_step.
Qed.

Lemma validate_source_exits (source_id : string) (access_token : json) :
  exits_in (fun c => c = 1) (validate_source source_id access_token).
Proof.
  unfold validate_source. proc_unfold.
  apply exits_in_bind; [apply exits_in_emit | intros _].
  apply exits_in_try; [| intros e; repeat exits_step; reflexivity].
  apply exits_in_bind; [apply exits_in_send | intros r].
  destruct (status_code r =? 200); [repeat exits_step; reflexivity |].
  destruct (status_code r =? 404); [| repeat exits_step; reflexivity].
  apply exits_in_bind; [apply exits_in_emit | intros _].
  apply exits_in_bind; [apply exits_in_emit | intros _].
  apply exits_in_bind; [apply list_available_sources_exits | intros _].
  apply exits_in_sys_exit. reflexivity.
Qed.

Lemma collect_in_progress_exits (S : Z -> Prop) (uploads : list json) :
  forall in_progress, exits_in S (collect_in_progress uploads in_progress).
Proof.
  induction uploads as [| u uploads IH]; intros acc; cbn [collect_in_progress].
  - apply exits_in_ret.
  - proc_unfold. destruct (negb (Py.isinstance_dict u)).
    + apply exits_in_bind; [apply exits_in_emit | intros _; apply IH].
    + apply exits_in_bind; [repeat exits_step | intros status].
      destruct (Py.in_strings status in_progress_statuses); apply IH.
Qed.

Lemma check_concurrent_uploads_exits (source_id : string) (access_token : json) :
  exits_in (fun c => c = 1 \/ c = 2)
    (check_concurrent_uploads source_id access_token).
Proof.
  unfold check_concurrent_uploads. proc_unfold.
  apply exits_in_bind; [apply exits_in_emit | intros _].
  apply exits_in_try; [| intros e; repeat exits_step; right; reflexivity].
  apply exits_in_bind; [apply exits_in_send | intros r].
  destruct (status_code r =? 200); [| repeat exits_step; right; reflexivity].
  apply exits_in_bind; [repeat exits_step; right; reflexivity | intros uploads].
  apply exits_in_bind; [repeat exits_step | intros items].
  apply exits_in_bind; [apply collect_in_progress_exits | intros in_progress].
  repeat exits_step. left; reflexivity.
Qed.

Lemma create_upload_exits (source_id file_name : string) (access_token : json) :
  exits_in (fun c => c = 2) (create_upload source_id file_name access_token).
Proof.
  unfold create_upload, create_upload__wrapped. exits_auto; reflexivity.
Qed.

Lemma upload_to_s3_exits (presigned_url : json) (file_path : string)
    (file_size : Z) :
  exits_in (fun c => c = 2) (upload_to_s3 presigned_url file_path file_size).
Proof.
  unfold upload_to_s3, upload_to_s3__wrapped. exits_auto; reflexivity.
Qed.

Lemma request_import_exits (source_id : string) (upload_id access_token : json) :
  exits_in (fun c => c = 2) (request_import source_id upload_id access_token).
Proof.
  unfold request_import, request_import__wrapped. exits_auto; reflexivity.
Qed.

Lemma poll_loop_exits (source_id : string) (upload_id access_token : json)
    (target_status phase_name : string) (fuel : nat) :
  forall last,
    exits_in (fun c => c = 2)
      (poll_loop fuel source_id upload_id access_token target_status
         phase_name last).
Proof.
  induction fuel as [| fuel IH]; intros last; cbn [poll_loop].
  - intros w c w' tr H. discriminate.
  - proc_unfold.
    apply exits_in_bind; [apply exits_in_send | intros r].
    destruct (status_code r =? 200); [| repeat exits_step; reflexivity].
    apply exits_in_bind; [repeat exits_step | intros current].
    apply exits_in_bind; [repeat exits_step | intros _].
    destruct (Py.eq current (JStr "failed")); [repeat exits_step; reflexivity |].
    destruct (Py.eq current (JStr target_status)); [repeat exits_step |].
    apply exits_in_bind; [apply exits_in_emit | intros _; apply IH].
Qed.

Lemma poll_status_exits (source_id : string) (upload_id access_token : json)
    (target_status phase_name : string) :
  exits_in (fun c => c = 2)
    (poll_status source_id upload_id access_token target_status phase_name).
Proof.
  unfold poll_status. apply exits_in_retry.
  intros w c w' tr. unfold poll_status__wrapped. proc_unfold.
  intros H. revert H.
  apply (exits_in_bind (fun c => c = 2)
           (emit (Log PROGRESS [Lit "Waiting for "; Str phase_name; Lit "..."]))
           (fun _ => poll_loop (Datatypes.S (length w)) source_id upload_id
                       access_token target_status phase_name JNull)).
  - apply exits_in_emit.
  - intros _. apply poll_loop_exits.
Qed.

End ExitCodes.

(** ** The process as a whole *)

Section MainOutcome.

Lemma returns_in_bind {A B} (Q : B -> Prop) (m : proc A) (k : A -> proc B) :
  (forall a, returns_in Q (k a)) -> returns_in Q (bind m k).
Proof.
  intros Hk w b w' tr. unfold bind.
  destruct (m w) as [[[a | c1 | e |] w1] t1]; try discriminate.
  destruct (k a w1) as [[o w2] t2] eqn:Ek. intros [= -> _ _].
  exact (Hk a w1 b w2 t2 Ek).
Qed.

Lemma returns_in_sys_exit {A} (Q : A -> Prop) (c : Z) :
  returns_in Q (@sys_exit A c).
Proof. intros w a w' tr H. discriminate. Qed.

Lemma returns_in_try_Exception {A} (Q : A -> Prop) (m : proc A)
    (h : exn -> proc A) :
  returns_in Q m -> (forall e, returns_in Q (h e)) ->
  returns_in Q (try_except_Exception m h).
Proof.
  intros Hm Hh w a w' tr. unfold try_except_Exception.
  destruct (m w) as [[[a1 | c1 | e |] w1] t1] eqn:Em; try discriminate.
  - intros [= <- _ _]. exact (Hm w a1 w1 t1 Em).
  - destruct (h e w1) as [[o w2] t2] eqn:Eh. intros [= -> _ _].
    exact (Hh e w1 a w2 t2 Eh).
Qed.

Lemma raises_in_bind {A B} (P : exn -> Prop) (m : proc A) (k : A -> proc B) :
  raises_in P m -> (forall a, raises_in P (k a)) -> raises_in P (bind m k).
Proof.
  intros Hm Hk w e w' tr. unfold bind.
  destruct (m w) as [[[a | c1 | e1 |] w1] t1] eqn:Em; try discriminate.
  - destruct (k a w1) as [[o w2] t2] eqn:Ek. intros [= -> _ _].
    exact (Hk a w1 e w2 t2 Ek).
  - intros [= <- _ _]. exact (Hm w e1 w1 t1 Em).
Qed.

Lemma raises_in_emit (P : exn -> Prop) (ev : event) : raises_in P (emit ev).
Proof. intros w e w' tr H. discriminate. Qed.

Lemma raises_in_sys_exit {A} (P : exn -> Prop) (c : Z) :
  raises_in P (@sys_exit A c).
Proof. intros w e w' tr H. discriminate. Qed.

Lemma raises_in_try_Exception {A} (P : exn -> Prop) (m : proc A)
    (h : exn -> proc A) :
  (forall e, raises_in P (h e)) -> raises_in P (try_except_Exception m h).
Proof.
  intros Hh w e w' tr. unfold try_except_Exception.
  destruct (m w) as [[[a1 | c1 | e1 |] w1] t1] eqn:Em; try discriminate.
  destruct (h e1 w1) as [[o w2] t2] eqn:Eh. intros [= -> _ _].
  exact (Hh e1 w1 e w2 t2 Eh).
Qed.

Variables (source_id file_path_str : string) (env : environ) (fs : filesystem).

Lemma main_exits :
  exits_in (fun c => c = 0 \/ c = 1 \/ c = 2)
    (main source_id file_path_str env fs).
Proof.
  unfold main. proc_unfold.
  do 3 (apply exits_in_bind; [apply exits_in_emit | intros _]).
  apply exits_in_try_Exception;
    [| intros e; repeat exits_step; right; right; reflexivity].
  apply exits_in_bind;
    [eapply exits_in_weaken; [| apply get_access_token_exits];
     intros c ->; tauto | intros access_token].
  apply exits_in_bind;
    [eapply exits_in_weaken; [| apply validate_file_exits];
     intros c ->; tauto | intros validated].
  cbv zeta.
  apply exits_in_bind;
    [eapply exits_in_weaken; [| apply validate_source_exits];
     intros c ->; tauto | intros _].
  apply exits_in_bind;
    [eapply exits_in_weaken; [| apply check_concurrent_uploads_exits];
     intros c [-> | ->]; tauto | intros _].
  apply exits_in_bind;
    [eapply exits_in_weaken; [| apply create_upload_exits];
     intros c ->; tauto | intros created].
  apply exits_in_bind;
    [eapply exits_in_weaken; [| apply upload_to_s3_exits];
     intros c ->; tauto | intros _].
  apply exits_in_bind;
    [eapply exits_in_weaken; [| apply poll_status_exits];
     intros c ->; tauto | intros analysis_data].
  apply exits_in_bind;
    [eapply exits_in_weaken; [| apply request_import_exits];
     intros c ->; tauto | intros _].
  apply exits_in_bind;
    [eapply exits_in_weaken; [| apply poll_status_exits];
     intros c ->; tauto | intros final_data].
  repeat exits_step. left. reflexivity.
Qed.

Lemma main_never_returns :
  returns_in (fun _ => False) (main source_id file_path_str env fs).
Proof.
  unfold main.
  do 3 (apply returns_in_bind; intros _).
  apply returns_in_try_Exception.
  - do 2 (apply returns_in_bind; intros ?). cbv zeta.
    do 12 (apply returns_in_bind; intros ?). cbv zeta.
    repeat (apply returns_in_bind; intros ?).
    apply returns_in_sys_exit.
  - intros e. repeat (apply returns_in_bind; intros ?).
    apply returns_in_sys_exit.
Qed.

Lemma main_never_raises :
  raises_in (fun _ => False) (main source_id file_path_str env fs).
Proof.
  unfold main. proc_unfold.
  do 3 (apply raises_in_bind; [apply raises_in_emit | intros _]).
  apply raises_in_try_Exception. intros e.
  do 2 (apply raises_in_bind; [apply raises_in_emit | intros _]).
  apply raises_in_sys_exit.
Qed.

(** X1. Whatever the arguments, the environment, the files and the answers
    of the network, the process ends with exit code 0, 1 or 2, or is still
    waiting for an answer: [main] never returns and no exception leaves
    it. *)
Theorem main_exit_codes (w : script) :
  match fst (fst (main source_id file_path_str env fs w)) with
  | Exit c => c = 0 \/ c = 1 \/ c = 2
  | Pending => True
  | Return _ => False
  | Raise _ => False
  end.
Proof.
  destruct (main source_id file_path_str env fs w) as [[[[] | c | e |] w'] tr]
    eqn:Hrun; cbn [fst].
  - exact (main_never_returns w tt w' tr Hrun).
  - exact (main_exits w c w' tr Hrun).
  - exact (main_never_raises w e w' tr Hrun).
  - exact I.
Qed.

End MainOutcome.

(** ** The script is read from the left *)

Section ReadsFromLeft.

Context {A B : Type}.

Lemma reads_from_left_ret (a : A) : reads_from_left (ret a).
Proof. intros w o w' tr [= _ <- _]. exists []. reflexivity. Qed.

Lemma reads_from_left_raise (e : exn) : reads_from_left (@raise A e).
Proof. intros w o w' tr [= _ <- _]. exists []. reflexivity. Qed.

Lemma reads_from_left_sys_exit (c : Z) : reads_from_left (@sys_exit A c).
Proof. intros w o w' tr [= _ <- _]. exists []. reflexivity. Qed.

Lemma reads_from_left_emit (e : event) : reads_from_left (emit e).
Proof. intros w o w' tr [= _ <- _]. exists []. reflexivity. Qed.

Lemma reads_from_left_send (r : request) : reads_from_left (send r).
Proof.
  intros [| [d | resp] w] o w' tr [= _ <- _];
    [exists [] | exists [NetError d] | exists [NetResponse resp]]; reflexivity.
Qed.

Lemma reads_from_left_bind (m : proc A) (k : A -> proc B) :
  reads_from_left m -> (forall a, reads_from_left (k a)) ->
  reads_from_left (bind m k).
Proof.
  intros Hm Hk w o w' tr. unfold bind.
  destruct (m w) as [[[a | c1 | e |] w1] t1] eqn:Em;
    try (intros [= _ <- _]; exact (Hm w _ w1 t1 Em)).
  destruct (k a w1) as [[o2 w2] t2] eqn:Ek. intros [= _ <- _].
  destruct (Hm w _ w1 t1 Em) as (p1 & ->).
  destruct (Hk a w1 _ w2 t2 Ek) as (p2 & ->).
  exists (p1 ++ p2). rewrite <- app_assoc. reflexivity.
Qed.

Lemma reads_from_left_try (m : proc A) (h : string -> proc A) :
  reads_from_left m -> (forall e, reads_from_left (h e)) ->
  reads_from_left (try_except_RequestException m h).
Proof.
  intros Hm Hh w o w' tr. unfold try_except_RequestException.
  destruct (m w) as [[[a | c1 | [d | | | |] |] w1] t1] eqn:Em;
    try (intros [= _ <- _]; exact (Hm w _ w1 t1 Em)).
  destruct (h d w1) as [[o2 w2] t2] eqn:Eh. intros [= _ <- _].
  destruct (Hm w _ w1 t1 Em) as (p1 & ->).
  destruct (Hh d w1 _ w2 t2 Eh) as (p2 & ->).
  exists (p1 ++ p2). rewrite <- app_assoc. reflexivity.
Qed.

Lemma reads_from_left_try_Exception (m : proc A) (h : exn -> proc A) :
  reads_from_left m -> (forall e, reads_from_left (h e)) ->
  reads_from_left (try_except_Exception m h).
Proof.
  intros Hm Hh w o w' tr. unfold try_except_Exception.
  destruct (m w) as [[[a | c1 | e |] w1] t1] eqn:Em;
    try (intros [= _ <- _]; exact (Hm w _ w1 t1 Em)).
  destruct (h e w1) as [[o2 w2] t2] eqn:Eh. intros [= _ <- _].
  destruct (Hm w _ w1 t1 Em) as (p1 & ->).
  destruct (Hh e w1 _ w2 t2 Eh) as (p2 & ->).
  exists (p1 ++ p2). rewrite <- app_assoc. reflexivity.
Qed.

End ReadsFromLeft.

Lemma reads_from_left_for_each {A} (l : list A) (f : A -> proc unit) :
  (forall x, reads_from_left (f x)) -> reads_from_left (for_each l f).
Proof.
  intros Hf. induction l as [| x l IH]; cbn [for_each].
  - apply reads_from_left_ret.
  - apply reads_from_left_bind; [apply Hf | intros _; exact IH].
Qed.

(** Decompose a goal of this kind along the structure of the computation. *)
Ltac reads_step :=
  match goal with
  | |- reads_from_left (bind _ _) => apply reads_from_left_bind; [| intros ?]
  | |- reads_from_left (try_except_RequestException _ _) =>
      apply reads_from_left_try; [| intros ?]
  | |- reads_from_left (try_except_Exception _ _) =>
      apply reads_from_left_try_Exception; [| intros ?]
  | |- reads_from_left (for_each _ _) =>
      apply reads_from_left_for_each; intros ?
  | |- reads_from_left (ret _) => apply reads_from_left_ret
  | |- reads_from_left (raise _) => apply reads_from_left_raise
  | |- reads_from_left (emit _) => apply reads_from_left_emit
  | |- reads_from_left (send _) => apply reads_from_left_send
  | |- reads_from_left (sys_exit _) => apply reads_from_left_sys_exit
  | |- reads_from_left (if ?b then _ else _) => destruct b
  | |- reads_from_left (match ?x with _ => _ end) => destruct x
  end.

Ltac reads_auto := proc_unfold; repeat reads_step.

Section StepsReadFromLeft.

Lemma reads_from_left_retry_loop {A} (func : proc A) (attempts : list Z) :
  reads_from_left func ->
  forall last, reads_from_left (retry_loop func attempts last).
Proof.
  intros Hf. induction attempts as [| attempt attempts IH]; intros last;
    cbn [retry_loop].
  - destruct last; apply reads_from_left_raise.
  - apply reads_from_left_try; [exact Hf | intros e].
    apply reads_from_left_bind; [reads_auto | intros _; apply IH].
Qed.

Lemma reads_from_left_retry {A} (func : proc A) :
  reads_from_left func -> reads_from_left (retry_on_network_error func).
Proof. intros Hf. apply reads_from_left_retry_loop. exact Hf. Qed.

Lemma get_access_token_reads (env : environ) :
  reads_from_left (get_access_token env).
Proof.
  unfold get_access_token.
  destruct (PyStr.strip (default [] (env !! "HARPIN_CLIENT_ID")));
    destruct (PyStr.strip (default [] (env !! "HARPIN_REFRESH_TOKEN")));
    cbn [app]; reads_auto.
Qed.

Lemma validate_file_reads (fs : filesystem) (file_path : string) :
  reads_from_left (validate_file fs file_path).
Proof.
  unfold validate_file, PyPath.exists_, PyPath.is_file, PyPath.stat.
  reads_auto.
Qed.

Lemma flat_file_filter_reads (sources : list json) :
  reads_from_left (flat_file_filter sources).
Proof.
  induction sources as [| s sources IH]; cbn [flat_file_filter].
  - apply reads_from_left_ret.
  - reads_auto. exact IH.
Qed.

Lemma list_available_sources_reads (access_token : json) :
  reads_from_left (list_available_sources access_token).
Proof.
  unfold list_available_sources. proc_unfold.
  apply reads_from_left_try; [| intros e; apply reads_from_left_emit].
  apply reads_from_left_bind; [apply reads_from_left_send | intros r].
  destruct (status_code r =? 200); [| apply reads_from_left_emit].
  apply reads_from_left_bind; [repeat reads_step | intros sources].
  apply reads_from_left_bind; [repeat reads_step | intros items].
  apply reads_from_left_bind; [apply flat_file_filter_reads | intros shown].
  destruct shown; repeat reads_step.
Qed.

Lemma validate_source_reads (source_id : string) (access_token : json) :
  reads_from_left (validate_source source_id access_token).
Proof.
  unfold validate_source. proc_unfold.
  apply reads_from_left_bind; [apply reads_from_left_emit | intros _].
  apply reads_from_left_try; [| intros e; repeat reads_step].
  apply reads_from_left_bind; [apply reads_from_left_send | intros r].
  destruct (status_code r =? 200); [repeat reads_step |].
  destruct (status_code r =? 404); [| repeat reads_step].
  apply reads_from_left_bind; [apply reads_from_left_emit | intros _].
  apply reads_from_left_bind; [apply reads_from_left_emit | intros _].
  apply reads_from_left_bind; [apply list_available_sources_reads | intros _].
  apply reads_from_left_sys_exit.
Qed.

Lemma collect_in_progress_reads (uploads : list json) :
  forall in_progress,
    reads_from_left (collect_in_progress uploads in_progress).
Proof.
  induction uploads as [| u uploads IH]; intros acc; cbn [collect_in_progress].
  - apply reads_from_left_ret.
  - proc_unfold. destruct (negb (Py.isinstance_dict u)).
    + apply reads_from_left_bind;
        [apply reads_from_left_emit | intros _; apply IH].
    + apply reads_from_left_bind; [repeat reads_step | intros status].
      destruct (Py.in_strings status in_progress_statuses); apply IH.
Qed.

Lemma check_concurrent_uploads_reads (source_id : string)
    (access_token : json) :
  reads_from_left (check_concurrent_uploads source_id access_token).
Proof.
  unfold check_concurrent_uploads. proc_unfold.
  apply reads_from_left_bind; [apply reads_from_left_emit | intros _].
  apply reads_from_left_try; [| intros e; repeat reads_step].
  apply reads_from_left_bind; [apply reads_from_left_send | intros r].
  destruct (status_code r =? 200); [| repeat reads_step].
  apply reads_from_left_bind; [repeat reads_step | intros uploads].
  apply reads_from_left_bind; [repeat reads_step | intros items].
  apply reads_from_left_bind;
    [apply collect_in_progress_reads | intros in_progress].
  repeat reads_step.
Qed.

Lemma create_upload_reads (source_id file_name : string)
    (access_token : json) :
  reads_from_left (create_upload source_id file_name access_token).
Proof.
  unfold create_upload, create_upload__wrapped.
  apply reads_from_left_retry. reads_auto.
Qed.

Lemma upload_to_s3_reads (presigned_url : json) (file_path : string)
    (file_size : Z) :
  reads_from_left (upload_to_s3 presigned_url file_path file_size).
Proof.
  unfold upload_to_s3, upload_to_s3__wrapped.
  apply reads_from_left_retry. reads_auto.
Qed.

Lemma request_import_reads (source_id : string)
    (upload_id access_token : json) :
  reads_from_left (request_import source_id upload_id access_token).
Proof.
  unfold request_import, request_import__wrapped.
  apply reads_from_left_retry. reads_auto.
Qed.

Variables (source_id : string) (upload_id access_token : json).
Variables (target_status phase_name : string).

Lemma poll_loop_reads (fuel : nat) :
  forall last,
    reads_from_left
      (poll_loop fuel source_id upload_id access_token target_status
         phase_name last).
Proof.
  induction fuel as [| fuel IH]; intros last; cbn [poll_loop].
  - intros w o w' tr [= _ <- _]. exists []. reflexivity.
  - proc_unfold.
    apply reads_from_left_bind; [apply reads_from_left_send | intros r].
    destruct (status_code r =? 200); [| repeat reads_step].
    apply reads_from_left_bind; [repeat reads_step | intros current].
    apply reads_from_left_bind; [repeat reads_step | intros _].
    destruct (Py.eq current (JStr "failed")); [repeat reads_step |].
    destruct (Py.eq current (JStr target_status)); [repeat reads_step |].
    apply reads_from_left_bind;
      [apply reads_from_left_emit | intros _; apply IH].
Qed.

Lemma poll_status__wrapped_reads :
  reads_from_left
    (poll_status__wrapped source_id upload_id access_token target_status
       phase_name).
Proof.
  intros w o w' tr. unfold poll_status__wrapped. proc_unfold.
  apply (reads_from_left_bind
           (emit (Log PROGRESS [Lit "Waiting for "; Str phase_name; Lit "..."]))
           (fun _ => poll_loop (S (length w)) source_id upload_id
                       access_token target_status phase_name JNull)).
  - apply reads_from_left_emit.
  - intros _. apply poll_loop_reads.
Qed.

Lemma poll_status_reads :
  reads_from_left
    (poll_status source_id upload_id access_token target_status phase_name).
Proof.
  unfold poll_status. apply reads_from_left_retry.
  apply poll_status__wrapped_reads.
Qed.

End StepsReadFromLeft.

(** ** What a step has done when it returns *)

Section ReturnsWith.

Lemma retry_loop_returns {A} (Q : A -> list event -> Prop) (func : proc A) :
  (forall a t pre, Q a t -> Q a (pre ++ t)) ->
  returns_with Q func ->
  forall attempts last, returns_with Q (retry_loop func attempts last).
Proof.
  intros Hpre Hf. induction attempts as [| attempt attempts IH]; intros last.
  - intros w a w' tr. cbn [retry_loop]. destruct last; discriminate.
  - intros w a w' tr. cbn [retry_loop]. unfold try_except_RequestException.
    destruct (func w) as [[[a1 | c1 | [d | | | |] |] w1] t1] eqn:Ef;
      try discriminate.
    + intros [= <- <- <-]. exact (Hf w a1 w1 t1 Ef).
    + unfold bind at 1.
      destruct (attempt <? RETRY_ATTEMPTS); proc_unfold; proc_eval0;
        destruct (retry_loop func attempts (Some (RequestException d)) w1)
          as [[o w2] t2] eqn:Er;
        intros [= -> <- <-]; apply Hpre;
        pose proof (IH _ w1 a w2 t2 Er) as HQ;
        first [exact (Hpre a t2 [_; _; _] HQ) | exact (Hpre a t2 [_] HQ)].
Qed.

Lemma retry_returns {A} (Q : A -> list event -> Prop) (func : proc A) :
  (forall a t pre, Q a t -> Q a (pre ++ t)) ->
  returns_with Q func -> returns_with Q (retry_on_network_error func).
Proof. intros Hpre Hf. apply retry_loop_returns; assumption. Qed.

Lemma retry_loop_returns_from {A}
    (Q : script -> A -> script -> list event -> Prop) (func : proc A) :
  (forall pre w a w' t, Q w a w' t -> Q (pre ++ w) a w' t) ->
  (forall pre w a w' t, Q w a w' t -> Q w a w' (pre ++ t)) ->
  reads_from_left func -> returns_from Q func ->
  forall attempts last, returns_from Q (retry_loop func attempts last).
Proof.
  intros Hscript Htrace Hreads Hf.
  induction attempts as [| attempt attempts IH]; intros last.
  - intros w a w' tr. cbn [retry_loop]. destruct last; discriminate.
  - intros w a w' tr. cbn [retry_loop]. unfold try_except_RequestException.
    destruct (func w) as [[[a1 | c1 | [d | | | |] |] w1] t1] eqn:Ef;
      try discriminate.
    + intros [= <- <- <-]. exact (Hf w a1 w1 t1 Ef).
    + destruct (Hreads w _ w1 t1 Ef) as (pre & ->).
      unfold bind at 1.
      destruct (attempt <? RETRY_ATTEMPTS); proc_unfold; proc_eval0;
        destruct (retry_loop func attempts (Some (RequestException d)) w1)
          as [[o w2] t2] eqn:Er;
        intros [= -> <- <-]; apply Hscript, Htrace;
        pose proof (IH _ w1 a w2 t2 Er) as HQ;
        first [exact (Htrace [_; _; _] _ _ _ _ HQ)
              | exact (Htrace [_] _ _ _ _ HQ)].
Qed.

Variables (source_id : string) (upload_id access_token : json).
Variables (target_status phase_name : string).

Local Abbreviation reached_target := (reached_target target_status phase_name).

Lemma reached_target_prefix (data : json) (t pre : list event) :
  reached_target data t -> reached_target data (pre ++ t).
Proof.
  intros (d & Hd & Ht & Hf & Hin). exists d. repeat split; try assumption.
  apply in_or_app. right. exact Hin.
Qed.

Lemma poll_loop_returns (fuel : nat) :
  forall last,
    returns_with reached_target
      (poll_loop fuel source_id upload_id access_token target_status
         phase_name last).
Proof.
  induction fuel as [| fuel IH]; intros last w data w' tr;
    cbn [poll_loop]; [discriminate |].
  destruct w as [| [e | [c b]] w]; proc_unfold; proc_eval0; try discriminate.
  destruct (c =? 200); [| discriminate].
  destruct b as [| | | | | d]; try discriminate.
  change (Py.dict_get d "status" JNull) with (status_of d).
  destruct (Py.eq (status_of d) (JStr "failed")) eqn:Hfailed;
    [destruct (negb (Py.eq (status_of d) last)); discriminate |].
  destruct (Py.eq (status_of d) (JStr target_status)) eqn:Htarget.
  - apply py_eq_str in Htarget.
    assert (Hne : status_of d <> JStr "failed").
    { intros Heq. rewrite Heq in Hfailed. cbn in Hfailed. discriminate. }
    destruct (negb (Py.eq (status_of d) last)); intros [= <- <- <-];
      exists d; repeat split; try assumption;
      unfold phase_completed; cbn; tauto.
  - destruct (negb (Py.eq (status_of d) last));
      match goal with
      | |- context [poll_loop fuel ?a ?b ?c ?t ?p ?l w] =>
          destruct (poll_loop fuel a b c t p l w) as [[o w2] t2] eqn:Er
      end;
      intros [= -> <- <-];
      pose proof (IH _ w data w2 t2 Er) as HQ;
      first [exact (reached_target_prefix data t2 [_; _; _] HQ)
            | exact (reached_target_prefix data t2 [_; _] HQ)].
Qed.

Lemma poll_status_reaches_target :
  returns_with reached_target
    (poll_status source_id upload_id access_token target_status phase_name).
Proof.
  apply (retry_returns reached_target
           (poll_status__wrapped source_id upload_id access_token
              target_status phase_name) reached_target_prefix).
  intros w0 a w0' t0. unfold poll_status__wrapped. proc_unfold.
  rewrite bind_emit.
  destruct (poll_loop (S (length w0)) source_id upload_id access_token
              target_status phase_name JNull w0) as [[o w2] t2] eqn:Er.
  cbn [fst snd]. intros [= -> <- <-].
  apply (reached_target_prefix a t2
           [Log PROGRESS [Lit "Waiting for "; Str phase_name; Lit "..."]]).
  exact (poll_loop_returns _ _ w0 a w2 t2 Er).
Qed.

Local Abbreviation returned_last_poll :=
  (returned_last_poll target_status phase_name).

Lemma returned_last_poll_script (pre w : script) (data : json) (w' : script)
    (t : list event) :
  returned_last_poll w data w' t -> returned_last_poll (pre ++ w) data w' t.
Proof.
  intros (p & d & -> & Hrest). exists (pre ++ p), d.
  rewrite <- app_assoc. split; [reflexivity | exact Hrest].
Qed.

Lemma returned_last_poll_trace (pre : list event) (w : script) (data : json)
    (w' : script) (t : list event) :
  returned_last_poll w data w' t -> returned_last_poll w data w' (pre ++ t).
Proof.
  intros (p & d & Hw & Hd & Ht & Hf & Hin). exists p, d.
  repeat split; try assumption. apply in_or_app. right. exact Hin.
Qed.

Lemma poll_loop_returns_last (fuel : nat) :
  forall last,
    returns_from returned_last_poll
      (poll_loop fuel source_id upload_id access_token target_status
         phase_name last).
Proof.
  induction fuel as [| fuel IH]; intros last w data w' tr;
    cbn [poll_loop]; [discriminate |].
  destruct w as [| [e | [c b]] w]; proc_unfold; proc_eval0; try discriminate.
  destruct (Z.eqb_spec c 200) as [-> | _]; [| discriminate].
  destruct b as [| | | | | d]; try discriminate.
  change (Py.dict_get d "status" JNull) with (status_of d).
  destruct (Py.eq (status_of d) (JStr "failed")) eqn:Hfailed;
    [destruct (negb (Py.eq (status_of d) last)); discriminate |].
  destruct (Py.eq (status_of d) (JStr target_status)) eqn:Htarget.
  - apply py_eq_str in Htarget.
    assert (Hne : status_of d <> JStr "failed").
    { intros Heq. rewrite Heq in Hfailed. cbn in Hfailed. discriminate. }
    destruct (negb (Py.eq (status_of d) last)); intros [= <- <- <-];
      exists [], d; repeat split; try assumption;
      unfold phase_completed; cbn; tauto.
  - destruct (negb (Py.eq (status_of d) last));
      match goal with
      | |- context [poll_loop fuel ?a ?b ?c ?t ?p ?l w] =>
          destruct (poll_loop fuel a b c t p l w) as [[o w2] t2] eqn:Er
      end;
      intros [= -> <- <-];
      pose proof (IH _ w data w2 t2 Er) as HQ;
      apply (returned_last_poll_script
               [NetResponse (Response 200 (JObj d))]) in HQ;
      first [exact (returned_last_poll_trace [_; _; _] _ _ _ _ HQ)
            | exact (returned_last_poll_trace [_; _] _ _ _ _ HQ)].
Qed.

Lemma poll_status_returns_last :
  returns_from returned_last_poll
    (poll_status source_id upload_id access_token target_status phase_name).
Proof.
  unfold poll_status.
  apply retry_loop_returns_from;
    [intros pre w a w' t; apply returned_last_poll_script
    | intros pre w a w' t; apply returned_last_poll_trace
    | apply poll_status__wrapped_reads |].
  intros w a w' t. unfold poll_status__wrapped. proc_unfold.
  rewrite bind_emit.
  destruct (poll_loop (S (length w)) source_id upload_id access_token
              target_status phase_name JNull w) as [[o w2] t2] eqn:Er.
  cbn [fst snd]. intros [= -> <- <-].
  apply (returned_last_poll_trace
           [Log PROGRESS [Lit "Waiting for "; Str phase_name; Lit "..."]]).
  exact (poll_loop_returns_last _ _ w a w2 t2 Er).
Qed.

(** X2. When [poll_status], started on the script [w], returns [data] and
    leaves the script [w'], then [data] is the payload of the answer that
    stands in [w] just before [w']: the last answer read is a 200 whose
    payload is a mapping at the target status, not [failed], and it is that
    payload, whole, that is handed to the caller, after the completion of
    the phase has been logged.  This holds whatever the network answers
    before, transport failures and restarts included. *)
Theorem poll_status_returns_target (w : script) (data : json) (w' : script)
    (tr : list event) :
  poll_status source_id upload_id access_token target_status phase_name w =
    (Return data, w', tr) ->
  exists pre d,
    w = pre ++ NetResponse (Response 200 (JObj d)) :: w' /\
    data = JObj d /\ status_of d = JStr target_status /\
    status_of d <> JStr "failed" /\
    In (phase_completed phase_name) tr.
Proof.
  revert w data w' tr.
  change (returns_from returned_last_poll
            (poll_status source_id upload_id access_token target_status
               phase_name)).
  unfold poll_status.
  apply retry_loop_returns_from;
    [intros pre w a w' t; apply returned_last_poll_script
    | intros pre w a w' t; apply returned_last_poll_trace
    | apply poll_status__wrapped_reads |].
  intros w a w' t. unfold poll_status__wrapped. proc_unfold.
  rewrite bind_emit.
  destruct (poll_loop (S (length w)) source_id upload_id access_token
              target_status phase_name JNull w) as [[o w2] t2] eqn:Er.
  cbn [fst snd]. intros [= -> <- <-].
  apply (returned_last_poll_trace
           [Log PROGRESS [Lit "Waiting for "; Str phase_name; Lit "..."]]).
  exact (poll_loop_returns_last _ _ w a w2 t2 Er).
Qed.

End ReturnsWith.

Lemma poll_status_returns_target_witness :
  exists pre d,
    [NetError "reset";
     Sample.ok 200 [("status", JStr "importInProgress")];
     Sample.ok 200 [("status", JStr "importCompleted");
                    ("totalRecords", JNum 7)];
     Sample.token_ok] =
      pre ++ NetResponse (Response 200 (JObj d)) :: [Sample.token_ok] /\
    JObj [("status", JStr "importCompleted"); ("totalRecords", JNum 7)] =
      JObj d /\
    status_of d = JStr "importCompleted" /\
    status_of d <> JStr "failed" /\
    In (phase_completed "import")
      (snd (poll_status "S1" (JStr "U1") Sample.token "importCompleted" "import"
              [NetError "reset";
               Sample.ok 200 [("status", JStr "importInProgress")];
               Sample.ok 200 [("status", JStr "importCompleted");
                              ("totalRecords", JNum 7)];
               Sample.token_ok])).
Proof.
  eapply (poll_status_returns_target "S1" (JStr "U1") Sample.token
            "importCompleted" "import"
            [NetError "reset";
             Sample.ok 200 [("status", JStr "importInProgress")];
             Sample.ok 200 [("status", JStr "importCompleted");
                            ("totalRecords", JNum 7)];
             Sample.token_ok]).
  reflexivity.
Defined.

(** ** What exit code 0 means *)

Section ExitZero.

Lemma bind_exit_inv {A B} (S : Z -> Prop) (m : proc A) (k : A -> proc B)
    (w : script) (c : Z) (w' : script) (tr : list event) :
  exits_in S m -> ~ S c ->
  bind m k w = (Exit c, w', tr) ->
  exists a w1 t1 t2,
    m w = (Return a, w1, t1) /\ k a w1 = (Exit c, w', t2) /\ tr = t1 ++ t2.
Proof.
  intros Hm Hc. unfold bind.
  destruct (m w) as [[[a | c1 | e |] w1] t1] eqn:Em; try discriminate.
  - destruct (k a w1) as [[o w2] t2] eqn:Ek. intros [= -> -> <-].
    exists a, w1, t1, t2. repeat split; assumption.
  - intros [= -> _ _]. exfalso. apply Hc. exact (Hm w c w1 t1 Em).
Qed.

Lemma try_Exception_exit_inv {A} (S : Z -> Prop) (m : proc A)
    (h : exn -> proc A) (w : script) (c : Z) (w' : script) (tr : list event) :
  (forall e, exits_in S (h e)) -> ~ S c ->
  try_except_Exception m h w = (Exit c, w', tr) ->
  m w = (Exit c, w', tr).
Proof.
  intros Hh Hc. unfold try_except_Exception.
  destruct (m w) as [[[a | c1 | e |] w1] t1] eqn:Em; try discriminate;
    [intros H; exact H |].
  destruct (h e w1) as [[o w2] t2] eqn:Eh. intros [= -> _ _].
  exfalso. apply Hc. exact (Hh e w1 c w2 t2 Eh).
Qed.

Lemma upload_to_s3_returns (presigned_url : json) (file_path : string)
    (file_size : Z) :
  returns_with
    (fun _ tr => In (Log SUCCESS [Lit "File uploaded to S3 successfully"]) tr)
    (upload_to_s3 presigned_url file_path file_size).
Proof.
  unfold upload_to_s3. apply retry_returns.
  - intros _ t pre Hin. apply in_or_app. right. exact Hin.
  - intros [| [e | [c b]] w] [] w' tr; unfold upload_to_s3__wrapped;
      proc_unfold; proc_eval0; try discriminate.
    destruct (c =? 200); [| discriminate].
    intros [= _ <-]. cbn. tauto.
Qed.

Variables (source_id file_path_str : string) (env : environ) (fs : filesystem).

Lemma validate_file_returns_path (w w1 : script) (validated : string * Z)
    (t : list event) :
  validate_file fs file_path_str w = (Return validated, w1, t) ->
  fst validated = file_path_str.
Proof.
  pose proof (validate_file_not_found fs file_path_str w) as Hnot.
  destruct (fs !! file_path_str) as [[path | e] |] eqn:Hpath.
  - destruct (format_file_size_of_file path) as (s & Hs).
    rewrite (validate_file_found fs file_path_str path s w Hpath Hs).
    destruct (negb (is_file path)); [discriminate |].
    destruct (negb (readable path)); [discriminate |].
    destruct (st_size path >? MAX_FILE_SIZE_BYTES); [discriminate |].
    intros [= <- _ _]. reflexivity.
  - rewrite Hnot. destruct (PyPath.ignore_error e); discriminate.
  - rewrite Hnot. discriminate.
Qed.

(** X3. Exit code 0 is reached only at the end of the pipeline.  When
    [main], started on the script [w], ends with exit code 0 and leaves
    [w'], the last answer it has read (the one that stands in [w] just
    before [w']) is a 200 whose payload has the status [importCompleted];
    the trace ends with the summary of that very payload (its
    [totalRecords] and [importedRecords], 0 where it has none); and before
    the summary the transfer of the file and both phases were reported
    complete. *)
Theorem main_exit_0_means_imported (w w' : script) (tr : list event) :
  main source_id file_path_str env fs w = (Exit 0, w', tr) ->
  exists pre d before,
    w = pre ++ NetResponse (Response 200 (JObj d)) :: w' /\
    status_of d = JStr "importCompleted" /\
    tr = before ++ upload_summary (PyPath.name file_path_str) d /\
    In (Log SUCCESS [Lit "File uploaded to S3 successfully"]) before /\
    In (phase_completed "analysis") before /\
    In (phase_completed "import") before.
Proof.
  unfold main. proc_unfold. intros H.
  do 3 (apply (bind_exit_inv (fun _ => False)) in H
          as ([] & ? & ? & ? & [= <- <-] & H & ->);
        [| apply exits_in_emit | tauto]).
  apply (try_Exception_exit_inv (fun c => c = 2)) in H;
    [| intros e; repeat exits_step; reflexivity | discriminate].
  apply (bind_exit_inv (fun c => c = 1)) in H
    as (access_token & w1 & t1 & ? & H1 & H & ->);
    [| apply get_access_token_exits | discriminate].
  apply (bind_exit_inv (fun c => c = 1)) in H
    as (validated & w2 & t2 & ? & H2 & H & ->);
    [| apply validate_file_exits | discriminate].
  cbv zeta in H.
  apply (bind_exit_inv (fun c => c = 1)) in H
    as (? & w3 & t3 & ? & H3 & H & ->);
    [| apply validate_source_exits | discriminate].
  apply (bind_exit_inv (fun c => c = 1 \/ c = 2)) in H
    as (? & w4 & t4 & ? & H4 & H & ->);
    [| apply check_concurrent_uploads_exits | intros [|]; discriminate].
  apply (bind_exit_inv (fun c => c = 2)) in H
    as (created & w5 & t5 & ? & H5 & H & ->);
    [| apply create_upload_exits | discriminate].
  apply (bind_exit_inv (fun c => c = 2)) in H
    as (? & w6 & t6 & ? & Hput & H & ->);
    [| apply upload_to_s3_exits | discriminate].
  apply (bind_exit_inv (fun c => c = 2)) in H
    as (analysis_data & w7 & t7 & ? & Hanalysis & H & ->);
    [| apply poll_status_exits | discriminate].
  apply (bind_exit_inv (fun c => c = 2)) in H
    as (? & w8 & t8 & ? & H8 & H & ->);
    [| apply request_import_exits | discriminate].
  apply (bind_exit_inv (fun c => c = 2)) in H
    as (final_data & w9 & t9 & t10 & Himport & H & ->);
    [| apply poll_status_exits | discriminate].
  (* the script: every step has read what stands before the next *)
  destruct (get_access_token_reads _ _ _ _ _ H1) as (p1 & E1).
  destruct (validate_file_reads _ _ _ _ _ _ H2) as (p2 & E2).
  destruct (validate_source_reads _ _ _ _ _ _ H3) as (p3 & E3).
  destruct (check_concurrent_uploads_reads _ _ _ _ _ _ H4) as (p4 & E4).
  destruct (create_upload_reads _ _ _ _ _ _ _ H5) as (p5 & E5).
  destruct (upload_to_s3_reads _ _ _ _ _ _ _ Hput) as (p6 & E6).
  destruct (poll_status_reads _ _ _ _ _ _ _ _ _ Hanalysis) as (p7 & E7).
  destruct (request_import_reads _ _ _ _ _ _ _ H8) as (p8 & E8).
  apply validate_file_returns_path in H2.
  apply upload_to_s3_returns in Hput.
  apply poll_status_reaches_target in Hanalysis as (_ & _ & _ & _ & Ha).
  apply poll_status_returns_last in Himport
    as (p9 & d & E9 & -> & Hst & _ & Hi).
  revert H. rewrite H2. proc_eval0. intros H. injection H as Hw Ht.
  exists (p1 ++ p2 ++ p3 ++ p4 ++ p5 ++ p6 ++ p7 ++ p8 ++ p9), d.
  eexists. split; [| split; [exact Hst | split]].
  - rewrite E1, E2, E3, E4, E5, E6, E7, E8, E9, Hw.
    rewrite <- !app_assoc. reflexivity.
  - rewrite <- Ht. rewrite !app_assoc. reflexivity.
  - rewrite !in_app_iff. tauto.
Qed.

End ExitZero.

Lemma main_exit_0_means_imported_witness :
  exists pre d before,
    Scenario.success = pre ++ NetResponse (Response 200 (JObj d)) :: [] /\
    status_of d = JStr "importCompleted" /\
    snd (main "S1" "data.csv" Sample.env Sample.fs Scenario.success) =
      before ++ upload_summary "data.csv" d.
Proof.
  destruct (main_exit_0_means_imported "S1" "data.csv" Sample.env Sample.fs
              Scenario.success []
              (snd (main "S1" "data.csv" Sample.env Sample.fs Scenario.success))
              eq_refl)
    as (pre & d & before & Hw & Hst & Htr & _).
  exists pre, d, before. repeat split; assumption.
Defined.

(** ** More on the local file validator *)

Section ValidateFileMore.

Variables (fs : filesystem) (file_path : string).

(** X4. [validate_file] touches neither the network nor the script, and it
    has three outcomes only: exit code 1; the [OSError] of a lookup that
    fails with an error other than the four read as absence; or the path
    together with the size of a readable regular file that exists and is at
    most 5 GiB large. *)
Theorem validate_file_sound (w : script) :
  exists tr,
    requests_sent tr = [] /\ slept tr = 0 /\
    (validate_file fs file_path w = (Exit 1, w, tr) \/
     (exists e,
        fs !! file_path = Some (StatError e) /\
        PyPath.ignore_error e = false /\
        validate_file fs file_path w = (Raise (OSError e), w, tr)) \/
     exists path,
       fs !! file_path = Some (Stat path) /\ is_file path = true /\
       readable path = true /\ st_size path <= 5 * 1024 ^ 3 /\
       validate_file fs file_path w = (Return (file_path, st_size path), w, tr)).
Proof.
  pose proof (validate_file_not_found fs file_path w) as Hnot.
  destruct (fs !! file_path) as [[path | e] |] eqn:Hpath.
  - destruct (format_file_size_of_file path) as (s & Hs).
    rewrite (validate_file_found fs file_path path s w Hpath Hs).
    destruct (is_file path) eqn:Hfile;
      [| eexists; split; [| split]; [| | left; reflexivity]; reflexivity].
    destruct (readable path) eqn:Hread;
      [| eexists; split; [| split]; [| | left; reflexivity]; reflexivity].
    cbn [negb]. rewrite Z.gtb_ltb.
    destruct (Z.ltb_spec MAX_FILE_SIZE_BYTES (st_size path)) as [Hbig | Hok];
      [eexists; split; [| split]; [| | left; reflexivity]; reflexivity |].
    change MAX_FILE_SIZE_BYTES with (5 * 1024 ^ 3) in Hok.
    eexists. split; [| split];
      [| | right; right; exists path; repeat split; try assumption;
           reflexivity]; reflexivity.
  - rewrite Hnot. destruct (PyPath.ignore_error e) eqn:He.
    + eexists; split; [| split]; [| | left; reflexivity]; reflexivity.
    + eexists. split; [| split];
        [| | right; left; exists e; repeat split; first [exact He | reflexivity]];
        reflexivity.
  - rewrite Hnot.
    eexists; split; [| split]; [| | left; reflexivity]; reflexivity.
Qed.

(** X5. The checks run in a fixed order and the first one that fails names
    the error.  A path the file system has no entry for is reported as not
    found, and so is one whose lookup fails with [ENOENT], [ENOTDIR],
    [EBADF] or [ELOOP]; a lookup that fails with another error raises that
    [OSError] after the first progress line, without an error line and
    without an exit code.  A path that is no regular file is reported as
    such, whatever its permissions and size; an unreadable file as such,
    whatever its size. *)
Theorem validate_file_first_failure (w : script) :
  (fs !! file_path = None ->
   validate_file fs file_path w =
     (Exit 1, w, [Log PROGRESS [Lit "Validating file..."];
                  Log ERROR [Lit "File not found: "; Str file_path]])) /\
  (forall e, fs !! file_path = Some (StatError e) ->
   validate_file fs file_path w =
     if PyPath.ignore_error e then
       (Exit 1, w, [Log PROGRESS [Lit "Validating file..."];
                    Log ERROR [Lit "File not found: "; Str file_path]])
     else
       (Raise (OSError e), w, [Log PROGRESS [Lit "Validating file..."]])) /\
  (forall path, fs !! file_path = Some (Stat path) -> is_file path = false ->
   validate_file fs file_path w =
     (Exit 1, w, [Log PROGRESS [Lit "Validating file..."];
                  Log ERROR [Lit "Path is not a file: "; Str file_path]])) /\
  (forall path, fs !! file_path = Some (Stat path) -> is_file path = true ->
   readable path = false ->
   validate_file fs file_path w =
     (Exit 1, w, [Log PROGRESS [Lit "Validating file..."];
                  Log ERROR [Lit "File is not readable: "; Str file_path]])).
Proof.
  pose proof (validate_file_not_found fs file_path w) as Hnot.
  split; [| split; [| split]].
  - intros Hpath. rewrite Hpath in Hnot. exact Hnot.
  - intros e Hpath. rewrite Hpath in Hnot. exact Hnot.
  - intros path Hpath Hfile.
    destruct (format_file_size_of_file path) as (s & Hs).
    rewrite (validate_file_found fs file_path path s w Hpath Hs), Hfile.
    reflexivity.
  - intros path Hpath Hfile Hread.
    destruct (format_file_size_of_file path) as (s & Hs).
    rewrite (validate_file_found fs file_path path s w Hpath Hs), Hfile, Hread.
    reflexivity.
Qed.

End ValidateFileMore.

Lemma validate_file_first_failure_witness :
  validate_file Sample.fs "absent.csv" [Sample.token_ok] =
    (Exit 1, [Sample.token_ok],
     [Log PROGRESS [Lit "Validating file..."];
      Log ERROR [Lit "File not found: "; Str "absent.csv"]]) /\
  validate_file (<["vault/data.csv" := StatError EACCES]> Sample.fs)
    "vault/data.csv" [Sample.token_ok] =
    (Raise (OSError EACCES), [Sample.token_ok],
     [Log PROGRESS [Lit "Validating file..."]]) /\
  validate_file (<["data.csv/x" := StatError ENOTDIR]> Sample.fs)
    "data.csv/x" [] =
    (Exit 1, [],
     [Log PROGRESS [Lit "Validating file..."];
      Log ERROR [Lit "File not found: "; Str "data.csv/x"]]) /\
  validate_file
    (<["inbox" := Stat (FileEntry false false (2 ^ 40) eq_refl)]> Sample.fs)
    "inbox" [] =
    (Exit 1, [],
     [Log PROGRESS [Lit "Validating file..."];
      Log ERROR [Lit "Path is not a file: "; Str "inbox"]]) /\
  validate_file
    (<["locked.csv" := Stat (FileEntry true false (2 ^ 40) eq_refl)]> Sample.fs)
    "locked.csv" [] =
    (Exit 1, [],
     [Log PROGRESS [Lit "Validating file..."];
      Log ERROR [Lit "File is not readable: "; Str "locked.csv"]]).
Proof.
  split; [| split; [| split; [| split]]].
  - apply (validate_file_first_failure Sample.fs "absent.csv"). reflexivity.
  - apply (validate_file_first_failure
             (<["vault/data.csv" := StatError EACCES]> Sample.fs)
             "vault/data.csv" [Sample.token_ok]) with (e := EACCES).
    reflexivity.
  - apply (validate_file_first_failure
             (<["data.csv/x" := StatError ENOTDIR]> Sample.fs)
             "data.csv/x" []) with (e := ENOTDIR).
    reflexivity.
  - eapply (validate_file_first_failure
              (<["inbox" := Stat (FileEntry false false (2 ^ 40) eq_refl)]>
                 Sample.fs)
              "inbox"); reflexivity.
  - eapply (validate_file_first_failure
              (<["locked.csv" := Stat (FileEntry true false (2 ^ 40) eq_refl)]>
                 Sample.fs)
              "locked.csv"); reflexivity.
Defined.

(** ** More on the credential resolver *)

Section CredentialsMore.

Variable env : environ.

(** X6. With both credentials present, the answer to the token request
    decides: status 200 with a non-empty [accessToken] returns that token;
    status 200 without one, and every other status, end the process with
    exit code 1.  One request is sent in each case. *)
Theorem get_access_token_answered (c : Z) (d : list (string * json))
    (w : script) :
  blank (env !! "HARPIN_CLIENT_ID") = false ->
  blank (env !! "HARPIN_REFRESH_TOKEN") = false ->
  let run := get_access_token env (NetResponse (Response c (JObj d)) :: w) in
  let token := Py.dict_get d "accessToken" JNull in
  let sent := [Log PROGRESS [Lit "Authenticating with harpin AI..."];
               Http (token_request env)] in
  (c = 200 -> Py.truthy token = true ->
   run = (Return token, w, sent ++ [Log SUCCESS [Lit "Authentication successful"]])) /\
  (c = 200 -> Py.truthy token = false ->
   run = (Exit 1, w,
          sent ++ [Log ERROR [Lit "Authentication response missing access token"]])) /\
  (c <> 200 ->
   run = (Exit 1, w,
          sent ++ [Log ERROR [Lit "Authentication failed with status "; Int c];
                   Log ERROR [Lit "Error details: "; Dumps (JObj d)]])).
Proof.
  intros Hid Htok. cbv zeta. unfold get_access_token, token_request.
  destruct (strip_not_blank _ Hid) as (a & s & ->).
  destruct (strip_not_blank _ Htok) as (a' & s' & ->).
  cbn [app]. proc_unfold. proc_eval0.
  split; [| split].
  - intros -> Ht. cbn [Z.eqb Pos.eqb]. rewrite Ht. reflexivity.
  - intros -> Ht. cbn [Z.eqb Pos.eqb]. rewrite Ht. reflexivity.
  - intros Hc. apply Z.eqb_neq in Hc. rewrite Hc. reflexivity.
Qed.

(** X7. Whatever the environment and the network: [get_access_token] sends
    one request at most and never sleeps; the token it returns is never
    empty; when it ends the process the exit code is 1; the only exception
    that leaves it is the [AttributeError] of a 200 answer that is no
    mapping. *)
Theorem get_access_token_outcomes (w : script) :
  let run := get_access_token env w in
  (length (requests_sent (snd run)) <= 1)%nat /\
  slept (snd run) = 0 /\
  match fst (fst run) with
  | Return token => Py.truthy token = true
  | Exit c => c = 1
  | Raise e => e = AttributeError
  | Pending => w = []
  end.
Proof.
  cbv zeta. unfold get_access_token.
  destruct (PyStr.strip (default [] (env !! "HARPIN_CLIENT_ID")));
    destruct (PyStr.strip (default [] (env !! "HARPIN_REFRESH_TOKEN")));
    cbn [app]; try (repeat split; cbn; lia).
  destruct w as [| [e | [c b]] w]; proc_unfold; proc_eval0;
    try (repeat split; cbn; lia).
  destruct (c =? 200); [| repeat split; cbn; lia].
  destruct b as [| | | | | d]; try (repeat split; cbn; lia).
  destruct (Py.truthy (Py.dict_get d "accessToken" JNull)) eqn:Ht;
    repeat split; cbn; first [lia | exact Ht].
Qed.

End CredentialsMore.

Lemma get_access_token_answered_witness :
  get_access_token Sample.env [Sample.token_ok; NetError "unused"] =
    (Return Sample.token, [NetError "unused"],
     [Log PROGRESS [Lit "Authenticating with harpin AI..."];
      Http (token_request Sample.env);
      Log SUCCESS [Lit "Authentication successful"]]) /\
  fst (fst (get_access_token Sample.env
              [Sample.ok 200 [("accessToken", JStr EmptyString)]])) = Exit 1 /\
  fst (fst (get_access_token Sample.env
              [Sample.ok 401 [("message", JStr "bad token")]])) = Exit 1.
Proof.
  split; [| split].
  - apply (get_access_token_answered Sample.env 200
             [("accessToken", Sample.token)] [NetError "unused"]);
      reflexivity.
  - destruct (get_access_token_answered Sample.env 200
                [("accessToken", JStr EmptyString)] [] eq_refl eq_refl)
      as (_ & H & _).
    unfold Sample.ok. rewrite H; reflexivity.
  - destruct (get_access_token_answered Sample.env 401
                [("message", JStr "bad token")] [] eq_refl eq_refl)
      as (_ & _ & H).
    unfold Sample.ok. rewrite H; [reflexivity | discriminate].
Defined.

(** ** More on the remote source validator *)

Section ValidateSourceMore.

Variables (source_id : string) (access_token : json).

(** X8. A source that is found is accepted exactly when its [sourceSystem]
    is [flatFile]; any other type, and a source without the attribute
    (shown as [unknown]), ends the process with exit code 1.  A transport
    failure of the fetch also ends it with exit code 1, after that one
    request: the validator is not retried. *)
Theorem validate_source_found (d : list (string * json)) (e : string)
    (w : script) :
  let kind := Py.dict_get d "sourceSystem" (JStr "unknown") in
  let sent :=
    [Log PROGRESS [Lit "Validating source ID: "; Str source_id; Lit "..."];
     Http (source_request source_id access_token)] in
  (kind = JStr "flatFile" ->
   validate_source source_id access_token
     (NetResponse (Response 200 (JObj d)) :: w) =
     (Return true, w,
      sent ++ [Log SUCCESS [Lit "Source ID validated: "; Str source_id]])) /\
  (kind <> JStr "flatFile" ->
   validate_source source_id access_token
     (NetResponse (Response 200 (JObj d)) :: w) =
     (Exit 1, w,
      sent ++ [Log ERROR [Lit "Invalid source type: sourceSystem is of type '";
                          Val kind; Lit "', must be of type 'flatFile'"]])) /\
  validate_source source_id access_token (NetError e :: w) =
    (Exit 1, w,
     sent ++ [Log ERROR [Lit "Failed to validate source ID: "; Str e]]).
Proof.
  cbv zeta. unfold validate_source. proc_unfold. proc_eval.
  split; [| split].
  - intros ->. reflexivity.
  - intros Hne. rewrite (py_eq_str_false _ _ Hne). reflexivity.
  - reflexivity.
Qed.

(** X9. [validate_source] returns only [True], and only when the first
    answer of the network is a 200 whose payload says that the source system
    is [flatFile]; that answer is the only one it has read. *)
Theorem validate_source_returns (w : script) (b : bool) (w' : script)
    (tr : list event) :
  validate_source source_id access_token w = (Return b, w', tr) ->
  b = true /\
  exists d,
    w = NetResponse (Response 200 (JObj d)) :: w' /\
    Py.dict_get d "sourceSystem" (JStr "unknown") = JStr "flatFile".
Proof.
  unfold validate_source. proc_unfold.
  destruct w as [| [e | [c body]] w]; proc_eval0; try discriminate.
  destruct (c =? 200) eqn:H200.
  - apply Z.eqb_eq in H200. subst c.
    destruct body as [| | | | | d]; try discriminate.
    destruct (Py.eq (Py.dict_get d "sourceSystem" (JStr "unknown"))
                (JStr "flatFile")) eqn:Hk; cbn [negb]; proc_eval0;
      [| discriminate].
    apply py_eq_str in Hk. intros H. injection H as Hb Hw _. subst b w'.
    split; [reflexivity |]. exists d. split; [reflexivity | exact Hk].
  - destruct (c =? 404); [| discriminate].
    destruct (list_available_sources access_token w)
      as [[[[] | c1 | [d1 | | | |] |] w1] t1]; cbv beta iota; discriminate.
Qed.

End ValidateSourceMore.

Lemma validate_source_found_witness :
  validate_source "S1" Sample.token
    [Sample.ok 200 [("id", JStr "S1"); ("sourceSystem", JStr "flatFile")]] =
    (Return true, [],
     [Log PROGRESS [Lit "Validating source ID: "; Str "S1"; Lit "..."];
      Http (source_request "S1" Sample.token);
      Log SUCCESS [Lit "Source ID validated: "; Str "S1"]]) /\
  validate_source "S7" Sample.token [Sample.ok 200 [("id", JStr "S7")]] =
    (Exit 1, [],
     [Log PROGRESS [Lit "Validating source ID: "; Str "S7"; Lit "..."];
      Http (source_request "S7" Sample.token);
      Log ERROR [Lit "Invalid source type: sourceSystem is of type '";
                 Val (JStr "unknown"); Lit "', must be of type 'flatFile'"]]).
Proof.
  split.
  - apply (validate_source_found "S1" Sample.token
             [("id", JStr "S1"); ("sourceSystem", JStr "flatFile")]
             EmptyString []).
    reflexivity.
  - apply (validate_source_found "S7" Sample.token [("id", JStr "S7")]
             EmptyString []).
    discriminate.
Defined.

Lemma validate_source_returns_witness :
  exists d,
    [Sample.ok 200 [("sourceSystem", JStr "flatFile")]; Sample.token_ok] =
      NetResponse (Response 200 (JObj d)) :: [Sample.token_ok] /\
    Py.dict_get d "sourceSystem" (JStr "unknown") = JStr "flatFile".
Proof.
  eapply (validate_source_returns "S1" Sample.token
            [Sample.ok 200 [("sourceSystem", JStr "flatFile")]; Sample.token_ok]
            true [Sample.token_ok]).
  reflexivity.
Defined.

(** ** More on the concurrency gate *)

Section ConcurrencyGateMore.

Variables (source_id : string) (access_token : json).

Local Abbreviation sent :=
  [Log PROGRESS [Lit "Checking concurrent uploads..."];
   Http (uploads_request source_id access_token)].

(** X10. The gate ends the process with exit code 2, after its one request,
    when the list of uploads cannot be had: a status other than 200, a
    transport failure, or a 200 answer that is neither a list nor a
    mapping. *)
Theorem check_concurrent_uploads_system_errors (r : response) (e : string)
    (w : script) :
  (status_code r <> 200 ->
   check_concurrent_uploads source_id access_token (NetResponse r :: w) =
     (Exit 2, w,
      sent ++ [Log ERROR [Lit "Failed to check concurrent uploads (status ";
                          Int (status_code r); Lit ")"]])) /\
  check_concurrent_uploads source_id access_token (NetError e :: w) =
    (Exit 2, w,
     sent ++ [Log ERROR [Lit "Failed to check concurrent uploads: "; Str e]]) /\
  (status_code r = 200 -> scalar (body r) = true ->
   check_concurrent_uploads source_id access_token (NetResponse r :: w) =
     (Exit 2, w,
      sent ++ [Log ERROR [Lit "Unexpected response format from uploads API: expected list or dict, got ";
                          Str (Py.type_name (body r))]])).
Proof.
  unfold check_concurrent_uploads. proc_unfold.
  destruct r as [c b]. cbn [status_code body]. split; [| split].
  - intros Hc. apply Z.eqb_neq in Hc. proc_eval0. rewrite Hc. reflexivity.
  - reflexivity.
  - intros -> Hb. destruct b; try discriminate; reflexivity.
Qed.

(** X11. Under the key [content] the gate takes whatever can be iterated:
    of a string it visits the characters, of a mapping the keys, and skips
    each with a warning, so the count is 0 and the gate lets the pipeline go
    on; a [content] that is null, a number or a boolean raises a
    [TypeError], which the gate does not catch. *)
Theorem check_concurrent_uploads_odd_content (d : list (string * json))
    (w : script) :
  let content := Py.dict_get d "content" (JList []) in
  let run := check_concurrent_uploads source_id access_token
               (NetResponse (Response 200 (JObj d)) :: w) in
  (forall items,
     Py.iter content = Some items ->
     Forall (fun u => Py.isinstance_dict u = false) items ->
     run = (Return tt, w,
            sent ++ skip_warnings items ++
            [Log SUCCESS [Lit "Concurrent uploads check passed ("; Int 0;
                          Lit "/"; Int 3; Lit ")"]])) /\
  (Py.iter content = None -> run = (Raise TypeError, w, sent)).
Proof.
  cbv zeta. unfold check_concurrent_uploads. proc_unfold. split.
  - intros items Hiter Hskip.
    assert (Hcount : List.filter counts_as_in_progress items = []).
    { clear Hiter. induction Hskip as [| u items Hu _ IH]; [reflexivity |].
      cbn [List.filter]. destruct u; try discriminate; exact IH. }
    proc_eval0. cbn [Z.eqb Pos.eqb]. proc_eval0.
    unfold Py.iter in Hiter. rewrite Hiter. proc_eval0.
    rewrite collect_in_progress_spec, Hcount. proc_eval0.
    cbn [app length Z.of_nat]. reflexivity.
  - intros Hiter. proc_eval0. cbn [Z.eqb Pos.eqb]. proc_eval0.
    unfold Py.iter in Hiter. rewrite Hiter. reflexivity.
Qed.

End ConcurrencyGateMore.

Lemma check_concurrent_uploads_system_errors_witness :
  fst (fst (check_concurrent_uploads "S1" Sample.token
              [NetResponse (Response 503 JNull); Sample.token_ok])) = Exit 2 /\
  fst (fst (check_concurrent_uploads "S1" Sample.token
              [NetResponse (Response 200 (JStr "maintenance"))])) = Exit 2.
Proof.
  destruct (check_concurrent_uploads_system_errors "S1" Sample.token
              (Response 503 JNull) EmptyString [Sample.token_ok])
    as (H1 & _ & _).
  destruct (check_concurrent_uploads_system_errors "S1" Sample.token
              (Response 200 (JStr "maintenance")) EmptyString [])
    as (_ & _ & H2).
  rewrite H1 by discriminate. rewrite H2 by reflexivity.
  split; reflexivity.
Defined.

Lemma check_concurrent_uploads_odd_content_witness :
  fst (fst (check_concurrent_uploads "S1" Sample.token
              [Sample.ok 200 [("content", JStr "none")]])) = Return tt /\
  fst (fst (check_concurrent_uploads "S1" Sample.token
              [Sample.ok 200 [("content", JNull)]])) = Raise TypeError.
Proof.
  destruct (check_concurrent_uploads_odd_content "S1" Sample.token
              [("content", JStr "none")] []) as (H1 & _).
  destruct (check_concurrent_uploads_odd_content "S1" Sample.token
              [("content", JNull)] []) as (_ & H2).
  unfold Sample.ok.
  rewrite (H1 [JStr "n"; JStr "o"; JStr "n"; JStr "e"] eq_refl
             ltac:(repeat constructor)).
  rewrite (H2 eq_refl). split; reflexivity.
Defined.

(** ** The decorated steps and the answers they refuse *)

Section RefusedAnswers.

Lemma refused_at_once_retry {A} (func : proc A) (code : Z) (w rest : script)
    (t1 : list event) :
  func w = (Exit code, rest, t1) ->
  length (requests_sent t1) = 1%nat -> slept t1 = 0 ->
  refused_at_once code rest (retry_on_network_error func w).
Proof.
  intros Hf Hreq Hslept.
  rewrite (retry_on_network_error_pass func w rest (Exit code) t1 Hf eq_refl).
  repeat split; assumption.
Qed.

Variables (source_id file_name : string) (upload_id access_token : json).
Variables (presigned_url : json) (file_path : string) (file_size : Z).
Variables (target_status phase_name : string).

(** X12. An answer with a status the step does not accept is not tried
    again: it ends the process with exit code 2 at once, after one request
    and without a pause, whatever answers would have followed.
    [create_upload] accepts 200 and 201, [upload_to_s3] 200 only,
    [request_import] 200, 202 and 204, and [poll_status] 200 only. *)
Theorem refused_status_not_retried (r : response) (rest : script) :
  let w := NetResponse r :: rest in
  let c := status_code r in
  (c <> 200 -> c <> 201 ->
   refused_at_once 2 rest (create_upload source_id file_name access_token w)) /\
  (c <> 200 ->
   refused_at_once 2 rest (upload_to_s3 presigned_url file_path file_size w)) /\
  (c <> 200 -> c <> 202 -> c <> 204 ->
   refused_at_once 2 rest (request_import source_id upload_id access_token w)) /\
  (c <> 200 ->
   refused_at_once 2 rest
     (poll_status source_id upload_id access_token target_status phase_name w)).
Proof.
  cbv zeta. destruct r as [c b]. cbn [status_code].
  split; [| split; [| split]].
  - intros H200 H201. apply Z.eqb_neq in H200, H201.
    unfold create_upload.
    eapply refused_at_once_retry;
      [unfold create_upload__wrapped; proc_unfold; proc_eval0;
       rewrite H200, H201; cbn [orb]; reflexivity
      | reflexivity | reflexivity].
  - intros H200. apply Z.eqb_neq in H200.
    unfold upload_to_s3.
    eapply refused_at_once_retry;
      [unfold upload_to_s3__wrapped; proc_unfold; proc_eval0;
       rewrite H200; reflexivity
      | reflexivity | reflexivity].
  - intros H200 H202 H204. apply Z.eqb_neq in H200, H202, H204.
    unfold request_import.
    eapply refused_at_once_retry;
      [unfold request_import__wrapped; proc_unfold; proc_eval0;
       rewrite H200, H202, H204; cbn [orb]; reflexivity
      | reflexivity | reflexivity].
  - intros H200. apply Z.eqb_neq in H200.
    unfold poll_status.
    eapply refused_at_once_retry;
      [unfold poll_status__wrapped; cbn [poll_loop]; proc_unfold; proc_eval0;
       rewrite H200; reflexivity
      | reflexivity | reflexivity].
Qed.

(** X13. What [create_upload] makes of an accepted answer (200 or 201)
    that is a mapping: it returns the values under [id] and [url] when both
    are true in a condition; when one of them is absent, null, empty or
    zero the process ends with exit code 2. *)
Theorem create_upload_answered (c : Z) (d : list (string * json))
    (rest : script) :
  c = 200 \/ c = 201 ->
  let upload_id := Py.dict_get d "id" JNull in
  let url := Py.dict_get d "url" JNull in
  let request :=
    Request POST [Lit API_BASE_URL; Lit "/sources/"; Str source_id;
                  Lit "/uploads"]
      (Some access_token) (JsonBody (JObj [("fileName", JStr file_name)])) 30 in
  create_upload source_id file_name access_token
    (NetResponse (Response c (JObj d)) :: rest) =
  if Py.truthy upload_id && Py.truthy url then
    (Return (upload_id, url), rest,
     [Log PROGRESS [Lit "Creating upload..."]; Http request;
      Log SUCCESS [Lit "Upload created: "; Val upload_id]])
  else
    (Exit 2, rest,
     [Log PROGRESS [Lit "Creating upload..."]; Http request;
      Log ERROR [Lit "Create upload response missing required fields"]]).
Proof.
  intros Hc. cbv zeta. unfold create_upload.
  assert (Hok : (c =? 200) || (c =? 201) = true)
    by (destruct Hc; subst; reflexivity).
  destruct (Py.truthy (Py.dict_get d "id" JNull)) eqn:Hid;
    [destruct (Py.truthy (Py.dict_get d "url" JNull)) eqn:Hurl |];
    cbn [andb];
    (apply retry_on_network_error_pass; [| reflexivity]);
    unfold create_upload__wrapped; proc_unfold; proc_eval0;
    rewrite Hok, Hid, ?Hurl; cbn [negb orb]; reflexivity.
Qed.

End RefusedAnswers.

Lemma refused_status_not_retried_witness :
  refused_at_once 2 [Sample.token_ok]
    (create_upload "S1" "data.csv" Sample.token
       [NetResponse (Response 503 JNull); Sample.token_ok]) /\
  refused_at_once 2 [Sample.token_ok]
    (upload_to_s3 (JStr "https://bucket/key") "data.csv" 2048
       [NetResponse (Response 204 JNull); Sample.token_ok]) /\
  refused_at_once 2 [Sample.token_ok]
    (request_import "S1" (JStr "U1") Sample.token
       [NetResponse (Response 201 JNull); Sample.token_ok]) /\
  refused_at_once 2 [Sample.token_ok]
    (poll_status "S1" (JStr "U1") Sample.token "importCompleted" "import"
       [NetResponse (Response 429 JNull); Sample.token_ok]).
Proof.
  split; [| split; [| split]].
  - apply (refused_status_not_retried "S1" "data.csv" (JStr "U1") Sample.token
             JNull "data.csv" 0 "importCompleted" "import"
             (Response 503 JNull) [Sample.token_ok]); discriminate.
  - apply (refused_status_not_retried "S1" "data.csv" (JStr "U1") Sample.token
             (JStr "https://bucket/key") "data.csv" 2048 "importCompleted"
             "import" (Response 204 JNull) [Sample.token_ok]); discriminate.
  - apply (refused_status_not_retried "S1" "data.csv" (JStr "U1") Sample.token
             JNull "data.csv" 0 "importCompleted" "import"
             (Response 201 JNull) [Sample.token_ok]); discriminate.
  - apply (refused_status_not_retried "S1" "data.csv" (JStr "U1") Sample.token
             JNull "data.csv" 0 "importCompleted" "import"
             (Response 429 JNull) [Sample.token_ok]); discriminate.
Defined.

Lemma create_upload_answered_witness :
  fst (fst (create_upload "S1" "data.csv" Sample.token
              [Sample.ok 201 [("id", JStr "U1"); ("url", JStr "https://bucket/key")]])) =
    Return (JStr "U1", JStr "https://bucket/key") /\
  fst (fst (create_upload "S1" "data.csv" Sample.token
              [Sample.ok 200 [("id", JStr "U1"); ("url", JStr EmptyString)]])) =
    Exit 2.
Proof.
  unfold Sample.ok.
  rewrite (create_upload_answered "S1" "data.csv" Sample.token 201
             [("id", JStr "U1"); ("url", JStr "https://bucket/key")] [])
    by (right; reflexivity).
  rewrite (create_upload_answered "S1" "data.csv" Sample.token 200
             [("id", JStr "U1"); ("url", JStr EmptyString)] [])
    by (left; reflexivity).
  split; reflexivity.
Defined.

(** ** Polling: no time limit, one budget of attempts *)

Section PollStatusMore.

Variables (source_id : string) (upload_id access_token : json).
Variables (target_status phase_name : string).

Local Abbreviation req := (poll_request source_id upload_id access_token).
Local Abbreviation attempt := (waiting_attempt req phase_name).

Lemma slept_waiting_trace (polls : list (list (string * json))) :
  forall prev, slept (waiting_trace req prev polls) = 5 * Z.of_nat (length polls).
Proof.
  induction polls as [| d polls IH]; intros prev; [reflexivity |].
  cbn [waiting_trace slept]. rewrite !slept_app, IH.
  unfold status_line. destruct (Py.eq (status_of d) prev);
    cbn [slept length]; lia.
Qed.

Lemma requests_sent_waiting_trace (polls : list (list (string * json))) :
  forall prev,
    length (requests_sent (waiting_trace req prev polls)) = length polls.
Proof.
  induction polls as [| d polls IH]; intros prev; [reflexivity |].
  cbn [waiting_trace requests_sent length].
  rewrite !requests_sent_app, !length_app.
  rewrite IH. unfold status_line. destruct (Py.eq (status_of d) prev);
    cbn [requests_sent length]; lia.
Qed.

(** The undecorated function on a run of quiet polls followed by whatever
    does not answer with a response: the end of the script, or a transport
    failure. *)
Lemma poll_status__wrapped_unanswered (polls : list (list (string * json))) :
  Forall (quiet target_status) polls ->
  poll_status__wrapped source_id upload_id access_token target_status
    phase_name (poll_script polls) = (Pending, [], attempt polls) /\
  forall e rest,
    poll_status__wrapped source_id upload_id access_token target_status
      phase_name (poll_script polls ++ NetError e :: rest) =
    (Raise (RequestException e), rest, attempt polls).
Proof.
  intros Hq. split; [| intros e rest]; unfold poll_status__wrapped.
  - destruct (poll_loop_waits source_id upload_id access_token target_status
                phase_name polls (S (length (poll_script polls))) JNull JNull []
                ltac:(unfold poll_script; rewrite length_map; lia) Hq
                eq_refl eq_refl eq_refl)
      as (last & _ & _ & Hrun).
    rewrite app_nil_r in Hrun.
    proc_unfold. rewrite bind_emit, Hrun. cbv zeta.
    replace (S (length (poll_script polls)) - length polls)%nat with 1%nat
      by (unfold poll_script; rewrite length_map; lia).
    reflexivity.
  - destruct (poll_loop_waits source_id upload_id access_token target_status
                phase_name polls
                (S (length (poll_script polls ++ NetError e :: rest)))
                JNull JNull (NetError e :: rest)
                ltac:(rewrite length_app; unfold poll_script;
                      rewrite length_map; lia) Hq
                eq_refl eq_refl eq_refl)
      as (last & _ & _ & Hrun).
    proc_unfold. rewrite bind_emit, Hrun. cbv zeta.
    replace (S (length (poll_script polls ++ NetError e :: rest))
             - length polls)%nat with (S (S (length rest)))
      by (rewrite length_app; unfold poll_script; rewrite length_map;
          cbn [length]; lia).
    reflexivity.
Qed.

(** X14. [poll_status] has no time limit of its own: as long as the polls
    are answered 200 with a status that is neither the target nor [failed],
    it goes on, pausing 5 seconds after each of them; after any number of
    such polls it has sent the next request and is waiting for the
    answer. *)
Theorem poll_status_no_time_limit (polls : list (list (string * json))) :
  Forall (quiet target_status) polls ->
  let run := poll_status source_id upload_id access_token target_status
               phase_name (poll_script polls) in
  run = (Pending, [], attempt polls) /\
  slept (snd run) = 5 * Z.of_nat (length polls) /\
  length (requests_sent (snd run)) = S (length polls).
Proof.
  intros Hq. cbv zeta.
  destruct (poll_status__wrapped_unanswered polls Hq) as (Hrun & _).
  unfold poll_status.
  rewrite (retry_on_network_error_pass _ _ _ _ _ Hrun eq_refl).
  cbn [snd]. unfold waiting_attempt. split; [reflexivity |].
  cbn [slept requests_sent]. rewrite slept_app, requests_sent_app, length_app.
  rewrite slept_waiting_trace, requests_sent_waiting_trace.
  cbn [slept requests_sent length]. split; lia.
Qed.

(** X15. The three attempts of the decorator cover the whole wait, not
    one poll: a transport failure makes [poll_status] start over (it
    announces the wait again and forgets the last status seen), and the
    third failure is raised however many polls were answered in between. *)
Theorem poll_status_retry_budget
    (polls1 polls2 polls3 : list (list (string * json)))
    (e1 e2 e3 : string) (rest : script) :
  Forall (quiet target_status) polls1 ->
  Forall (quiet target_status) polls2 ->
  Forall (quiet target_status) polls3 ->
  let tr := attempt polls1 ++ backoff 1 e1 ++ attempt polls2 ++
            backoff 2 e2 ++ attempt polls3 ++ gave_up e3 in
  poll_status source_id upload_id access_token target_status phase_name
    (poll_script polls1 ++ NetError e1 ::
     poll_script polls2 ++ NetError e2 ::
     poll_script polls3 ++ NetError e3 :: rest) =
    (Raise (RequestException e3), rest, tr) /\
  slept tr =
    5 * Z.of_nat (length polls1 + length polls2 + length polls3) + 2 * 10.
Proof.
  intros Hq1 Hq2 Hq3. cbv zeta.
  destruct (poll_status__wrapped_unanswered polls1 Hq1) as (_ & Hrun1).
  destruct (poll_status__wrapped_unanswered polls2 Hq2) as (_ & Hrun2).
  destruct (poll_status__wrapped_unanswered polls3 Hq3) as (_ & Hrun3).
  split.
  - unfold poll_status, retry_on_network_error. rewrite retry_attempts_list.
    rewrite (retry_loop_again _ 1 _ _ _ _ _ _
               ltac:(unfold RETRY_ATTEMPTS; lia) (Hrun1 e1 _)).
    cbv zeta.
    rewrite (retry_loop_again _ 2 _ _ _ _ _ _
               ltac:(unfold RETRY_ATTEMPTS; lia) (Hrun2 e2 _)).
    cbv zeta.
    rewrite (retry_loop_last _ 3 _ _ _ _ _
               ltac:(unfold RETRY_ATTEMPTS; lia) (Hrun3 e3 _)).
    reflexivity.
  - unfold waiting_attempt. rewrite !slept_app. cbn [slept].
    rewrite !slept_app, !slept_waiting_trace. cbn [slept backoff gave_up].
    lia.
Qed.

End PollStatusMore.

Lemma poll_status_no_time_limit_witness :
  slept (snd (poll_status "S1" (JStr "U1") Sample.token "importCompleted"
                "import"
                (poll_script [[("status", JStr "importRequested")];
                              [("status", JStr "importInProgress")];
                              [("status", JStr "importInProgress")]]))) = 15.
Proof.
  apply (poll_status_no_time_limit "S1" (JStr "U1") Sample.token
           "importCompleted" "import"
           [[("status", JStr "importRequested")];
            [("status", JStr "importInProgress")];
            [("status", JStr "importInProgress")]]).
  repeat constructor; discriminate.
Defined.

Lemma poll_status_retry_budget_witness :
  fst (fst (poll_status "S1" (JStr "U1") Sample.token "importCompleted"
              "import"
              (poll_script [[("status", JStr "importRequested")]] ++
               NetError "reset" ::
               poll_script [] ++ NetError "timeout" ::
               poll_script [[("status", JStr "importInProgress")]] ++
               NetError "refused" ::
               [Sample.ok 200 [("status", JStr "importCompleted")]]))) =
    Raise (RequestException "refused").
Proof.
  destruct (poll_status_retry_budget "S1" (JStr "U1") Sample.token
              "importCompleted" "import"
              [[("status", JStr "importRequested")]] []
              [[("status", JStr "importInProgress")]]
              "reset" "timeout" "refused"
              [Sample.ok 200 [("status", JStr "importCompleted")]]
              ltac:(repeat constructor; discriminate)
              ltac:(constructor)
              ltac:(repeat constructor; discriminate))
    as (Hrun & _).
  rewrite Hrun. reflexivity.
Defined.

(** ** The progress wrapper *)

Section ProgressWrapper.

Import ProgressFile.

(** The bytes of the file that lie before the read position are the bytes
    already handed out. *)
Local Abbreviation pending self :=
  (skipn (position (wrapped_file self)) (content (wrapped_file self))).

Lemma firstn_length_firstn {A} (k : nat) :
  forall l : list A, firstn k l = firstn (length (firstn k l)) l.
Proof.
  induction k as [| k IH]; intros [| a l]; cbn [firstn length];
    [reflexivity | reflexivity | reflexivity |].
  f_equal. apply IH.
Qed.

(** One call of [read] that gives data. *)
Lemma read_data (size : Z) (self self' : ProgressFileWrapper)
    (data : list Byte.byte) :
  read size self = (Data data, self') ->
  content (wrapped_file self') = content (wrapped_file self) /\
  position (wrapped_file self') =
    (position (wrapped_file self) + length data)%nat /\
  total (wrapped_bar self') = total (wrapped_bar self) /\
  n (wrapped_bar self') = n (wrapped_bar self) + Z.of_nat (length data) /\
  data = (if size =? -1 then pending self
          else firstn (Z.to_nat size) (pending self)).
Proof.
  destruct self as [[bytes p] [tot cnt]]. unfold read, file_read.
  cbn [wrapped_file wrapped_bar content position].
  destruct (size =? -1).
  - destruct (skipn p bytes) as [| b rest] eqn:Hrest;
      intros [= <- <-]; cbn [wrapped_file wrapped_bar content position total n
                             update length];
      repeat split; lia.
  - destruct (size <? 0); [discriminate |].
    destruct (firstn (Z.to_nat size) (skipn p bytes)) as [| b rest] eqn:Hdata;
      intros [= <- <-]; cbn [wrapped_file wrapped_bar content position total n
                             update length];
      repeat split; lia.
Qed.

Lemma reads_accounting (sizes : list Z) :
  forall self,
    let r := reads sizes self in
    let got := concat (fst r) in
    content (wrapped_file (snd r)) = content (wrapped_file self) /\
    position (wrapped_file (snd r)) =
      (position (wrapped_file self) + length got)%nat /\
    total (wrapped_bar (snd r)) = total (wrapped_bar self) /\
    n (wrapped_bar (snd r)) = n (wrapped_bar self) + Z.of_nat (length got) /\
    got = firstn (length got) (pending self).
Proof.
  induction sizes as [| size sizes IH]; intros self; cbv zeta.
  - cbn [reads fst snd concat length]. rewrite Nat.add_0_r, Z.add_0_r.
    repeat split.
  - cbn [reads].
    destruct (read size self) as [[data |] self'] eqn:Hread.
    + apply read_data in Hread as (Hc & Hp & Ht & Hn & Hdata).
      specialize (IH self'). cbv zeta in IH.
      destruct IH as (Hc' & Hp' & Ht' & Hn' & Hgot).
      cbn [fst snd concat]. rewrite length_app.
      split; [congruence |]. split; [lia |]. split; [congruence |].
      split; [lia |].
      rewrite Hc, Hp in Hgot.
      assert (Hd : data = firstn (length data) (pending self)).
      { rewrite Hdata. destruct (size =? -1);
          [rewrite firstn_all; reflexivity | apply firstn_length_firstn]. }
      rewrite Hgot at 1. rewrite Hd at 1.
      rewrite <- drop_drop.
      apply take_take_drop.
    + cbn [fst snd concat length]. rewrite Nat.add_0_r, Z.add_0_r.
      destruct self as [[bytes p] [tot cnt]]. unfold read, file_read in Hread.
      cbn [wrapped_file wrapped_bar content position] in Hread |- *.
      destruct (size =? -1).
      * destruct (skipn p bytes); discriminate.
      * destruct (size <? 0).
        -- injection Hread as <-. repeat split.
        -- destruct (firstn (Z.to_nat size) (skipn p bytes)); discriminate.
Qed.

(** X16. The wrapper counts what it hands out and changes nothing: after
    any sequence of calls of [read] on a file just opened, the chunks
    returned are, put together, the first bytes of the file, the counter of
    the progress bar is their number, and it never passes the total. *)
Theorem progress_counts_bytes_read (bytes : list Byte.byte) (sizes : list Z) :
  let r := reads sizes (opened bytes) in
  let got := concat (fst r) in
  got = firstn (length got) bytes /\
  n (wrapped_bar (snd r)) = Z.of_nat (length got) /\
  position (wrapped_file (snd r)) = length got /\
  0 <= n (wrapped_bar (snd r)) <= total (wrapped_bar (snd r)).
Proof.
  cbv zeta.
  destruct (reads_accounting sizes (opened bytes)) as (_ & Hp & Ht & Hn & Hgot).
  set (r := reads sizes (opened bytes)) in *.
  set (got := concat (fst r)) in *.
  change (got = firstn (length got) bytes) in Hgot.
  change (position (wrapped_file (snd r)) = (0 + length got)%nat) in Hp.
  change (total (wrapped_bar (snd r)) = Z.of_nat (length bytes)) in Ht.
  change (n (wrapped_bar (snd r)) = 0 + Z.of_nat (length got)) in Hn.
  assert (Hle : (length got <= length bytes)%nat)
    by (rewrite Hgot, length_firstn; lia).
  split; [exact Hgot |]. split; [lia |]. split; [lia |]. lia.
Qed.

Lemma sizes_sum_nonneg (sizes : list Z) :
  Forall (fun size => 0 <= size) sizes -> 0 <= fold_right Z.add 0 sizes.
Proof.
  induction 1 as [| size sizes Hsize _ IH]; cbn [fold_right]; lia.
Qed.

Lemma reads_all (sizes : list Z) :
  forall self,
    Forall (fun size => 0 <= size) sizes ->
    Z.of_nat (length (pending self)) <= fold_right Z.add 0 sizes ->
    concat (fst (reads sizes self)) = pending self.
Proof.
  induction sizes as [| size sizes IH]; intros self Hsizes Hsum.
  - cbn [fold_right] in Hsum. cbn [reads fst concat].
    destruct (pending self); [reflexivity | cbn [length] in Hsum; lia].
  - inversion Hsizes as [| ? ? Hsize Hsizes']; subst.
    cbn [fold_right] in Hsum. cbn [reads].
    destruct (read size self) as [[data |] self'] eqn:Hread.
    + apply read_data in Hread as (Hc & Hp & _ & _ & Hdata).
      destruct (Z.eqb_spec size (-1)) as [-> | _]; [lia |].
      cbn [fst concat]. rewrite (IH self' Hsizes').
      * rewrite Hc, Hp, Hdata. rewrite length_firstn.
        rewrite <- drop_drop.
        replace (skipn (Nat.min (Z.to_nat size) (length (pending self)))
                   (pending self))
          with (skipn (Z.to_nat size) (pending self));
          [apply firstn_skipn |].
        destruct (Nat.le_ge_cases (Z.to_nat size) (length (pending self)))
          as [Hle | Hge]; [f_equal; lia |].
        rewrite !skipn_all2; [reflexivity | lia | lia].
      * rewrite Hc, Hp, Hdata. rewrite length_firstn.
        rewrite <- drop_drop. rewrite !length_skipn.
        rewrite length_skipn in Hsum.
        pose proof (sizes_sum_nonneg sizes Hsizes'). lia.
    + exfalso. destruct self as [[bytes p] [tot cnt]].
      unfold read, file_read in Hread.
      cbn [wrapped_file wrapped_bar content position] in Hread.
      destruct (size =? -1); [destruct (skipn p bytes); discriminate |].
      destruct (Z.ltb_spec size 0); [lia |].
      destruct (firstn (Z.to_nat size) (skipn p bytes)); discriminate.
Qed.

(** X17. Read to the end, the wrapper has handed out the file, byte for
    byte, and the bar stands at its total: in one call with the default
    size -1, or in chunks whose sizes add up to the size of the file at
    least. *)
Theorem progress_complete (bytes : list Byte.byte) :
  (let r := read (-1) (opened bytes) in
   fst r = Data bytes /\
   n (wrapped_bar (snd r)) = total (wrapped_bar (snd r))) /\
  (forall sizes,
     Forall (fun size => 0 <= size) sizes ->
     Z.of_nat (length bytes) <= fold_right Z.add 0 sizes ->
     let r := reads sizes (opened bytes) in
     concat (fst r) = bytes /\
     n (wrapped_bar (snd r)) = total (wrapped_bar (snd r))).
Proof.
  split.
  - cbv zeta. unfold read, file_read, opened.
    cbn [wrapped_file wrapped_bar content position skipn Z.eqb Pos.eqb].
    destruct bytes as [| b bytes]; cbn [fst snd wrapped_bar n total update];
      split; try reflexivity; lia.
  - intros sizes Hsizes Hsum. cbv zeta.
    pose proof (reads_all sizes (opened bytes) Hsizes) as Hall.
    change (pending (opened bytes)) with bytes in Hall.
    specialize (Hall Hsum).
    destruct (reads_accounting sizes (opened bytes)) as (_ & _ & Ht & Hn & _).
    rewrite Hn, Ht, Hall. split; [reflexivity |].
    cbn [opened wrapped_bar n total]. lia.
Qed.

End ProgressWrapper.

Lemma progress_complete_witness :
  concat (fst (ProgressFile.reads [2; 0; 2; 8]
                 (ProgressFile.opened
                    [Byte.x61; Byte.x2c; Byte.x62; Byte.x0a; Byte.x31]))) =
    [Byte.x61; Byte.x2c; Byte.x62; Byte.x0a; Byte.x31].
Proof.
  apply (progress_complete
           [Byte.x61; Byte.x2c; Byte.x62; Byte.x0a; Byte.x31]).
  - repeat constructor; lia.
  - cbn. lia.
Defined.

(** ** Sizes that are whole multiples of a unit *)

Section WholeUnits.

Lemma hundredths_whole (k j : Z) :
  1 <= k -> 0 <= j -> hundredths (Dyadic (k * 2 ^ j) (- j)) = 100 * k.
Proof.
  intros Hk Hj. unfold hundredths, div_half_even. cbn [mant expo].
  assert (Hpow : 0 < 2 ^ j) by (apply Z.pow_pos_nonneg; lia).
  assert (Hpos : 0 < k * 2 ^ j) by (apply Z.mul_pos_pos; lia).
  rewrite (Z.sgn_pos _ Hpos), (Z.abs_eq (k * 2 ^ j)) by lia.
  rewrite Z.opp_involutive.
  destruct (Z.leb_spec 0 (- j)) as [H0 | Hneg].
  - replace j with 0 by lia. cbn. lia.
  - replace (k * 2 ^ j * 100) with (100 * k * 2 ^ j) by lia.
    rewrite Z.mod_mul, Z.div_mul by lia.
    destruct (Z.ltb_spec (2 * 0) (2 ^ j)); lia.
Qed.

Lemma render_fixed2_whole (k : Z) :
  0 <= k -> render_fixed2 (100 * k) = decimal k +:+ ".00".
Proof.
  intros Hk. unfold render_fixed2.
  rewrite (Z.abs_eq (100 * k)) by lia.
  destruct (Z.ltb_spec (100 * k) 0) as [Hneg | _]; [lia |].
  replace (100 * k / 100) with k by (rewrite Z.mul_comm, Z.div_mul; lia).
  replace ((100 * k) mod 100) with 0
    by (rewrite Z.mul_comm, Z.mod_mul; lia).
  replace ((100 * k) mod 10) with 0
    by (replace (100 * k) with (10 * k * 10) by lia; rewrite Z.mod_mul; lia).
  reflexivity.
Qed.

(** X22. A size that is a whole number [k] of a unit, [1 <= k < 1024], is
    shown as that number with two zero decimals and the unit: [k] bytes as
    ["k.00 B"], [k * 1024] as ["k.00 KB"], and so on up to TB. *)
Theorem format_file_size_whole_units (k : Z) (i : nat) :
  1 <= k < 1024 -> (i <= 4)%nat ->
  format_file_size (k * 1024 ^ Z.of_nat i) =
    Some ((decimal k +:+ ".00") +:+ " " +:+ unit_label i).
Proof.
  intros Hk Hi. unfold format_file_size.
  destruct i as [| i].
  - change (1024 ^ Z.of_nat 0) with 1. rewrite Z.mul_1_r.
    rewrite format_file_size_parts_B by lia. cbn [format_2f].
    rewrite float_of_int_exact
      by (split; [lia | apply Z.lt_trans with 1024; [lia | reflexivity]]).
    replace k with (k * 2 ^ 0) at 1 by (cbn; lia).
    change (Dyadic (k * 2 ^ 0) 0) with (Dyadic (k * 2 ^ 0) (- 0)).
    rewrite hundredths_whole, render_fixed2_whole by lia. reflexivity.
  - assert (Hexact : 1024 <= k * 1024 ^ Z.of_nat (S i) < 2 ^ 53).
    { do 4 (destruct i as [| i];
            [cbn [Z.of_nat Pos.of_succ_nat Pos.succ];
             match goal with
             | |- context [1024 ^ ?e] =>
                 let v := eval cbv in (1024 ^ e) in change (1024 ^ e) with v
             end;
             change (2 ^ 53) with 9007199254740992; lia |]).
      lia. }
    rewrite (format_file_size_parts_exact _ Hexact).
    do 4 (destruct i as [| i];
          [cbn [Z.of_nat Pos.of_succ_nat Pos.succ];
           match goal with
           | |- context [1024 ^ ?e] =>
               let v := eval cbv in (1024 ^ e) in change (1024 ^ e) with v
           end;
           repeat match goal with
                  | |- context [?a <? ?b] =>
                      destruct (Z.ltb_spec a b); try lia
                  end;
           cbn [format_2f];
           match goal with
           | |- context [Dyadic (k * ?v) (- ?j)] =>
               change v with (2 ^ j);
               rewrite (hundredths_whole k j) by lia
           | |- context [Dyadic (k * ?v) ?j] =>
               let j' := eval cbv in (- j) in
               change (Dyadic (k * v) j) with (Dyadic (k * 2 ^ j') (- j'));
               rewrite (hundredths_whole k j') by lia
           end;
           rewrite render_fixed2_whole by lia; reflexivity |]).
    lia.
Qed.

End WholeUnits.

Lemma format_file_size_whole_units_witness :
  format_file_size (5 * 1024 ^ 3) = Some "5.00 GB".
Proof.
  apply (format_file_size_whole_units 5 3); [lia | apply Nat.leb_le; reflexivity].
Defined.

(** ** The pipeline as a whole *)

Section Pipeline.

Lemma bind_run {A B} (m : proc A) (k : A -> proc B) (w w1 w2 : script)
    (a : A) (o : outcome B) (t1 t2 : list event) :
  m w = (Return a, w1, t1) -> k a w1 = (o, w2, t2) ->
  bind m k w = (o, w2, t1 ++ t2).
Proof. intros Hm Hk. unfold bind. rewrite Hm, Hk. reflexivity. Qed.

Lemma bind_exit {A B} (m : proc A) (k : A -> proc B) (w w1 : script)
    (c : Z) (t1 : list event) :
  m w = (Exit c, w1, t1) -> bind m k w = (Exit c, w1, t1).
Proof. intros Hm. unfold bind. rewrite Hm. reflexivity. Qed.

Lemma try_Exception_exit {A} (m : proc A) (h : exn -> proc A)
    (w w1 : script) (c : Z) (t1 : list event) :
  m w = (Exit c, w1, t1) -> try_except_Exception m h w = (Exit c, w1, t1).
Proof. intros Hm. unfold try_except_Exception. rewrite Hm. reflexivity. Qed.

Lemma try_Exception_caught {A} (m : proc A) (h : exn -> proc A)
    (w w1 w2 : script) (e : exn) (o : outcome A) (t1 t2 : list event) :
  m w = (Raise e, w1, t1) -> h e w1 = (o, w2, t2) ->
  try_except_Exception m h w = (o, w2, t1 ++ t2).
Proof.
  intros Hm Hh. unfold try_except_Exception. rewrite Hm, Hh. reflexivity.
Qed.

Lemma bind_raise {A B} (m : proc A) (k : A -> proc B) (w w1 : script)
    (e : exn) (t1 : list event) :
  m w = (Raise e, w1, t1) -> bind m k w = (Raise e, w1, t1).
Proof. intros Hm. unfold bind. rewrite Hm. reflexivity. Qed.

Lemma requests_sent_skip_warnings (uploads : list json) :
  requests_sent (skip_warnings uploads) = [].
Proof.
  induction uploads as [| u uploads IH]; [reflexivity |].
  unfold skip_warnings in *. cbn [flat_map]. rewrite requests_sent_app, IH.
  destruct (Py.isinstance_dict u); reflexivity.
Qed.

Lemma slept_skip_warnings (uploads : list json) :
  slept (skip_warnings uploads) = 0.
Proof.
  induction uploads as [| u uploads IH]; [reflexivity |].
  unfold skip_warnings in *. cbn [flat_map]. rewrite slept_app, IH.
  destruct (Py.isinstance_dict u); reflexivity.
Qed.

Lemma status_line_quiet (prev s : json) :
  slept (status_line prev s) = 0 /\ requests_sent (status_line prev s) = [].
Proof. unfold status_line. destruct (Py.eq s prev); split; reflexivity. Qed.

Variables (source_id file_path : string) (env : environ) (fs : filesystem).

Lemma get_access_token_granted (d : list (string * json)) (w : script) :
  blank (env !! "HARPIN_CLIENT_ID") = false ->
  blank (env !! "HARPIN_REFRESH_TOKEN") = false ->
  Py.truthy (Py.dict_get d "accessToken" JNull) = true ->
  get_access_token env (NetResponse (Response 200 (JObj d)) :: w) =
    (Return (Py.dict_get d "accessToken" JNull), w,
     [Log PROGRESS [Lit "Authenticating with harpin AI..."];
      Http (token_request env);
      Log SUCCESS [Lit "Authentication successful"]]).
Proof.
  intros Hid Htok Ht. unfold get_access_token, token_request.
  destruct (strip_not_blank _ Hid) as (a & s & ->).
  destruct (strip_not_blank _ Htok) as (a' & s' & ->).
  cbn [app]. proc_unfold. proc_eval0. cbn [Z.eqb Pos.eqb]. rewrite Ht.
  reflexivity.
Qed.

Lemma validate_file_refused (w : script) :
  file_accepted fs file_path = false -> stat_raises fs file_path = None ->
  exists tr,
    validate_file fs file_path w = (Exit 1, w, tr) /\ requests_sent tr = [].
Proof.
  unfold file_accepted, stat_raises. intros Hf Hr.
  pose proof (validate_file_not_found fs file_path w) as Hnot.
  destruct (fs !! file_path) as [[path | e] |] eqn:Hpath.
  - destruct (format_file_size_of_file path) as (s & Hs).
    rewrite (validate_file_found fs file_path path s w Hpath Hs).
    destruct (is_file path); [| eexists; split; reflexivity].
    destruct (readable path); [| eexists; split; reflexivity].
    cbn [andb negb] in Hf |- *. apply Z.leb_gt in Hf.
    rewrite Z.gtb_ltb. apply Z.ltb_lt in Hf. rewrite Hf.
    eexists; split; reflexivity.
  - rewrite Hnot. destruct (PyPath.ignore_error e); [| discriminate].
    eexists; split; reflexivity.
  - rewrite Hnot. eexists; split; reflexivity.
Qed.

Lemma validate_file_raises (e : errno) (w : script) :
  stat_raises fs file_path = Some e ->
  validate_file fs file_path w =
    (Raise (OSError e), w, [Log PROGRESS [Lit "Validating file..."]]).
Proof.
  unfold stat_raises. intros Hr.
  pose proof (validate_file_not_found fs file_path w) as Hnot.
  destruct (fs !! file_path) as [[path | e'] |]; try discriminate.
  rewrite Hnot. destruct (PyPath.ignore_error e'); [discriminate |].
  injection Hr as ->. reflexivity.
Qed.

Lemma validate_file_accepted :
  file_accepted fs file_path = true ->
  exists path s,
    fs !! file_path = Some (Stat path) /\
    forall w,
      validate_file fs file_path w =
        (Return (file_path, st_size path), w,
         [Log PROGRESS [Lit "Validating file..."];
          Log SUCCESS [Lit "File validated: "; Str (PyPath.name file_path);
                       Lit " ("; Str s; Lit ")"]]).
Proof.
  unfold file_accepted. intros Hf.
  destruct (fs !! file_path) as [[path | e] |] eqn:Hpath; try discriminate.
  destruct (format_file_size_of_file path) as (s & Hs).
  exists path, s. split; [reflexivity |]. intros w.
  rewrite (validate_file_found fs file_path path s w Hpath Hs).
  destruct (is_file path); [| discriminate].
  destruct (readable path); [| discriminate].
  cbn [andb negb] in Hf |- *. apply Z.leb_le in Hf.
  rewrite Z.gtb_ltb.
  destruct (Z.ltb_spec MAX_FILE_SIZE_BYTES (st_size path)); [lia |].
  reflexivity.
Qed.

Lemma validate_source_flat_file (access_token : json)
    (d : list (string * json)) (w : script) :
  Py.dict_get d "sourceSystem" (JStr "unknown") = JStr "flatFile" ->
  validate_source source_id access_token
    (NetResponse (Response 200 (JObj d)) :: w) =
    (Return true, w,
     [Log PROGRESS [Lit "Validating source ID: "; Str source_id; Lit "..."];
      Http (source_request source_id access_token);
      Log SUCCESS [Lit "Source ID validated: "; Str source_id]]).
Proof.
  intros Hd. unfold validate_source. proc_unfold. proc_eval. rewrite Hd.
  reflexivity.
Qed.

(** X18. [main] looks at the credentials before anything else: when one
    of them is absent, empty or blank, the process ends with exit code 1
    without a single request, whatever the file and the source. *)
Theorem main_credentials_first (w : script) :
  blank (env !! "HARPIN_CLIENT_ID") = true \/
  blank (env !! "HARPIN_REFRESH_TOKEN") = true ->
  exists tr,
    main source_id file_path env fs w = (Exit 1, w, tr) /\
    requests_sent tr = [].
Proof.
  intros Hblank. unfold main, get_access_token.
  assert (Hstrip : PyStr.strip (default [] (env !! "HARPIN_CLIENT_ID")) = [] \/
                   PyStr.strip (default [] (env !! "HARPIN_REFRESH_TOKEN")) = [])
    by (destruct Hblank as [H | H]; apply strip_blank in H; tauto).
  destruct (PyStr.strip (default [] (env !! "HARPIN_CLIENT_ID")));
    destruct (PyStr.strip (default [] (env !! "HARPIN_REFRESH_TOKEN")));
    try (destruct Hstrip; discriminate);
    eexists; split; reflexivity.
Qed.

(** X19. The file is looked at only after the token exchange: with the
    credentials set and a token granted, a file that fails the local checks
    ends the process when exactly one request, the token request, has been
    sent.  The exit code is 1, except when the lookup of the path itself
    raises an [OSError]: that one reaches the handler of [main] and the
    exit code is 2. *)
Theorem main_file_checked_after_login (token_d : list (string * json))
    (rest : script) :
  blank (env !! "HARPIN_CLIENT_ID") = false ->
  blank (env !! "HARPIN_REFRESH_TOKEN") = false ->
  Py.truthy (Py.dict_get token_d "accessToken" JNull) = true ->
  file_accepted fs file_path = false ->
  exists tr,
    main source_id file_path env fs
      (NetResponse (Response 200 (JObj token_d)) :: rest) =
      (Exit (match stat_raises fs file_path with Some _ => 2 | None => 1 end),
       rest, tr) /\
    requests_sent tr = [token_request env].
Proof.
  intros Hid Hrt Ht Hf.
  destruct (stat_raises fs file_path) as [e |] eqn:Hraises.
  - pose proof (validate_file_raises e rest Hraises) as Hfile.
    eexists. split.
    + unfold main. proc_unfold.
      do 3 (eapply bind_run; [reflexivity |]).
      eapply try_Exception_caught; [| reflexivity].
      eapply bind_run; [apply get_access_token_granted; assumption |].
      apply bind_raise. exact Hfile.
    + reflexivity.
  - destruct (validate_file_refused rest Hf Hraises) as (tf & Hfile & Hnone).
    eexists. split.
    + unfold main. proc_unfold.
      do 3 (eapply bind_run; [reflexivity |]).
      apply try_Exception_exit.
      eapply bind_run; [apply get_access_token_granted; assumption |].
      apply bind_exit. exact Hfile.
    + cbn [app requests_sent]. rewrite Hnone. reflexivity.
Qed.

(** X20. When the gate refuses, nothing has been created: after the token,
    the file and the source have passed, three or more uploads in flight
    end the process with exit code 1, and the requests sent are the token
    request and the two reads (the source, its uploads); what follows in
    the script is not read. *)
Theorem main_gate_refusal (token_d source_d : list (string * json))
    (b : json) (uploads : list json) (rest : script) :
  preflight_passes env fs file_path token_d source_d ->
  b = JList uploads \/
  (exists d, b = JObj d /\ Py.dict_get d "content" (JList []) = JList uploads) ->
  3 <= in_progress_count uploads ->
  let access_token := Py.dict_get token_d "accessToken" JNull in
  exists tr,
    main source_id file_path env fs
      (NetResponse (Response 200 (JObj token_d)) ::
       NetResponse (Response 200 (JObj source_d)) ::
       NetResponse (Response 200 b) :: rest) = (Exit 1, rest, tr) /\
    requests_sent tr =
      [token_request env; source_request source_id access_token;
       uploads_request source_id access_token].
Proof.
  intros (Hid & Hrt & Ht & Hf & Hsrc) Hb Hcount. cbv zeta.
  destruct (validate_file_accepted Hf) as (path & s & _ & Hfile).
  pose proof (check_concurrent_uploads_list source_id
                (Py.dict_get token_d "accessToken" JNull) b uploads rest Hb)
    as Hgate.
  destruct (Z.geb_spec (in_progress_count uploads) 3) as [_ | Hlt]; [| lia].
  eexists. split.
  - unfold main. proc_unfold.
    do 3 (eapply bind_run; [reflexivity |]).
    apply try_Exception_exit.
    eapply bind_run; [apply get_access_token_granted; assumption |].
    eapply bind_run; [apply Hfile |]. cbv zeta. cbn [fst snd].
    eapply bind_run; [apply validate_source_flat_file; assumption |].
    apply bind_exit. exact Hgate.
  - cbn [app requests_sent]. rewrite requests_sent_app.
    rewrite requests_sent_skip_warnings. reflexivity.
Qed.

Lemma create_upload_created (file_name : string) (access_token : json)
    (c : Z) (d : list (string * json)) (w : script) :
  c = 200 \/ c = 201 ->
  Py.truthy (Py.dict_get d "id" JNull) = true ->
  Py.truthy (Py.dict_get d "url" JNull) = true ->
  exists tr,
    create_upload source_id file_name access_token
      (NetResponse (Response c (JObj d)) :: w) =
      (Return (Py.dict_get d "id" JNull, Py.dict_get d "url" JNull), w, tr) /\
    slept tr = 0 /\ length (requests_sent tr) = 1%nat.
Proof.
  intros Hc Hid Hurl.
  assert (Hok : (c =? 200) || (c =? 201) = true)
    by (destruct Hc; subst; reflexivity).
  eexists. split; [| split]; cycle 1; [| | unfold create_upload;
    apply retry_on_network_error_pass; [| reflexivity];
    unfold create_upload__wrapped; proc_unfold; proc_eval0;
    rewrite Hok, Hid, Hurl; cbn [negb orb]; reflexivity];
    reflexivity.
Qed.

Lemma upload_to_s3_done (presigned_url : json) (path : string) (size : Z)
    (b : json) (w : script) :
  exists tr,
    upload_to_s3 presigned_url path size (NetResponse (Response 200 b) :: w) =
      (Return tt, w, tr) /\
    slept tr = 0 /\ length (requests_sent tr) = 1%nat.
Proof.
  eexists. split; [| split]; cycle 1; [| | unfold upload_to_s3;
    apply retry_on_network_error_pass; [| reflexivity];
    unfold upload_to_s3__wrapped; proc_unfold; proc_eval; reflexivity];
    reflexivity.
Qed.

Lemma request_import_accepted (upload_id access_token : json) (c : Z)
    (b : json) (w : script) :
  c = 200 \/ c = 202 \/ c = 204 ->
  exists tr,
    request_import source_id upload_id access_token
      (NetResponse (Response c b) :: w) = (Return tt, w, tr) /\
    slept tr = 0 /\ length (requests_sent tr) = 1%nat.
Proof.
  intros Hc.
  assert (Hok : (c =? 200) || (c =? 202) || (c =? 204) = true)
    by (destruct Hc as [-> | [-> | ->]]; reflexivity).
  eexists. split; [| split]; cycle 1; [| | unfold request_import;
    apply retry_on_network_error_pass; [| reflexivity];
    unfold request_import__wrapped; proc_unfold; proc_eval0;
    rewrite Hok; reflexivity];
    reflexivity.
Qed.

Lemma poll_status_completed (upload_id access_token : json)
    (target_status phase_name : string)
    (polls : list (list (string * json))) (d : list (string * json))
    (w : script) :
  target_status <> "failed" -> Forall (quiet target_status) polls ->
  status_of d = JStr target_status ->
  exists tr,
    poll_status source_id upload_id access_token target_status phase_name
      (poll_script (polls ++ [d]) ++ w) = (Return (JObj d), w, tr) /\
    slept tr = 5 * Z.of_nat (length polls) /\
    length (requests_sent tr) = S (length polls).
Proof.
  intros Hne Hq Hd.
  pose proof (poll_status__wrapped_target source_id upload_id access_token
                target_status phase_name polls d w Hne Hq Hd) as Hrun.
  eexists. split; [| split]; cycle 1;
    [| | unfold poll_status; apply retry_on_network_error_pass;
         [exact Hrun | reflexivity]].
  - cbn [app slept]. rewrite !slept_app, slept_waiting_trace.
    cbn [slept]. rewrite (proj1 (status_line_quiet _ _)). lia.
  - cbn [app requests_sent]. rewrite !requests_sent_app, !length_app.
    rewrite requests_sent_waiting_trace.
    cbn [requests_sent length].
    rewrite (proj2 (status_line_quiet _ _)). cbn [length]. lia.
Qed.

(** X21. The whole pipeline: with the preflight passed, fewer than three
    uploads in flight, an upload created with an id and a URL, the file
    accepted by the storage, and both waits ended by their target status,
    the process ends with exit code 0.  It has paused 5 seconds after each
    poll that did not end a wait and not otherwise, it has sent 8 requests
    beside those polls, it has read nothing past the last poll, and the
    summary shows the record counts of the last payload. *)
Theorem main_success_path
    (token_d source_d created d1 d2 : list (string * json))
    (uploads : list json) (polls1 polls2 : list (list (string * json)))
    (c_create c_import : Z) (stored imported : json) (rest : script) :
  preflight_passes env fs file_path token_d source_d ->
  in_progress_count uploads < 3 ->
  c_create = 200 \/ c_create = 201 ->
  Py.truthy (Py.dict_get created "id" JNull) = true ->
  Py.truthy (Py.dict_get created "url" JNull) = true ->
  Forall (quiet "analysisCompleted") polls1 ->
  status_of d1 = JStr "analysisCompleted" ->
  c_import = 200 \/ c_import = 202 \/ c_import = 204 ->
  Forall (quiet "importCompleted") polls2 ->
  status_of d2 = JStr "importCompleted" ->
  let w :=
    NetResponse (Response 200 (JObj token_d)) ::
    NetResponse (Response 200 (JObj source_d)) ::
    NetResponse (Response 200 (JList uploads)) ::
    NetResponse (Response c_create (JObj created)) ::
    NetResponse (Response 200 stored) ::
    poll_script (polls1 ++ [d1]) ++
    NetResponse (Response c_import imported) ::
    poll_script (polls2 ++ [d2]) ++ rest in
  exists tr,
    main source_id file_path env fs w = (Exit 0, rest, tr) /\
    slept tr = 5 * Z.of_nat (length polls1 + length polls2) /\
    length (requests_sent tr) = (8 + length polls1 + length polls2)%nat /\
    In (Log SUCCESS [Lit "Total Records: ";
                     Val (Py.dict_get d2 "totalRecords" (JNum 0))]) tr /\
    In (Log SUCCESS [Lit "Imported Records: ";
                     Val (Py.dict_get d2 "importedRecords" (JNum 0))]) tr.
Proof.
  intros (Hid & Hrt & Ht & Hf & Hsrc) Hcount Hc Hcid Hcurl Hq1 Hd1 Hci Hq2 Hd2.
  cbv zeta.
  set (access_token := Py.dict_get token_d "accessToken" JNull).
  set (upload_id := Py.dict_get created "id" JNull).
  set (url := Py.dict_get created "url" JNull).
  destruct (validate_file_accepted Hf) as (path & s & _ & Hfile).
  pose proof (check_concurrent_uploads_list source_id access_token
                (JList uploads) uploads
                (NetResponse (Response c_create (JObj created)) ::
                 NetResponse (Response 200 stored) ::
                 poll_script (polls1 ++ [d1]) ++
                 NetResponse (Response c_import imported) ::
                 poll_script (polls2 ++ [d2]) ++ rest)
                (or_introl eq_refl)) as Hgate.
  destruct (Z.geb_spec (in_progress_count uploads) 3) as [Hge | _]; [lia |].
  destruct (create_upload_created (PyPath.name file_path) access_token
              c_create created
              (NetResponse (Response 200 stored) ::
               poll_script (polls1 ++ [d1]) ++
               NetResponse (Response c_import imported) ::
               poll_script (polls2 ++ [d2]) ++ rest) Hc Hcid Hcurl)
    as (t5 & Hcreate & Hs5 & Hr5).
  destruct (upload_to_s3_done url file_path (st_size path) stored
              (poll_script (polls1 ++ [d1]) ++
               NetResponse (Response c_import imported) ::
               poll_script (polls2 ++ [d2]) ++ rest))
    as (t6 & Hput & Hs6 & Hr6).
  destruct (poll_status_completed upload_id access_token "analysisCompleted"
              "analysis" polls1 d1
              (NetResponse (Response c_import imported) ::
               poll_script (polls2 ++ [d2]) ++ rest)
              ltac:(discriminate) Hq1 Hd1)
    as (t7 & Hanalysis & Hs7 & Hr7).
  destruct (request_import_accepted upload_id access_token c_import imported
              (poll_script (polls2 ++ [d2]) ++ rest) Hci)
    as (t8 & Himport & Hs8 & Hr8).
  destruct (poll_status_completed upload_id access_token "importCompleted"
              "import" polls2 d2 rest ltac:(discriminate) Hq2 Hd2)
    as (t9 & Hfinal & Hs9 & Hr9).
  eexists. split; [| split; [| split; [| split]]].
  - unfold main. proc_unfold.
    do 3 (eapply bind_run; [reflexivity |]).
    apply try_Exception_exit.
    eapply bind_run; [apply get_access_token_granted; assumption |].
    eapply bind_run; [apply Hfile |]. cbv zeta. cbn [fst snd].
    eapply bind_run; [apply validate_source_flat_file; assumption |].
    eapply bind_run; [exact Hgate |].
    eapply bind_run; [exact Hcreate |]. cbv zeta. cbn [fst snd].
    eapply bind_run; [exact Hput |].
    eapply bind_run; [exact Hanalysis |].
    eapply bind_run; [exact Himport |].
    eapply bind_run; [exact Hfinal |].
    proc_eval0. reflexivity.
  - cbn [app slept]. rewrite !slept_app. cbn [slept].
    rewrite slept_skip_warnings, Hs5, Hs6, Hs7, Hs8, Hs9. cbn [slept]. lia.
  - cbn [app requests_sent length].
    rewrite !requests_sent_app, !length_app. cbn [requests_sent length].
    rewrite requests_sent_skip_warnings, Hr5, Hr6, Hr7, Hr8, Hr9.
    cbn [length]. lia.
  - rewrite !in_app_iff. cbn [In]. tauto.
  - rewrite !in_app_iff. cbn [In]. tauto.
Qed.

Lemma create_upload_unreachable (file_name : string) (access_token : json)
    (e1 e2 e3 : string) (w : script) :
  exists tr,
    create_upload source_id file_name access_token
      (NetError e1 :: NetError e2 :: NetError e3 :: w) =
      (Raise (RequestException e3), w, tr) /\
    slept tr = 20 /\ length (requests_sent tr) = 3%nat.
Proof.
  assert (Hfail : forall e w',
             create_upload__wrapped source_id file_name access_token
               (NetError e :: w') =
               (Raise (RequestException e), w',
                [Log PROGRESS [Lit "Creating upload..."];
                 Http (Request POST
                         [Lit API_BASE_URL; Lit "/sources/"; Str source_id;
                          Lit "/uploads"]
                         (Some access_token)
                         (JsonBody (JObj [("fileName", JStr file_name)])) 30)]))
    by reflexivity.
  eexists. split; [| split].
  - unfold create_upload, retry_on_network_error.
    rewrite retry_attempts_list.
    rewrite (retry_loop_again _ 1 _ _ _ _ _ _
               ltac:(unfold RETRY_ATTEMPTS; lia) (Hfail e1 _)).
    cbv zeta.
    rewrite (retry_loop_again _ 2 _ _ _ _ _ _
               ltac:(unfold RETRY_ATTEMPTS; lia) (Hfail e2 _)).
    cbv zeta.
    rewrite (retry_loop_last _ 3 _ _ _ _ _
               ltac:(unfold RETRY_ATTEMPTS; lia) (Hfail e3 _)).
    reflexivity.
  - reflexivity.
  - reflexivity.
Qed.

(** X23. What the decorator gives up on, [main] turns into exit code 2:
    when the creation of the upload meets three transport failures in a row,
    the exception of the third reaches the handler of [main], which reports
    it as an unexpected error, prints the traceback and ends the process
    with exit code 2, after two pauses of 10 seconds. *)
Theorem main_upload_unreachable (token_d source_d : list (string * json))
    (uploads : list json) (e1 e2 e3 : string) (rest : script) :
  preflight_passes env fs file_path token_d source_d ->
  in_progress_count uploads < 3 ->
  let w :=
    NetResponse (Response 200 (JObj token_d)) ::
    NetResponse (Response 200 (JObj source_d)) ::
    NetResponse (Response 200 (JList uploads)) ::
    NetError e1 :: NetError e2 :: NetError e3 :: rest in
  exists tr,
    main source_id file_path env fs w = (Exit 2, rest, tr) /\
    slept tr = 20 /\ length (requests_sent tr) = 6%nat /\
    In (Log ERROR [Lit "Unexpected error: "; ExcStr (RequestException e3)]) tr /\
    In (Traceback (RequestException e3)) tr.
Proof.
  intros (Hid & Hrt & Ht & Hf & Hsrc) Hcount. cbv zeta.
  set (access_token := Py.dict_get token_d "accessToken" JNull).
  destruct (validate_file_accepted Hf) as (path & s & _ & Hfile).
  pose proof (check_concurrent_uploads_list source_id access_token
                (JList uploads) uploads
                (NetError e1 :: NetError e2 :: NetError e3 :: rest)
                (or_introl eq_refl)) as Hgate.
  destruct (Z.geb_spec (in_progress_count uploads) 3) as [Hge | _]; [lia |].
  destruct (create_upload_unreachable (PyPath.name file_path) access_token
              e1 e2 e3 rest) as (t5 & Hcreate & Hs5 & Hr5).
  eexists. split; [| split; [| split; [| split]]].
  - unfold main. proc_unfold.
    do 3 (eapply bind_run; [reflexivity |]).
    eapply try_Exception_caught; [| reflexivity].
    eapply bind_run; [apply get_access_token_granted; assumption |].
    eapply bind_run; [apply Hfile |]. cbv zeta. cbn [fst snd].
    eapply bind_run; [apply validate_source_flat_file; assumption |].
    eapply bind_run; [exact Hgate |].
    apply bind_raise. exact Hcreate.
  - cbn [app slept]. rewrite !slept_app. cbn [slept].
    rewrite slept_skip_warnings, Hs5. reflexivity.
  - cbn [app requests_sent length].
    rewrite !requests_sent_app, !length_app. cbn [requests_sent length].
    rewrite requests_sent_skip_warnings, Hr5. reflexivity.
  - rewrite !in_app_iff. cbn [In]. tauto.
  - rewrite !in_app_iff. cbn [In]. tauto.
Qed.

End Pipeline.

Lemma main_credentials_first_witness :
  exists tr,
    main "S1" "absent.csv" Sample.env_blank_token Sample.fs Scenario.success =
      (Exit 1, Scenario.success, tr) /\
    requests_sent tr = [].
Proof.
  apply (main_credentials_first "S1" "absent.csv" Sample.env_blank_token
           Sample.fs Scenario.success).
  right. reflexivity.
Defined.

Lemma main_file_checked_after_login_witness :
  (exists tr,
     main "S1" "big.csv" Sample.env Sample.fs [Sample.token_ok] =
       (Exit 1, [], tr) /\
     requests_sent tr = [token_request Sample.env]) /\
  (exists tr,
     main "S1" "vault/data.csv" Sample.env
       (<["vault/data.csv" := StatError EACCES]> Sample.fs)
       [Sample.token_ok] = (Exit 2, [], tr) /\
     requests_sent tr = [token_request Sample.env]).
Proof.
  split.
  - apply (main_file_checked_after_login "S1" "big.csv" Sample.env Sample.fs
             [("accessToken", Sample.token)] []); reflexivity.
  - pose proof (main_file_checked_after_login "S1" "vault/data.csv" Sample.env
                  (<["vault/data.csv" := StatError EACCES]> Sample.fs)
                  [("accessToken", Sample.token)] []
                  eq_refl eq_refl eq_refl eq_refl) as Hrun.
    change (stat_raises (<["vault/data.csv" := StatError EACCES]> Sample.fs)
              "vault/data.csv") with (Some EACCES) in Hrun.
    exact Hrun.
Defined.

Lemma main_gate_refusal_witness :
  exists tr,
    main "S3" "data.csv" Sample.env Sample.fs Scenario.busy =
      (Exit 1,
       [Sample.ok 201 [("id", JStr "U2");
                       ("url", JStr "https://storage.example/U2")]], tr) /\
    requests_sent tr =
      [token_request Sample.env; source_request "S3" Sample.token;
       uploads_request "S3" Sample.token].
Proof.
  apply (main_gate_refusal "S3" "data.csv" Sample.env Sample.fs
           [("accessToken", Sample.token)]
           [("id", JStr "S3"); ("sourceSystem", JStr "flatFile")]
           (JList [JObj [("status", JStr "importInProgress")];
                   JObj [("status", JStr "importInProgress")];
                   JObj [("status", JStr "importInProgress")]])
           [JObj [("status", JStr "importInProgress")];
            JObj [("status", JStr "importInProgress")];
            JObj [("status", JStr "importInProgress")]]).
  - repeat split; reflexivity.
  - left. reflexivity.
  - apply Z.leb_le. reflexivity.
Defined.

Lemma main_success_path_witness :
  exists tr,
    main "S1" "data.csv" Sample.env Sample.fs Scenario.success =
      (Exit 0, [], tr) /\
    slept tr = 10 /\
    length (requests_sent tr) = 10%nat.
Proof.
  destruct (main_success_path "S1" "data.csv" Sample.env Sample.fs
              [("accessToken", Sample.token)]
              [("id", JStr "S1"); ("sourceSystem", JStr "flatFile")]
              [("id", JStr "U1"); ("url", JStr "https://storage.example/U1")]
              [("status", JStr "analysisCompleted")]
              [("status", JStr "importCompleted"); ("totalRecords", JNum 100);
               ("importedRecords", JNum 100)]
              []
              [[("status", JStr "analysisInProgress")]]
              [[("status", JStr "importInProgress")]]
              201 202 JNull JNull [])
    as (tr & Hrun & Hslept & Hsent & _).
  - repeat split; reflexivity.
  - apply Z.ltb_lt. reflexivity.
  - right. reflexivity.
  - reflexivity.
  - reflexivity.
  - repeat constructor; discriminate.
  - reflexivity.
  - right. left. reflexivity.
  - repeat constructor; discriminate.
  - reflexivity.
  - exists tr. split; [exact Hrun |]. split; [exact Hslept | exact Hsent].
Defined.

Lemma main_upload_unreachable_witness :
  exists tr,
    main "S1" "data.csv" Sample.env Sample.fs
      [Sample.token_ok;
       Sample.ok 200 [("sourceSystem", JStr "flatFile")];
       NetResponse (Response 200 (JList Sample.light_uploads));
       NetError "reset"; NetError "reset"; NetError "timeout"] =
      (Exit 2, [], tr) /\
    slept tr = 20 /\ length (requests_sent tr) = 6%nat /\
    In (Log ERROR [Lit "Unexpected error: ";
                   ExcStr (RequestException "timeout")]) tr /\
    In (Traceback (RequestException "timeout")) tr.
Proof.
  apply (main_upload_unreachable "S1" "data.csv" Sample.env Sample.fs
           [("accessToken", Sample.token)]
           [("sourceSystem", JStr "flatFile")]
           Sample.light_uploads "reset" "reset" "timeout" []).
  - repeat split; reflexivity.
  - apply Z.ltb_lt. reflexivity.
Defined.
